(** * Verification of [nmma.em.analysis]

    A shallow embedding of the inference orchestration in
    [src/nmma/em/analysis.py] (function [analysis]) and the properties of it
    that the specification states.

    Conventions of the embedding.

    - The magnitudes, epochs and errors of the photometry are [fnum]s: a
      finite value carried as an exact canonical rational ([Qc]), or one
      of [+inf], [-inf], [nan].  The special values follow IEEE-754; the
      finite arithmetic is exact, an idealisation of binary64 that leaves
      out rounding and the sign of zero.  The properties stated of it
      replay the operations of the source in the order of the source; none
      rests on a law that rounding breaks (associativity, cancellation).
    - The time grid is computed on doubles, bit for bit: the number of its
      points turns on the rounding of a quotient.  [np.log10] and
      [10 ** x] are parameters.
    - A Python [dict] is an association list in insertion order; a NumPy
      array of rows [mjd, mag, mag_unc] is a list of records.
    - A raised exception or a call of [exit] ends the computation: fallible
      code returns a [result]; what the run prints, and the call of the
      sampler, are events of a trace.
    - The iteration order of a Python [set] is unspecified; it is a
      parameter of the definitions that depend on it.
    - Library calls are embedded by their documented behaviour
      ([str.split], [dict], [zip], [sorted], [np.arange], [np.linspace],
      [np.where], [scipy.interpolate.interp1d]).  Collaborators outside
      the file are taken by their results: the regenerated magnitudes of
      [generate_lightcurve], the windowed data of [dataProcess], the loaded
      or injected data. *)

From Stdlib Require Import ZArith QArith Qcanon Psatz.
From Stdlib Require Import String Ascii List Sorted Lia.
From Stdlib Require SpecFloat.
From stdpp Require Import base list strings pretty.

(* ===================================================================== *)
(** * Part I: the embedding                                               *)
(* ===================================================================== *)

(** ** Floating-point values *)

Module Float.
Local Open Scope Qc_scope.

Inductive fnum : Type :=
| Fin (q : Qc)
| PInf
| NInf
| NaN.

Definition of_Z (z : Z) : fnum := Fin (Q2Qc (inject_Z z)).
Definition of_Q (q : Q) : fnum := Fin (Q2Qc q).
Definition of_nat (n : nat) : fnum := of_Z (Z.of_nat n).

Definition zero : fnum := of_Z 0.

(** [np.isfinite] *)
Definition isfinite (x : fnum) : bool :=
  match x with Fin _ => true | _ => false end.

(** [np.isnan] *)
Definition isnan (x : fnum) : bool :=
  match x with NaN => true | _ => false end.

Definition Qc_ltb (a b : Qc) : bool :=
  match (a ?= b) with Lt => true | _ => false end.

Definition Qc_eqb (a b : Qc) : bool :=
  match (a ?= b) with Eq => true | _ => false end.

Definition Qc_leb (a b : Qc) : bool :=
  match (a ?= b) with Gt => false | _ => true end.

(** [x < y]: any comparison with [nan] is false. *)
Definition fltb (x y : fnum) : bool :=
  match x, y with
  | NaN, _ | _, NaN => false
  | Fin a, Fin b => Qc_ltb a b
  | NInf, NInf => false
  | NInf, _ => true
  | _, NInf => false
  | PInf, _ => false
  | Fin _, PInf => true
  end.

(** [x <= y] *)
Definition fleb (x y : fnum) : bool :=
  match x, y with
  | NaN, _ | _, NaN => false
  | Fin a, Fin b => Qc_leb a b
  | NInf, _ => true
  | _, PInf => true
  | _, _ => false
  end.

Definition fneg (x : fnum) : fnum :=
  match x with
  | Fin a => Fin (- a)
  | PInf => NInf
  | NInf => PInf
  | NaN => NaN
  end.

(** Addition.  Two finite values add exactly, where the source rounds the
    sum to a double: the exact sum is associative and a shift cancels,
    which holds of doubles only up to rounding, and no property is stated
    on that ground. *)
Definition fadd (x y : fnum) : fnum :=
  match x, y with
  | NaN, _ | _, NaN => NaN
  | Fin a, Fin b => Fin (a + b)
  | PInf, NInf | NInf, PInf => NaN
  | PInf, _ | _, PInf => PInf
  | NInf, _ | _, NInf => NInf
  end.

Definition fsub (x y : fnum) : fnum := fadd x (fneg y).

(** An infinity of the sign of [a], or [nan] when [a] is zero. *)
Definition inf_of_sign (a : Qc) (pos : bool) : fnum :=
  match (a ?= 0) with
  | Eq => NaN
  | Gt => if pos then PInf else NInf
  | Lt => if pos then NInf else PInf
  end.

Definition fmul (x y : fnum) : fnum :=
  match x, y with
  | NaN, _ | _, NaN => NaN
  | Fin a, Fin b => Fin (a * b)
  | Fin a, PInf | PInf, Fin a => inf_of_sign a true
  | Fin a, NInf | NInf, Fin a => inf_of_sign a false
  | PInf, PInf | NInf, NInf => PInf
  | PInf, NInf | NInf, PInf => NInf
  end.

(** NumPy division: a division by zero yields an infinity or [nan] (with
    a warning), it does not raise. *)
Definition fdiv (x y : fnum) : fnum :=
  match x, y with
  | NaN, _ | _, NaN => NaN
  | Fin a, Fin b =>
      if Qc_eqb b 0 then inf_of_sign a true else Fin (a / b)
  | Fin _, PInf | Fin _, NInf => zero
  | PInf, Fin b => if Qc_ltb b 0 then NInf else PInf
  | NInf, Fin b => if Qc_ltb b 0 then PInf else NInf
  | _, _ => NaN
  end.

(** [x ** 2] *)
Definition fsq (x : fnum) : fnum := fmul x x.

(** [np.sum] of a one-dimensional array: with exact addition, the sum of
    its entries whatever the order NumPy adds them in. *)
Definition np_sum (l : list fnum) : fnum := fold_left fadd l zero.

End Float.
Export Float.

(** ** Exceptions and results *)

Inductive exn : Type :=
| ValueError (msg : string)
| KeyError (key : string)
| ZeroDivisionError
| UnboundLocalError (name : string)
| TypeError (msg : string)
| OverflowError (msg : string)
| SystemExit (status : Z).

Inductive result (A : Type) : Type :=
| Ok (a : A)
| Raise (e : exn).
Arguments Ok {A} a.
Arguments Raise {A} e.

#[global] Instance result_ret : MRet result := fun A a => Ok a.

#[global] Instance result_bind : MBind result := fun A B k m =>
  match m with
  | Ok a => k a
  | Raise e => Raise e
  end.

Definition is_ok {A : Type} (m : result A) : bool :=
  match m with Ok _ => true | Raise _ => false end.

(** ** Python built-ins *)

Module Py.

(** [s.split(sep)] for a one-character separator: never empty, the empty
    string splits into one empty field. *)
Fixpoint split (sep : ascii) (s : string) : list string :=
  match s with
  | EmptyString => [EmptyString]
  | String c rest =>
      if Ascii.eqb c sep then EmptyString :: split sep rest
      else match split sep rest with
           | [] => [String c EmptyString]
           | w :: ws => String c w :: ws
           end
  end.

Definition comma : ascii := ","%char.

(** Truth value of [str] or [None]: only a non-empty string is true. *)
Definition truthy (o : option string) : bool :=
  match o with
  | Some (String _ _) => true
  | _ => false
  end.

Section Dict.
Context {V : Type}.

Definition dict : Type := list (string * V).

Definition keys (d : dict) : list string := map fst d.

Fixpoint get (d : dict) (k : string) : option V :=
  match d with
  | [] => None
  | (k', v) :: rest => if String.eqb k k' then Some v else get rest k
  end.

(** [d[k]] *)
Definition getitem (d : dict) (k : string) : result V :=
  match get d k with
  | Some v => Ok v
  | None => Raise (KeyError k)
  end.

Definition contains (d : dict) (k : string) : bool :=
  match get d k with Some _ => true | None => false end.

(** [d[k] = v]: an existing key keeps its position. *)
Fixpoint set (d : dict) (k : string) (v : V) : dict :=
  match d with
  | [] => [(k, v)]
  | (k', v') :: rest =>
      if String.eqb k k' then (k', v) :: rest else (k', v') :: set rest k v
  end.

(** [del d[k]] *)
Fixpoint del (d : dict) (k : string) : dict :=
  match d with
  | [] => []
  | (k', v') :: rest =>
      if String.eqb k k' then rest else (k', v') :: del rest k
  end.

(** [dict(pairs)] *)
Definition of_pairs (l : list (string * V)) : dict :=
  fold_left (fun d kv => set d (fst kv) (snd kv)) l [].
End Dict.
Arguments dict V : clear implicits.

(** [zip(a, b)] *)
Fixpoint zip {A B : Type} (a : list A) (b : list B) : list (A * B) :=
  match a, b with
  | x :: a', y :: b' => (x, y) :: zip a' b'
  | _, _ => []
  end.

(** [l * n] for a list [l] *)
Fixpoint repeat_list {A : Type} (l : list A) (n : nat) : list A :=
  match n with
  | O => []
  | S n' => l ++ repeat_list l n'
  end.

Definition mem (x : string) (l : list string) : bool :=
  existsb (String.eqb x) l.

(** The distinct elements of [l], each at its first occurrence. *)
Fixpoint distinct (l : list string) : list string :=
  match l with
  | [] => []
  | x :: rest => x :: List.filter (fun y => negb (String.eqb x y)) (distinct rest)
  end.

End Py.

(** ** The light-curve data *)

(** One row [mjd, mag, mag_unc] of a per-filter array. *)
Record row : Type := Row { jd : fnum; mag : fnum; mag_unc : fnum }.

(** [data]: filter name to its array of rows. *)
Definition dataset : Type := Py.dict (list row).

(** [np.where(np.isfinite(a[:, 2]))[0]] followed by [a[idx, :]] *)
Definition finite_unc_rows (rows : list row) : list row :=
  List.filter (fun r => isfinite (mag_unc r)) rows.

Definition finite_mag_rows (rows : list row) : list row :=
  List.filter (fun r => isfinite (mag r)) rows.

(** ** Load-time filtering and validation (lines 590-611) *)

Module Validate.

(** One iteration of the loop of lines 592-596. *)
Definition remove_step (data : dataset) (filt : string) : dataset :=
  match Py.get data filt with
  | None => data
  | Some rows =>
      let kept := finite_unc_rows rows in
      let data' := Py.set data filt kept in
      if (length kept =? 0)%nat then Py.del data' filt else data'
  end.

(** [if args.remove_nondetections: ...]; the loop runs over a copy of the
    key list taken before the first deletion. *)
Definition remove_nondetections (data : dataset) : dataset :=
  fold_left remove_step (Py.keys data) data.

(** The loop of lines 601-609, with its [break]. *)
Fixpoint check_loop (entries : list (string * list row))
         (detection notallnan : bool) : bool * bool :=
  match entries with
  | [] => (detection, notallnan)
  | (_, rows) :: rest =>
      let detection :=
        if (0 <? length (finite_unc_rows rows))%nat then true else detection in
      let notallnan :=
        if (0 <? length (finite_mag_rows rows))%nat then true else notallnan in
      if detection && notallnan then (detection, notallnan)
      else check_loop rest detection notallnan
  end.

Definition no_detection_msg : string :=
  "Need at least one detection to do fitting.".

Definition check_detections (data : dataset) : result unit :=
  let '(detection, notallnan) := check_loop data false false in
  if negb detection || negb notallnan
  then Raise (ValueError no_detection_msg)
  else Ok tt.

(** The dataset as the later stages see it. *)
Definition staged (remove : bool) (data : dataset) : dataset :=
  if remove then remove_nondetections data else data.

Definition load_validate (remove : bool) (data : dataset) : result dataset :=
  let data := staged remove data in
  _ ← check_detections data; Ok data.

End Validate.

(** ** The six-column injection table (lines 500-565) *)

Module Injection.

(** One row of [data_out]: jd, mag, mag_unc, filter, limmag, programid. *)
Record table_row : Type := TableRow {
  t_jd : fnum;
  t_mag : fnum;
  t_mag_unc : fnum;
  t_filter : string;
  t_limmag : fnum;
  t_programid : fnum
}.

Definition ninety_nine : fnum := of_Z 99.

(** The body of [for row in data[filt]] (lines 529-559). *)
Definition emit_row (detection_limit : Py.dict fnum) (filt : string)
           (r : row) : table_row :=
  if negb (isfinite (mag_unc r)) then
    TableRow (jd r) ninety_nine ninety_nine filt (mag r) zero
  else
    match Py.get detection_limit filt with
    | Some lim => TableRow (jd r) (mag r) (mag_unc r) filt lim zero
    | None => TableRow (jd r) (mag r) (mag_unc r) filt PInf zero
    end.

(** [filt not in filts] (lines 516-527); membership in
    [list(set(xs))] is membership in [xs]. *)
Definition skipped (filters : option (list string))
           (augmentation : option string) (filt : string) : bool :=
  match filters with
  | Some ((_ :: _) as fs) =>
      let filts :=
        if Py.truthy augmentation
        then fs ++ Py.split Py.comma (default EmptyString augmentation)
        else fs in
      negb (Py.mem filt filts)
  | _ => false
  end.

(** [data_out] before [sort_values], which permutes the rows and leaves
    their fields as they are. *)
Definition data_out (data : dataset) (filters : option (list string))
           (augmentation : option string)
           (detection_limit : Py.dict fnum) : list table_row :=
  flat_map
    (fun kv =>
       if skipped filters augmentation (fst kv) then []
       else map (emit_row detection_limit (fst kv)) (snd kv))
    data.

(** Modelled from the spec: the observation-mode parser that loads the
    table back ([loadEvent], which is not under src/).  The spec has the
    round trip keep the points of the table, and a point hold an epoch, a
    magnitude and a magnitude uncertainty: a row gives the point made of
    its columns [jd], [mag] and [mag_unc], read by name (the index that
    [to_csv] writes in front is no column of the table). *)
Definition reload (t : table_row) : row :=
  Row (t_jd t) (t_mag t) (t_mag_unc t).

(** The test the pipeline applies to tell detections from upper limits
    (lines 593, 602, 825). *)
Definition is_detection (r : row) : bool := isfinite (mag_unc r).

End Injection.

(** ** Console output, process exit and the sampler call *)

(** What the run does that is visible from outside, in order. *)
Inductive event : Type :=
| Print (line : string)
| PrintDict (d : Py.dict Z)
| RunSampler (sampler : string) (nlive : option Z) (kwargs : Py.dict Z).

(** A computation that leaves a trace of events and returns or raises. *)
Record io (A : Type) : Type := IO { trace : list event; outcome : result A }.
Arguments IO {A} trace outcome.
Arguments trace {A} i.
Arguments outcome {A} i.

#[global] Instance io_ret : MRet io := fun A a => IO [] (Ok a).

#[global] Instance io_bind : MBind io := fun A B k m =>
  match outcome m with
  | Ok a => IO (trace m ++ trace (k a)) (outcome (k a))
  | Raise e => IO (trace m) (Raise e)
  end.

Definition print (line : string) : io unit := IO [Print line] (Ok tt).

Definition raise {A : Type} (e : exn) : io A := IO [] (Raise e).

(** [exit()]: [SystemExit(None)], which the interpreter turns into exit
    status 0; [exit(n)] gives status [n]. *)
Definition py_exit {A : Type} (status : option Z) : io A :=
  raise (SystemExit (default 0%Z status)).

(** The status the process ends with: 0 on a normal return, the argument of
    [exit], and 1 for an exception nobody catches. *)
Definition exit_status {A : Type} (m : io A) : Z :=
  match outcome m with
  | Ok _ => 0%Z
  | Raise (SystemExit n) => n
  | Raise _ => 1%Z
  end.

(** A local variable of [analysis]: assigned or not yet. *)
Inductive binding (A : Type) : Type :=
| Unbound
| Bound (a : A).
Arguments Unbound {A}.
Arguments Bound {A} a.

Definition read_local {A : Type} (name : string) (b : binding A) : io A :=
  match b with
  | Unbound => raise (UnboundLocalError name)
  | Bound a => mret a
  end.

Definition ran_sampler (e : event) : bool :=
  match e with RunSampler _ _ _ => true | _ => false end.

(** ** The sampler driver (lines 401-406 and 680-716) *)

Module Sampler.

Record sampler_args : Type := SamplerArgs {
  sampler : string;
  outdir : string;
  nlive : Z;
  reactive_sampling : bool;
  skip_sampling : bool
}.

Definition outdir_warning : string :=
  "WARNING: output directory name is too long, it should not be longer than 64 characters".

(** Lines 401-406. *)
Definition check_outdir (a : sampler_args) : io unit :=
  if String.eqb (sampler a) "pymultinest" then
    if (64 <? String.length (outdir a))%nat then
      _ ← print outdir_warning; py_exit None
    else mret tt
  else mret tt.

Definition reactive_unavailable : string :=
  "Reactive sampling is only available in ultranest".

(** Lines 686-693: the local [nlive] after the branch. *)
Definition choose_nlive (a : sampler_args) : io (binding (option Z)) :=
  if reactive_sampling a then
    if negb (String.eqb (sampler a) "ultranest") then
      _ ← print reactive_unavailable; mret Unbound
    else
      _ ← print "Running with reactive-sampling in ultranest";
      mret (Bound None)
  else mret (Bound (Some (nlive a))).

(** Lines 695-702. *)
Definition replay_kwargs (a : sampler_args) (kwargs : Py.dict Z)
  : io (Py.dict Z) :=
  if skip_sampling a then
    _ ← print "Sampling for 1 iteration and plotting checkpointed results.";
    mret (if String.eqb (sampler a) "pymultinest" then Py.set kwargs "max_iter" 1%Z
          else if String.eqb (sampler a) "ultranest" then Py.set kwargs "niter" 1%Z
          else if String.eqb (sampler a) "dynesty" then Py.set kwargs "maxiter" 1%Z
          else kwargs)
  else mret kwargs.

(** The keywords that the call of lines 704-716 passes by name. *)
Definition explicit_keywords : list string :=
  ["sampler"; "outdir"; "label"; "nlive"; "seed"; "soft_init";
   "queue_size"; "check_point_delta_t"]%string.

(** The first key of [**sampler_kwargs] that the call also passes by
    name. *)
Definition colliding (kwargs : Py.dict Z) : option string :=
  List.find (fun k => Py.mem k explicit_keywords) (Py.keys kwargs).

(** The [TypeError] of a keyword given twice, after the name of the
    function. *)
Definition multiple_values (key : string) : string :=
  ("got multiple values for keyword argument '" ++ key ++ "'")%string.

Section Call.
(** What the call of [bilby.run_sampler] ends with, given the sampler,
    the live points and the keyword arguments: it returns or raises. *)
Variable bilby_run_sampler : string -> option Z -> Py.dict Z -> result unit.

(** Lines 704-716: the arguments are evaluated in order, [nlive] among
    them; [**sampler_kwargs] is merged into the keywords, a key given
    twice raising before the call; then the sampler runs. *)
Definition run_sampler (a : sampler_args) (nlive : binding (option Z))
           (kwargs : Py.dict Z) : io unit :=
  n ← read_local "nlive" nlive;
  match colliding kwargs with
  | Some key => raise (TypeError (multiple_values key))
  | None =>
      IO [RunSampler (sampler a) n kwargs]
         (bilby_run_sampler (sampler a) n kwargs)
  end.

(** Lines 680-716, with [sampler_kwargs] already evaluated. *)
Definition drive (a : sampler_args) (sampler_kwargs : Py.dict Z) : io unit :=
  _ ← print "Running with the following additional sampler_kwargs:";
  _ ← IO [PrintDict sampler_kwargs] (Ok tt);
  nlive ← choose_nlive a;
  kwargs ← replay_kwargs a sampler_kwargs;
  run_sampler a nlive kwargs.
End Call.

End Sampler.

(** ** Filters and error budget (lines 613-647) *)

Module Resolver.

(** [args.error_budget]: a number (from a configuration file) or the
    command-line string. *)
Inductive budget_arg : Type :=
| BudgetNumber (x : fnum)
| BudgetString (s : string).

(** [[f(x) for x in l]] for a fallible [f]. *)
Fixpoint map_result {A B : Type} (f : A -> result B) (l : list A)
  : result (list B) :=
  match l with
  | [] => Ok []
  | x :: rest => y ← f x; ys ← map_result f rest; Ok (y :: ys)
  end.

(** [enumerate(l)], as [(value, index)] pairs. *)
Definition enumerate (l : list string) : list (string * nat) :=
  Py.zip l (seq 0 (length l)).

(** Stable insertion into a list sorted by key. *)
Fixpoint insert_by_key (k : nat) (v : string) (l : list (nat * string))
  : list (nat * string) :=
  match l with
  | [] => [(k, v)]
  | (k', v') :: rest =>
      if (k <=? k')%nat then (k, v) :: l else (k', v') :: insert_by_key k v rest
  end.

Definition sort_pairs (l : list (nat * string)) : list (nat * string) :=
  fold_right (fun kv acc => insert_by_key (fst kv) (snd kv) acc) [] l.

(** [sorted(l, key=lambda v: d[v])]: a stable sort; a missing key raises. *)
Definition sorted_by_index (l : list string) (d : Py.dict nat)
  : result (list string) :=
  keyed ← map_result (fun v => k ← Py.getitem d v; Ok (k, v)) l;
  Ok (map snd (sort_pairs keyed)).

Definition length_mismatch_msg : string :=
  "error_budget must be the same length as filters".

Section Environment.
(** [float(x)] on a string; [None] stands for its [ValueError]. *)
Variable to_float : string -> option fnum.

(** The order in which a set holding the given distinct elements is
    iterated. *)
Variable set_iter : list string -> list string.

Definition float_of (x : string) : result fnum :=
  match to_float x with
  | Some v => Ok v
  | None => Raise (ValueError "could not convert string to float")
  end.

(** [set(l)] *)
Definition set_of (l : list string) : list string :=
  set_iter (Py.distinct l).

(** [s1.intersection(s2)] *)
Definition intersection (s1 s2 : list string) : list string :=
  set_iter (List.filter (fun v => Py.mem v s2) s1).

(** Lines 613-616. *)
Definition parse_budget (b : budget_arg) : result (list fnum) :=
  match b with
  | BudgetNumber x => Ok [x]
  | BudgetString s => map_result float_of (Py.split Py.comma s)
  end.

(** Lines 618-626: the local [filters]. *)
Definition requested_filters (filters : string)
           (augmentation : option string) : list string :=
  if Py.truthy augmentation then
    set_of (Py.split Py.comma filters
              ++ Py.split Py.comma (default EmptyString augmentation))
  else Py.split Py.comma filters.

(** Lines 628-632. *)
Definition filters_to_analyze (filters : string)
           (augmentation : option string) (data : dataset)
  : result (list string) :=
  let fs := requested_filters filters augmentation in
  let values_to_indices := Py.of_pairs (enumerate fs) in
  sorted_by_index (intersection (set_of fs) (set_of (Py.keys data)))
                  values_to_indices.

(** [dict(zip(fs, error_budget * len(fs)))] *)
Definition broadcast (fs : list string) (error_budget : list fnum)
  : Py.dict fnum :=
  Py.of_pairs (Py.zip fs (Py.repeat_list error_budget (length fs))).

(** Lines 613-647: the analyzed filters and the error budget. *)
Definition resolve (filters augmentation : option string)
           (error_budget : budget_arg) (data : dataset)
  : result (list string * Py.dict fnum) :=
  error_budget ← parse_budget error_budget;
  if Py.truthy filters then
    let filters := default EmptyString filters in
    fta ← filters_to_analyze filters augmentation data;
    if (length error_budget =? 1)%nat then
      Ok (fta, broadcast fta error_budget)
    else if (length (Py.split Py.comma filters) =? length error_budget)%nat then
      Ok (fta, Py.of_pairs (Py.zip (Py.split Py.comma filters) error_budget))
    else Raise (ValueError length_mismatch_msg)
  else
    let fta := Py.keys data in
    Ok (fta, broadcast fta error_budget).
End Environment.

(** A reading of [float] on plain decimal literals ([12], [0.25], [.5],
    [3.]); signs, exponents and the named values are not read. *)
Definition digit (c : ascii) : option Z :=
  let n := nat_of_ascii c in
  if ((48 <=? n) && (n <=? 57))%nat then Some (Z.of_nat (n - 48)) else None.

Fixpoint digits (s : string) (acc : Z) : option Z :=
  match s with
  | EmptyString => Some acc
  | String c rest =>
      match digit c with
      | Some d => digits rest (10 * acc + d)%Z
      | None => None
      end
  end.

Definition parse_decimal (s : string) : option fnum :=
  match Py.split "."%char s with
  | [ip] =>
      if (String.length ip =? 0)%nat then None
      else z ← digits ip 0%Z; Some (of_Z z)
  | [ip; fp] =>
      if (String.length ip + String.length fp =? 0)%nat then None
      else z ← digits (ip ++ fp)%string 0%Z;
           Some (of_Q (Qmake z (Pos.of_nat (10 ^ String.length fp))))
  | _ => None
  end.

End Resolver.

(** ** Best fit and goodness of fit (lines 797-845) *)

Module BestFit.

(** *** [scipy.interpolate.interp1d], linear, with its default bounds
    check.  The abscissae are taken in increasing order, as the sample
    times are. *)

Definition feqb (x y : fnum) : bool :=
  match x, y with
  | Fin a, Fin b => Qc_eqb a b
  | PInf, PInf | NInf, NInf => true
  | _, _ => false
  end.

(** The piecewise-linear function through the points [(xs, ys)], at a
    [t] inside their range. *)
Fixpoint linear (xs ys : list fnum) (t : fnum) : fnum :=
  match xs, ys with
  | x0 :: ((x1 :: _) as xs'), y0 :: ((y1 :: _) as ys') =>
      if fltb t x1 then
        if feqb t x0 then y0
        else fadd (fmul (fdiv (fsub y1 y0) (fsub x1 x0)) (fsub t x0)) y0
      else linear xs' ys' t
  | [_], [y0] => y0
  | _, _ => NaN
  end.

Record interpolant : Type := Interpolant { xp : list fnum; fp : list fnum }.

(** [interp1d(x, y)] *)
Definition interp1d (x y : list fnum) : result interpolant :=
  if negb (length x =? length y)%nat then
    Raise (ValueError "x and y arrays must be equal in length along interpolation axis.")
  else if (length x =? 0)%nat then
    Raise (ValueError "x and y arrays must have at least 1 entries")
  else Ok (Interpolant x y).

Definition below (xs : list fnum) (t : fnum) : bool :=
  match xs with
  | x0 :: _ => fltb t x0
  | [] => false
  end.

Definition above (xs : list fnum) (t : fnum) : bool :=
  match List.last (map Some xs) None with
  | Some xn => fltb xn t
  | None => false
  end.

Definition eval (f : interpolant) (t : fnum) : fnum :=
  if isnan t then NaN else linear (xp f) (fp f) t.

(** [interp(x_new)] on an array: one value out of range raises. *)
Definition call (f : interpolant) (x_new : list fnum) : result (list fnum) :=
  if existsb (below (xp f)) x_new then
    Raise (ValueError "A value in x_new is below the interpolation range.")
  else if existsb (above (xp f)) x_new then
    Raise (ValueError "A value in x_new is above the interpolation range.")
  else Ok (map (eval f) x_new).

(** *** NumPy indexing and element-wise arithmetic *)

(** [np.where(np.isfinite(a))[0]] *)
Fixpoint where_finite_from (i : nat) (a : list fnum) : list nat :=
  match a with
  | [] => []
  | x :: rest =>
      if isfinite x then i :: where_finite_from (S i) rest
      else where_finite_from (S i) rest
  end.

Definition where_finite (a : list fnum) : list nat := where_finite_from 0 a.

(** [a[idx]] for an index array within bounds *)
Definition take (a : list fnum) (idx : list nat) : list fnum :=
  map (fun i => nth i a NaN) idx.

Fixpoint zip_with (f : fnum -> fnum -> fnum) (a b : list fnum) : list fnum :=
  match a, b with
  | x :: a', y :: b' => f x y :: zip_with f a' b'
  | _, _ => []
  end.

Definition bestfit_sample_times : string := "bestfit_sample_times".

(** *** The computation *)

(** Lines 797-802: the time axis stored with the magnitudes, shifted when
    the best-fit parameters hold a [timeshift]. *)
Definition store_sample_times (sample_times : list fnum)
           (mag : Py.dict (list fnum)) (bestfit_params : Py.dict fnum)
  : result (Py.dict (list fnum)) :=
  let mag := Py.set mag bestfit_sample_times sample_times in
  if Py.contains bestfit_params "timeshift" then
    times ← Py.getitem mag bestfit_sample_times;
    timeshift ← Py.getitem bestfit_params "timeshift";
    Ok (Py.set mag bestfit_sample_times
               (map (fun t => fadd t timeshift) times))
  else Ok mag.

(** Lines 828-831. *)
Definition effective_error (bestfit_params error_budget : Py.dict fnum)
           (filt : string) : result fnum :=
  if Py.contains bestfit_params "em_syserr"
  then Py.getitem bestfit_params "em_syserr"
  else Py.getitem error_budget filt.

(** Lines 815-839 for one filter: [None] when the filter has no
    detection, else [chi2_per_filt] and [len(finite_idx)].
    [processed_data] is what [dataProcess] returned; [samples] is a deep
    copy of its array, so the in-place shift of [t] stays local. *)
Definition chi2_of_filter (mag_dict : Py.dict (list fnum))
           (bestfit_params error_budget : Py.dict fnum)
           (processed_data : dataset) (filt : string)
  : result (option (fnum * nat)) :=
  sample_times ← Py.getitem mag_dict bestfit_sample_times;
  mag_used ← Py.getitem mag_dict filt;
  interp ← interp1d sample_times mag_used;
  samples ← Py.getitem processed_data filt;
  let t := map jd samples in
  let y := map mag samples in
  let sigma_y := map mag_unc samples in
  t ← (if Py.contains bestfit_params "timeshift" then
         timeshift ← Py.getitem bestfit_params "timeshift";
         Ok (map (fun x => fadd x timeshift) t)
       else Ok t);
  let finite_idx := where_finite sigma_y in
  if (0 <? length finite_idx)%nat then
    err ← effective_error bestfit_params error_budget filt;
    let t_det := take t finite_idx in
    let y_det := take y finite_idx in
    let sigma_y_det := take sigma_y finite_idx in
    fitted ← call interp t_det;
    let num := map fsq (zip_with fsub y_det fitted) in
    let den := map (fun s => fadd (fsq s) (fsq err)) sigma_y_det in
    let chi2_per_filt := np_sum (zip_with fdiv num den) in
    Ok (Some (chi2_per_filt, length finite_idx))
  else Ok None.

(** The accumulators of lines 810-812. *)
Record totals : Type := Totals {
  chi2 : fnum;
  dof : nat;
  chi2_per_dof_dict : Py.dict fnum
}.

(** Lines 841-843. *)
Definition accumulate (acc : totals) (filt : string)
           (r : option (fnum * nat)) : totals :=
  match r with
  | Some (chi2_per_filt, n) =>
      Totals (fadd (chi2 acc) chi2_per_filt) (dof acc + n)
             (Py.set (chi2_per_dof_dict acc) filt
                     (fdiv chi2_per_filt (of_nat n)))
  | None => acc
  end.

(** The loop of lines 813-843. *)
Fixpoint chi2_loop (mag_dict : Py.dict (list fnum))
         (bestfit_params error_budget : Py.dict fnum)
         (processed_data : dataset) (filters_to_analyze : list string)
         (acc : totals) : result totals :=
  match filters_to_analyze with
  | [] => Ok acc
  | filt :: rest =>
      r ← chi2_of_filter mag_dict bestfit_params error_budget
                         processed_data filt;
      chi2_loop mag_dict bestfit_params error_budget processed_data rest
                (accumulate acc filt r)
  end.

(** Line 845, [chi2 / dof].  With no contribution both are still the
    Python floats [0.0], whose division raises; after a contribution
    [chi2] is a NumPy scalar and [dof] is positive. *)
Definition divide (acc : totals) : result fnum :=
  if (dof acc =? 0)%nat then Raise ZeroDivisionError
  else Ok (fdiv (chi2 acc) (of_nat (dof acc))).

(** Lines 810-845. *)
Definition chi2_per_dof (mag_dict : Py.dict (list fnum))
           (bestfit_params error_budget : Py.dict fnum)
           (processed_data : dataset) (filters_to_analyze : list string)
  : result (fnum * Py.dict fnum) :=
  acc ← chi2_loop mag_dict bestfit_params error_budget processed_data
                  filters_to_analyze (Totals zero 0 []);
  total ← divide acc;
  Ok (total, chi2_per_dof_dict acc).

(** Lines 797-845, from the regenerated magnitudes (distance modulus
    applied) to the goodness of fit. *)
Definition goodness_of_fit (sample_times : list fnum)
           (mag_dict : Py.dict (list fnum))
           (bestfit_params error_budget : Py.dict fnum)
           (processed_data : dataset) (filters_to_analyze : list string)
  : result (fnum * Py.dict fnum) :=
  mag_dict ← store_sample_times sample_times mag_dict bestfit_params;
  chi2_per_dof mag_dict bestfit_params error_budget processed_data
               filters_to_analyze.

End BestFit.

(** ** Plotting (lines 881-911): what it does to the stored data *)

Module Plot.

(** [np.where(~np.isnan(y))[0]] is not empty *)
Definition has_non_nan (rows : list row) : bool :=
  existsb (fun r => negb (isnan (mag r))) rows.

(** Lines 881-891. *)
Definition filters_plot (data : dataset) (filters_to_analyze : list string)
  : list string :=
  List.filter
    (fun filt => match Py.get data filt with
                 | Some samples => has_non_nan samples
                 | None => false
                 end)
    filters_to_analyze.

(** [t -= trigger_time], where [t = samples[:, 0]] and
    [samples = data[filt]]: [t] is a view of the stored array, and the
    subtraction in place writes the stored array. *)
Definition shift_epochs (trigger_time : fnum) (samples : list row)
  : list row :=
  map (fun r => Row (fsub (jd r) trigger_time) (mag r) (mag_unc r)) samples.

Definition isub_epochs (data : dataset) (filt : string)
           (trigger_time : fnum) : result dataset :=
  samples ← Py.getitem data filt;
  Ok (Py.set data filt (shift_epochs trigger_time samples)).

(** The loop of lines 900-995, reduced to its effect on [data]; the
    later selections [t[idx]] are copies. *)
Fixpoint plot_loop (data : dataset) (trigger_time : fnum)
         (filters : list string) : result dataset :=
  match filters with
  | [] => Ok data
  | filt :: rest =>
      data ← isub_epochs data filt trigger_time;
      plot_loop data trigger_time rest
  end.

(** [data] when the [if args.plot] block is done. *)
Definition plot (data : dataset) (trigger_time : fnum)
           (filters_to_analyze : list string) : result dataset :=
  plot_loop data trigger_time (filters_plot data filters_to_analyze).

End Plot.

(** ** Double precision

    The number of points of the time grid turns on the rounding of a
    quotient, so the grid is computed on IEEE-754 binary64 values, bit for
    bit, with the operations of the standard library's [SpecFloat]
    (round to nearest, ties to even). *)

Module Double.
Import SpecFloat.

Definition double : Type := spec_float.

Definition prec : Z := 53.
Definition emax : Z := 1024.

Definition dadd : double -> double -> double := SFadd prec emax.
Definition dsub : double -> double -> double := SFsub prec emax.
Definition dmul : double -> double -> double := SFmul prec emax.
Definition ddiv : double -> double -> double := SFdiv prec emax.

Definition deqb : double -> double -> bool := SFeqb.

Definition is_zero (x : double) : bool :=
  match x with S754_zero _ => true | _ => false end.


Definition sign_bit (x : double) : bool :=
  match x with
  | S754_zero s | S754_infinity s | S754_finite s _ _ => s
  | S754_nan => false
  end.

(** The double nearest to an integer; exact up to [2 ** 53]. *)
Definition of_Z (z : Z) : double := binary_normalize prec emax z 0 false.

Definition dzero : double := S754_zero false.

(** The double that [float] reads from the decimal [n / 10 ** k], for
    [n] up to [2 ** 53] and [k] up to 22: both are doubles, and their
    quotient is rounded once. *)
Definition of_decimal (n : Z) (k : nat) : double :=
  ddiv (of_Z n) (of_Z (10 ^ Z.of_nat k)).

(** The integer part of a finite double, toward zero. *)
Definition trunc (x : double) : Z :=
  match x with
  | S754_finite s m e =>
      let v := if s then Zneg m else Zpos m in
      match e with
      | Zneg p => Z.quot v (2 ^ Zpos p)
      | _ => (v * 2 ^ e)%Z
      end
  | _ => 0%Z
  end.

(** The least integer not below a finite double. *)
Definition ceil (x : double) : Z :=
  match x with
  | S754_finite s m e =>
      let v := if s then Zneg m else Zpos m in
      match e with
      | Zneg p => (- ((- v) / 2 ^ Zpos p))%Z
      | _ => (v * 2 ^ e)%Z
      end
  | _ => 0%Z
  end.

End Double.

(** ** The time grid (lines 422-431)

    The times of the arguments are Python floats: doubles.  [np.log10]
    and [10 ** x] are functions of the C library, taken as parameters;
    [np.arange] and [np.linspace] are embedded with the operations NumPy
    carries out on doubles. *)

Module TimeGrid.
Import SpecFloat Double.

(** [--n-tstep] as the parser leaves it when the option is not on the
    command line ([get_parser], lines 97-102). *)
Definition default_n_tstep : option Z := Some 50%Z.

(** Truth value of [args.n_tstep]: [None] and [0] are false. *)
Definition given (n_tstep : option Z) : bool :=
  match n_tstep with
  | Some n => negb (n =? 0)%Z
  | None => false
  end.

(** [x / y] on Python floats: a zero divisor raises. *)
Definition py_div (x y : double) : result double :=
  if is_zero y then Raise ZeroDivisionError else Ok (ddiv x y).

(** [int(x)] of a Python float: truncation toward zero. *)
Definition py_int (x : double) : result Z :=
  match x with
  | S754_nan => Raise (ValueError "cannot convert float NaN to integer")
  | S754_infinity _ =>
      Raise (OverflowError "cannot convert float infinity to integer")
  | _ => Ok (trunc x)
  end.

(** Lines 423-426. *)
Definition n_step (n_tstep : option Z) (tmin tmax dt : double) : result Z :=
  if given n_tstep then Ok (default 0%Z n_tstep)
  else q ← py_div (dsub tmax tmin) dt; py_int q.

(** The length of [np.arange(start, stop, step)]: the ceiling of the
    quotient, as a machine integer; a quotient that is zero for a
    non-zero difference (underflow, or an infinite step) counts one
    point when it is [+0.0] and none when it is [-0.0]. *)
Definition arange_length (difference q : double) : result Z :=
  match q with
  | S754_nan => Raise (ValueError "arange: cannot compute length")
  | S754_infinity _ =>
      Raise (OverflowError "arange: overflow while computing length")
  | _ =>
      let c := ceil q in
      if negb ((- 2 ^ 63 <=? c) && (c <=? 2 ^ 63))%Z then
        Raise (OverflowError "arange: overflow while computing length")
      else if is_zero q && negb (is_zero difference) then
        Ok (if sign_bit q then 0 else 1)%Z
      else Ok c
  end.

(** The point of index [i]: the first is [start], the second
    [next = start + step], and from the third on
    [start + i * (next - start)]. *)
Definition arange_point (start next : double) (i : nat) : double :=
  match i with
  | O => start
  | S O => next
  | _ => dadd start (dmul (of_Z (Z.of_nat i)) (dsub next start))
  end.

(** [np.arange(start, stop, step)] on Python floats; the array is taken
    to fit in memory. *)
Definition arange (start stop step : double) : result (list double) :=
  let difference := dsub stop start in
  q ← py_div difference step;
  len ← arange_length difference q;
  Ok (map (arange_point start (dadd start step)) (seq 0 (Z.to_nat len))).

(** [np.linspace(start, stop, num)] for [num >= 0], end point included:
    [i * step + start] with [step = (stop - start) / (num - 1)], or
    [(i / (num - 1)) * (stop - start) + start] when that step is zero;
    the last of two points or more is set to [stop]. *)
Definition linspace (start stop : double) (num : nat) : list double :=
  let delta := dsub stop start in
  let div := (Z.of_nat num - 1)%Z in
  let scaled (i : double) : double :=
    if (0 <? div)%Z then
      let step := ddiv delta (of_Z div) in
      if deqb step dzero then dmul (ddiv i (of_Z div)) delta
      else dmul i step
    else dmul i delta in
  map (fun i => if (1 <? num)%nat && (i =? num - 1)%nat then stop
                else dadd (scaled (of_Z (Z.of_nat i))) start)
      (seq 0 num).

Definition negative_samples (num : Z) : string :=
  ("Number of samples, " ++ pretty num ++ ", must be non-negative.")%string.

Section Libm.
(** [np.log10] and [10.0 ** x] on doubles. *)
Variables np_log10 np_power10 : double -> double.

(** [np.logspace(start, stop, num)]: [10 ** linspace(start, stop, num)] *)
Definition logspace (start stop : double) (num : Z) : result (list double) :=
  if (num <? 0)%Z then Raise (ValueError (negative_samples num))
  else Ok (map np_power10 (linspace start stop (Z.to_nat num))).

(** Lines 422-431. *)
Definition sample_times (log_space_time : bool) (n_tstep : option Z)
           (tmin tmax dt : double) : result (list double) :=
  if log_space_time then
    n ← n_step n_tstep tmin tmax dt;
    logspace (np_log10 tmin) (np_log10 (dadd tmax dt)) n
  else arange tmin (dadd tmax dt) dt.
End Libm.

End TimeGrid.

(** ** Best-fit selection and distance modulus (lines 779-796) *)

Module Report.

(** The scan of [np.argmax]: the first maximum wins, and a [nan] counts
    as a maximum. *)
Fixpoint argmax_from (l : list fnum) (i : nat) (best : fnum) (best_i : nat)
  : nat :=
  match l with
  | [] => best_i
  | x :: rest =>
      if isnan best then best_i
      else if isnan x || fltb best x then argmax_from rest (S i) x i
           else argmax_from rest (S i) best best_i
  end.

(** [np.argmax(a)] for a one-dimensional array. *)
Definition argmax (a : list fnum) : result nat :=
  match a with
  | [] => Raise (ValueError "attempt to get argmax of an empty sequence")
  | x :: rest => Ok (argmax_from rest 1 x 0)
  end.

(** Lines 780-783: the posterior table as the dictionary of its columns
    ([to_dict(orient="list")]), every column of the length of the table;
    each key is rebound to the entry of its column at the best-fit index. *)
Definition select_row (columns : Py.dict (list fnum)) (idx : nat)
  : Py.dict fnum :=
  fold_left
    (fun params key =>
       match Py.get columns key with
       | Some column => Py.set params key (nth idx column NaN)
       | None => params
       end)
    (Py.keys columns) [].

(** Lines 779-783, with the [log_likelihood] column of the table. *)
Definition bestfit (log_likelihood : list fnum)
           (columns : Py.dict (list fnum)) : result (nat * Py.dict fnum) :=
  bestfit_idx ← argmax log_likelihood;
  Ok (bestfit_idx, select_row columns bestfit_idx).

Section Modulus.
(** [5.0 * np.log10(d * 1e6 / 10.0)] as a function of the distance. *)
Variable modulus : fnum -> fnum.

(** One iteration of the loop of lines 792-796: [mag[filt] += ...] when
    the distance is positive. *)
Definition add_modulus (bestfit_params : Py.dict fnum)
           (mag_dict : Py.dict (list fnum)) (filt : string)
  : result (Py.dict (list fnum)) :=
  d ← Py.getitem bestfit_params "luminosity_distance";
  if fltb zero d then
    trajectory ← Py.getitem mag_dict filt;
    Ok (Py.set mag_dict filt (map (fun m => fadd m (modulus d)) trajectory))
  else Ok mag_dict.

Fixpoint modulus_loop (bestfit_params : Py.dict fnum)
         (mag_dict : Py.dict (list fnum)) (filters : list string)
  : result (Py.dict (list fnum)) :=
  match filters with
  | [] => Ok mag_dict
  | filt :: rest =>
      mag_dict ← add_modulus bestfit_params mag_dict filt;
      modulus_loop bestfit_params mag_dict rest
  end.

(** Lines 792-796. *)
Definition apply_distance (bestfit_params : Py.dict fnum)
           (mag_dict : Py.dict (list fnum)) : result (Py.dict (list fnum)) :=
  modulus_loop bestfit_params mag_dict (Py.keys mag_dict).
End Modulus.

End Report.

(** ** Filters, trigger time and injection parameters (lines 434-472 and
    578-588) *)

Module Load.

(** [s.replace(" ", "")] *)
Fixpoint remove_spaces (s : string) : string :=
  match s with
  | EmptyString => EmptyString
  | String c rest =>
      if Ascii.eqb c " "%char then remove_spaces rest
      else String c (remove_spaces rest)
  end.

(** Lines 434-440. *)
Definition parse_filters (filters : option string)
  : result (option (list string)) :=
  if Py.truthy filters then
    let filters :=
      Py.split Py.comma (remove_spaces (default EmptyString filters)) in
    if (length filters =? 0)%nat
    then Raise (ValueError "Need at least one valid filter.")
    else Ok (Some filters)
  else Ok None.

(** [np.minimum(x, y)]: a [nan] on either side gives [nan]. *)
Definition fminimum (x y : fnum) : fnum :=
  if isnan x then x
  else if isnan y then y
  else if fltb y x then y else x.

(** [np.min(a)] *)
Definition np_min (a : list fnum) : result fnum :=
  match a with
  | [] =>
      Raise (ValueError "zero-size array to reduction operation minimum which has no identity")
  | x :: rest => Ok (fold_left fminimum rest x)
  end.

(** The loop of lines 580-582. *)
Fixpoint min_time_loop (entries : list (string * list row)) (min_time : fnum)
  : result fnum :=
  match entries with
  | [] => Ok min_time
  | (_, array) :: rest =>
      m ← np_min (map jd array);
      min_time_loop rest (fminimum min_time m)
  end.

(** Lines 578-588 (the notice printed with the derived value is left
    out). *)
Definition trigger_time (args_trigger_time : option fnum) (data : dataset)
  : result fnum :=
  match args_trigger_time with
  | None => min_time_loop data PInf
  | Some t => Ok t
  end.

Definition minus_three : fnum := of_Z (-3).

Definition need_geocent_time : string :=
  "Need either geocent_time or geocent_time_x".

(** Lines 465-468 and 469-472 for one key. *)
Definition sanitize (key : string) (injection_parameters : Py.dict fnum)
  : Py.dict fnum :=
  match Py.get injection_parameters key with
  | Some v =>
      if negb (isfinite v) then Py.set injection_parameters key minus_three
      else injection_parameters
  | None => injection_parameters
  end.

Section Injection.
(** [time.Time(t, format="gps").mjd] *)
Variable gps_to_mjd : fnum -> fnum.

(** Lines 451-472: the trigger time and the injection parameters as the
    light-curve model receives them. *)
Definition prepare_injection (prompt_collapse : bool)
           (injection_parameters : Py.dict fnum)
  : io (fnum * Py.dict fnum) :=
  tc ← (match Py.get injection_parameters "geocent_time" with
        | Some t => mret (gps_to_mjd t)
        | None =>
            match Py.get injection_parameters "geocent_time_x" with
            | Some t => mret (gps_to_mjd t)
            | None => _ ← print need_geocent_time; py_exit (Some 1%Z)
            end
        end);
  let trigger_time := tc in
  let p := Py.set injection_parameters "kilonova_trigger_time" trigger_time in
  let p := if prompt_collapse then Py.set p "log10_mej_wind" minus_three
           else p in
  let p := sanitize "log10_mej_dyn" p in
  let p := sanitize "log10_mej_wind" p in
  mret (trigger_time, p).
End Injection.

End Load.

(** ** The entry point (lines 1004-1020) *)

Module Main.

(** [key.replace("-", "_")] *)
Fixpoint underscore (key : string) : string :=
  match key with
  | EmptyString => EmptyString
  | String c rest =>
      String (if Ascii.eqb c "-"%char then "_"%char else c) (underscore rest)
  end.

Section Values.
(** The values of arguments and of configuration entries. *)
Context {V : Type}.

(** What [main] does that is visible: a printed line, or a call of
    [analysis] with the arguments as they are at that moment. *)
Inductive step : Type :=
| Notice (line : string)
| Analysis (args : Py.dict V).

(** A call of [analysis]: it raises, or returns and leaves the
    attributes of [args] as given here; [args] is one object, which the
    call writes (lines 474-485 and 663) and the next analysis set reads. *)
Variable analysis : Py.dict V -> result (Py.dict V).

Definition unknown_argument (key : string) : string :=
  (key ++ " not a known argument... please remove")%string.

(** The loop of lines 1012-1017 over the entries of one analysis set. *)
Fixpoint set_params (args : Py.dict V) (params : list (string * V))
  : list step * result (Py.dict V) :=
  match params with
  | [] => ([], Ok args)
  | (key, value) :: rest =>
      let key := underscore key in
      if negb (Py.contains args key) then
        ([Notice (unknown_argument key)], Raise (SystemExit 0))
      else set_params (Py.set args key value) rest
  end.

(** The loop of lines 1010-1018 over the analysis sets. *)
Fixpoint run_sets (args : Py.dict V)
         (yaml_dict : list (string * list (string * V)))
  : list step * result unit :=
  match yaml_dict with
  | [] => ([], Ok tt)
  | (_, params) :: rest =>
      match set_params args params with
      | (notices, Raise e) => (notices, Raise e)
      | (notices, Ok args) =>
          match analysis args with
          | Raise e => (notices ++ [Analysis args], Raise e)
          | Ok args' =>
              let '(steps, r) := run_sets args' rest in
              (notices ++ Analysis args :: steps, r)
          end
      end
  end.

(** [main(args)]: [given] is the argument of the call, [parsed] what the
    parser returns, [config] the content of the configuration file when
    [args.config] names one. *)
Definition main (given : option (Py.dict V)) (parsed : Py.dict V)
           (config : option (list (string * list (string * V))))
  : list step * result unit :=
  match given with
  | Some args => ([Analysis args], _ ← analysis args; Ok tt)
  | None =>
      match config with
      | Some yaml_dict => run_sets parsed yaml_dict
      | None => ([Analysis parsed], _ ← analysis parsed; Ok tt)
      end
  end.
End Values.
Arguments step V : clear implicits.

End Main.

(** ** The detection limits of the injection table (lines 501-514) *)

Module Limits.
Import Resolver Injection.

Section Float.
(** [float(x)] on a string; [None] stands for its [ValueError]. *)
Variable to_float : string -> option fnum.

(** Lines 501-514.  [filters] is the list parsed for the model; the
    comprehension converts an entry when [zip] has paired it, so entries
    beyond the filters are never converted. *)
Definition detection_limit (filters : option (list string))
           (injection_detection_limit : option string)
  : result (Py.dict fnum) :=
  match filters with
  | Some filters =>
      match injection_detection_limit with
      | None => Ok (Py.of_pairs (map (fun x => (x, PInf)) filters))
      | Some limits =>
          pairs ← map_result
                    (fun xy => v ← float_of to_float (snd xy); Ok (fst xy, v))
                    (Py.zip filters (Py.split Py.comma limits));
          Ok (Py.of_pairs pairs)
      end
  | None => Ok []
  end.

End Float.

End Limits.

(* ===================================================================== *)
(** * Part II: the vocabulary of the properties                           *)
(* ===================================================================== *)

Section ValidationVocabulary.
Import Validate.

(** Some filter holds a point whose [field] is finite. *)
Definition some_finite (field : row -> fnum) (d : dataset) : Prop :=
  ∃ filt rows r, (filt, rows) ∈ d ∧ r ∈ rows ∧ isfinite (field r) = true.

(** Some filter holds a point whose magnitude is not [nan]. *)
Definition some_non_nan_mag (d : dataset) : Prop :=
  ∃ filt rows r, (filt, rows) ∈ d ∧ r ∈ rows ∧ isnan (mag r) = false.

(** The same, as the loop computes it. *)
Definition any_finite (field : row -> fnum) (d : dataset) : bool :=
  existsb (fun kv => existsb (fun r => isfinite (field r)) (snd kv)) d.

(** Every row of the filtered dataset is a row of the loaded one. *)
Definition rows_within (P : row -> Prop) (d : dataset) : Prop :=
  ∀ filt rows r, (filt, rows) ∈ d → r ∈ rows → P r.

(** A single detection whose magnitude is [+inf]. *)
Definition inf_mag_data : dataset :=
  [("g"%string, [Row (of_Z 1) PInf (of_Q (1 # 10))])].

(** Two detections in [g], one in [r], an upper limit in [i]. *)
Definition table_data : dataset :=
  [("g"%string, [Row (of_Z 1) (of_Z 20) (of_Q (1 # 10));
                 Row (of_Z 2) (of_Z 21) (of_Q (1 # 10))]);
   ("r"%string, [Row (of_Z 1) (of_Z 21) (of_Q (1 # 10))]);
   ("i"%string, [Row (of_Z 2) (of_Z 23) PInf])].

End ValidationVocabulary.

Section SamplerVocabulary.
Import Sampler.

Definition reactive_pymultinest : sampler_args :=
  SamplerArgs "pymultinest" "outdir" 2048 true false.

(** A sampler that returns. *)
Definition sampler_returns : string → option Z → Py.dict Z → result unit :=
  λ _ _ _, Ok tt.

Definition long_outdir : sampler_args :=
  SamplerArgs "pymultinest"
    "results/kilonova_injection_runs/Bu2019lm/event_0001/pymultinest_nlive2048"
    2048 false false.

End SamplerVocabulary.

Section ResolverVocabulary.
Import Resolver.

(** Pairs of a position and a filter, compared by position. *)
Definition key_le (a b : nat * string) : Prop := (a.1 ≤ b.1)%nat.

Definition key_lt (a b : nat * string) : Prop := (a.1 < b.1)%nat.

(** The requested filters followed by the augmentation filters. *)
Definition requested_plus (filters : string) (aug : option string)
  : list string :=
  Py.split Py.comma filters
    ++ (if Py.truthy aug then Py.split Py.comma (default EmptyString aug)
        else []).

(** A set that is iterated in the order of insertion. *)
Definition insertion_order (l : list string) : list string := l.

Definition one_point : list row := [Row (of_Z 1) (of_Z 20) (of_Q (1 # 10))].

Definition gri_data : dataset :=
  [("g"%string, one_point); ("r"%string, one_point); ("i"%string, one_point)].

Definition gr_data : dataset :=
  [("g"%string, one_point); ("r"%string, one_point)].

(** The analyzed filters that were requested, in the order of the
    requested list. *)
Definition keeps_requested_order (requested fta : list string) : Prop :=
  List.filter (λ v, Py.mem v requested) fta `sublist_of` requested.

Definition two_budgets : list fnum := [of_Q (1 # 10); of_Q (2 # 10)].

(** The claim as the specification words it: a list of more than one
    entry is accepted exactly when its length is the number of analyzed
    filters (of requested filters when augmentation filters are given). *)
Definition accepts_analyzed_length
           (filters : string) (aug : option string) (b : budget_arg)
           (data : dataset) : Prop :=
  ∀ eb fta,
    parse_budget parse_decimal b = Ok eb → 1 < length eb →
    filters_to_analyze insertion_order filters aug data = Ok fta →
    (is_ok (resolve parse_decimal insertion_order (Some filters) aug b data) = true
     ↔ length eb = if Py.truthy aug
                   then length (Py.split Py.comma filters)
                   else length fta).

End ResolverVocabulary.

Section BestFitVocabulary.
Import BestFit.

(** The observed epochs and the grid, moved by the time shift. *)
Definition shifted (timeshift : fnum) (times : list fnum) : list fnum :=
  map (λ t, fadd t timeshift) times.

(** Chi-square as a sum over detections: the magnitude against the
    trajectory [L] read at [epoch], over the two errors in quadrature. *)
Definition chi2_sum (L : fnum → fnum) (epoch : row → fnum) (err : fnum)
           (detections : list row) : fnum :=
  np_sum (map (λ d, fdiv (fsq (fsub (mag d) (L (epoch d))))
                         (fadd (fsq (mag_unc d)) (fsq err)))
              detections).

Definition in_range (xs : list fnum) (t : fnum) : Prop :=
  below xs t = false ∧ above xs t = false.

(** The sum as the specification words it: the shifted trajectory read
    at the observed epochs as they are. *)
Definition chi2_at_unshifted_epochs (sample_times traj : list fnum)
           (ts err : fnum) (detections : list row) : fnum :=
  chi2_sum (eval (Interpolant (shifted ts sample_times) traj)) jd err
           detections.

Definition grid_123 : list fnum := [of_Z 1; of_Z 2; of_Z 3].

Definition model_g : Py.dict (list fnum) :=
  [("g"%string, [of_Z 10; of_Z 20; of_Z 30])].

Definition shift_by_one : Py.dict fnum := [("timeshift"%string, of_Z 1)].

Definition no_syserr : Py.dict fnum := [("g"%string, of_Z 0)].

Definition one_detection : list row := [Row (of_Q (5 # 2)) (of_Z 25) (of_Z 1)].

Definition processed_g : dataset := [("g"%string, one_detection)].

Definition only_limits : dataset :=
  [("g"%string, [Row (of_Q (5 # 2)) (of_Z 25) PInf])].

(** The detections of a filter inside the window. *)
Definition detections_of (processed : dataset) (filt : string) : list row :=
  finite_unc_rows (default [] (Py.get processed filt)).

(** The number of detections inside the window, over the analyzed
    filters. *)
Definition detections_in_window (processed : dataset)
           (filters : list string) : nat :=
  list_sum (map (λ filt, length (detections_of processed filt)) filters).

(** The filters that contributed, with their chi-square and count. *)
Fixpoint contributions (rs : list (option (fnum * nat)))
  : list (fnum * nat) :=
  match rs with
  | [] => []
  | Some c :: rest => c :: contributions rest
  | None :: rest => contributions rest
  end.

Definition total_dof (cs : list (fnum * nat)) : nat := list_sum (map snd cs).

End BestFitVocabulary.

Section PlotVocabulary.
Import Plot.

(** One detection, 0.5 day after a trigger at MJD 59000. *)
Definition observed_g : dataset :=
  [("g"%string, [Row (of_Q (118001 # 2)) (of_Z 20) (of_Q (1 # 10))])].

End PlotVocabulary.

Section GoodnessVocabulary.
Import BestFit.

(** The epoch at which the trajectory is read for a detection: the
    observed epoch, moved by [timeshift] when the parameters hold one. *)
Definition epoch_read (params : Py.dict fnum) (d : row) : fnum :=
  match Py.get params "timeshift" with
  | Some ts => fadd (jd d) ts
  | None => jd d
  end.

(** [t] lies outside the abscissae [xs]. *)
Definition out_of_range (xs : list fnum) (t : fnum) : Prop :=
  below xs t = true ∨ above xs t = true.

(** Two detections and an upper limit in one filter. *)
Definition mixed_rows : list row :=
  [Row (of_Q (3 # 2)) (of_Z 15) (of_Z 1);
   Row (of_Z 2) (of_Z 30) PInf;
   Row (of_Q (5 # 2)) (of_Z 25) (of_Z 1)].

Definition processed_mixed : dataset := [("g"%string, mixed_rows)].

Definition no_timeshift : Py.dict fnum := [("luminosity_distance"%string, of_Z 40)].

(** Two filters with one detection each. *)
Definition model_gr : Py.dict (list fnum) :=
  [("g"%string, [of_Z 10; of_Z 20; of_Z 30]);
   ("r"%string, [of_Z 11; of_Z 21; of_Z 31])].

Definition processed_gr : dataset :=
  [("g"%string, [Row (of_Q (3 # 2)) (of_Z 16) (of_Z 1)]);
   ("r"%string, [Row (of_Q (5 # 2)) (of_Z 28) (of_Z 2)])].

Definition stored_gr : Py.dict (list fnum) :=
  Py.set model_gr bestfit_sample_times [of_Z 1; of_Z 2; of_Z 3].

Definition budget_gr : Py.dict fnum :=
  [("g"%string, of_Z 0); ("r"%string, of_Z 0)].

(** A detection after the end of the grid. *)
Definition processed_late : dataset :=
  [("g"%string, [Row (of_Z 7) (of_Z 25) (of_Z 1)])].

(** The step of a filter can be carried out on the stored time axis
    [times]: the model returned a trajectory of the length of the axis,
    the windowed data hold the filter, and when it has detections an
    effective error is there for it and every detection is read inside
    the axis. *)
Definition filter_ready (mag_dict : Py.dict (list fnum))
           (params eb : Py.dict fnum) (processed : dataset)
           (times : list fnum) (filt : string) : Prop :=
  ∃ traj rows,
    Py.get mag_dict filt = Some traj ∧ length times = length traj
    ∧ Py.get processed filt = Some rows
    ∧ (finite_unc_rows rows ≠ [] →
       is_ok (effective_error params eb filt) = true
       ∧ Forall (λ d, in_range times (epoch_read params d))
                (finite_unc_rows rows)).

(** The second half of the claim as the specification words it: with a
    detection inside the window, an overall value is returned. *)
Definition returns_whenever_counted (mag_dict : Py.dict (list fnum))
           (params eb : Py.dict fnum) (processed : dataset)
           (filters : list string) : Prop :=
  detections_in_window processed filters ≠ 0 →
  is_ok (chi2_per_dof mag_dict params eb processed filters) = true.

(** Three filters on the grid [1, 2, 3], one detection each, and the
    error budget that [--error-budget 0.1,0.2] gives for [--filters g,r]
    with the augmentation filter [i]. *)
Definition stored_gri : Py.dict (list fnum) :=
  [("g"%string, [of_Z 10; of_Z 20; of_Z 30]);
   ("r"%string, [of_Z 11; of_Z 21; of_Z 31]);
   ("i"%string, [of_Z 12; of_Z 22; of_Z 32]);
   (bestfit_sample_times, [of_Z 1; of_Z 2; of_Z 3])].

Definition processed_gri : dataset :=
  [("g"%string, [Row (of_Q (3 # 2)) (of_Z 16) (of_Z 1)]);
   ("r"%string, [Row (of_Q (5 # 2)) (of_Z 28) (of_Z 2)]);
   ("i"%string, [Row (of_Z 2) (of_Z 22) (of_Z 1)])].

Definition budget_g_r : Py.dict fnum :=
  [("g"%string, of_Q (1 # 10)); ("r"%string, of_Q (2 # 10))].

End GoodnessVocabulary.

Section ReportVocabulary.
Import Report.

(** No entry is [nan]. *)
Definition nan_free (l : list fnum) : Prop := Forall (λ x, isnan x = false) l.

(** A posterior table of three samples. *)
Definition loglik_3 : list fnum := [of_Z (-7); of_Z (-2); of_Z (-2)].

Definition columns_3 : Py.dict (list fnum) :=
  [("luminosity_distance"%string, [of_Z 40; of_Z 41; of_Z 42]);
   ("log_likelihood"%string, loglik_3)].

(** Absolute magnitudes in two filters. *)
Definition absolute_gr : Py.dict (list fnum) :=
  [("g"%string, [of_Z (-16); of_Z (-15)]); ("r"%string, [of_Z (-17)])].

(** A stand-in for the distance modulus, for running examples. *)
Definition toy_modulus (d : fnum) : fnum := fsub d (of_Z 7).

End ReportVocabulary.

Section LoadVocabulary.
Import Load.

(** The epochs of every filter. *)
Definition all_epochs (data : dataset) : list fnum :=
  flat_map (λ kv, map jd kv.2) data.

(** A conversion from GPS seconds to MJD, for running examples. *)
Definition toy_gps_to_mjd (t : fnum) : fnum := fadd t (of_Z 44244).

Definition injection_row : Py.dict fnum :=
  [("geocent_time_x"%string, of_Z 100);
   ("log10_mej_dyn"%string, NaN);
   ("luminosity_distance"%string, of_Z 40)].

End LoadVocabulary.

Section FilterNameVocabulary.

(** The character [c] occurs in [s]. *)
Fixpoint has_char (c : ascii) (s : string) : bool :=
  match s with
  | EmptyString => false
  | String c' rest => Ascii.eqb c' c || has_char c rest
  end.

End FilterNameVocabulary.

Section MainVocabulary.
Import Main.
Context {V : Type}.

(** The entries of an analysis set, under the names [main] assigns. *)
Definition renamed (params : list (string * V)) : list (string * V) :=
  map (λ kv, (underscore kv.1, kv.2)) params.

(** Every entry of the set names an attribute of [args]. *)
Definition known (args : Py.dict V) (params : list (string * V)) : bool :=
  forallb (λ kv, Py.contains args kv.1) (renamed params).

(** [args] after the assignments of one analysis set. *)
Definition update (args : Py.dict V) (params : list (string * V))
  : Py.dict V :=
  fold_left (λ a kv, Py.set a kv.1 kv.2) (renamed params) args.

(** [args] as a call of [analysis] leaves it. *)
Definition left_by (analysis : Py.dict V → result (Py.dict V))
           (args : Py.dict V) : Py.dict V :=
  match analysis args with
  | Ok args' => args'
  | Raise _ => args
  end.

(** The arguments with which the analyses of the sets are called, in
    turn. *)
Fixpoint called_with (analysis : Py.dict V → result (Py.dict V))
         (args : Py.dict V) (yaml_dict : list (string * list (string * V)))
  : list (Py.dict V) :=
  match yaml_dict with
  | [] => []
  | (_, params) :: rest =>
      update args params
        :: called_with analysis (left_by analysis (update args params)) rest
  end.

(** [args] when the analyses of all the sets have returned. *)
Fixpoint after_sets (analysis : Py.dict V → result (Py.dict V))
         (args : Py.dict V) (yaml_dict : list (string * list (string * V)))
  : Py.dict V :=
  match yaml_dict with
  | [] => args
  | (_, params) :: rest =>
      after_sets analysis (left_by analysis (update args params)) rest
  end.

(** A call of [analysis] returns, and takes no attribute away. *)
Definition completes (analysis : Py.dict V → result (Py.dict V)) : Prop :=
  ∀ args, ∃ args', analysis args = Ok args'
                   ∧ ∀ k, Py.contains args k = true →
                          Py.contains args' k = true.

End MainVocabulary.

Section MainExamples.

Definition parsed_args : Py.dict Z :=
  [("n_tstep", 50); ("nlive", 2048); ("dt", 1)]%string%Z.

Definition two_sets : list (string * list (string * Z)) :=
  [("first", [("n-tstep", 10)]); ("second", [("nlive", 64)])]%string%Z.

Definition misspelt_set : list (string * list (string * Z)) :=
  [("first", [("n-tstep", 10)]);
   ("second", [("nlive", 64); ("n-live", 32)]);
   ("third", [("dt", 2)])]%string%Z.

(** An analysis that writes [kilonova_tstep], as an injection run does
    (line 476). *)
Definition analysis_done (args : Py.dict Z) : result (Py.dict Z) :=
  Ok (Py.set args "kilonova_tstep" (default 0%Z (Py.get args "dt"))).

End MainExamples.

Section SamplerRunVocabulary.
Import Sampler.

(** The keywords with which the three samplers bound their iterations. *)
Definition iteration_keywords : list string :=
  ["max_iter"; "niter"; "maxiter"]%string.

Definition known_samplers : list string :=
  ["pymultinest"; "ultranest"; "dynesty"]%string.

(** A replay with dynesty, the user passing his own [maxiter]. *)
Definition replay_dynesty : sampler_args :=
  SamplerArgs "dynesty" "outdir" 2048 false true.

Definition user_kwargs : Py.dict Z :=
  [("maxiter", 5000); ("dlogz", 1)]%string%Z.

End SamplerRunVocabulary.

Section RemovalVocabulary.

(** The detections of every filter, filters without a detection left
    out, in the order of the dataset. *)
Definition detections_only (data : dataset) : dataset :=
  flat_map
    (λ kv, match finite_unc_rows kv.2 with
           | [] => []
           | kept => [(kv.1, kept)]
           end)
    data.

(** Detections in [g], upper limits only in [r], both in [i]. *)
Definition mixed_data : dataset :=
  [("g"%string, [Row (of_Z 1) (of_Z 20) (of_Q (1 # 10))]);
   ("r"%string, [Row (of_Z 1) (of_Z 21) PInf; Row (of_Z 2) (of_Z 22) NaN]);
   ("i"%string, [Row (of_Z 1) (of_Z 21) PInf;
                 Row (of_Z 2) (of_Z 19) (of_Q (2 # 10))])].

End RemovalVocabulary.


Section TimeGridVocabulary.
Import SpecFloat Double TimeGrid.



(** In the examples the two library functions are left as they come:
    no length and no point of the uniform grid depends on them. *)
Definition unread : double → double := λ x, x.

Definition d_0_05 : double := of_decimal 5 2.
Definition d_0_1 : double := of_decimal 1 1.
Definition d_0_9 : double := of_decimal 9 1.
Definition d_1 : double := of_Z 1.
Definition d_1_2 : double := of_decimal 12 1.
Definition d_14 : double := of_Z 14.


End TimeGridVocabulary.

(* ===================================================================== *)
(** * Part III: properties                                                *)
(* ===================================================================== *)

(** ** Load-time validation *)

Section ValidationProps.
Import Validate.

Lemma filter_nonempty_existsb {A : Type} (f : A -> bool) (l : list A) :
  (0 <? length (List.filter f l))%nat = existsb f l.
Proof.
  induction l as [|a l IH]; simpl; [reflexivity|].
  destruct (f a); simpl; [reflexivity | exact IH].
Qed.

Lemma check_loop_spec entries :
  ∀ d n, check_loop entries d n
         = (d || any_finite mag_unc entries, n || any_finite mag entries).
Proof.
  induction entries as [|[filt rows] rest IH]; intros d n; simpl.
  - by rewrite !orb_false_r.
  - unfold finite_unc_rows, finite_mag_rows.
    rewrite !filter_nonempty_existsb.
    destruct (existsb (λ r, isfinite (mag_unc r)) rows) eqn:Hu;
      destruct (existsb (λ r, isfinite (mag r)) rows) eqn:Hm;
      destruct d, n; simpl; rewrite ?IH; simpl;
      rewrite ?orb_true_r; reflexivity.
Qed.

Lemma any_finite_iff field d :
  any_finite field d = true ↔ some_finite field d.
Proof.
  unfold any_finite, some_finite. rewrite existsb_exists. split.
  - intros [[filt rows] [Hin Hex]]. simpl in Hex.
    apply existsb_exists in Hex as [r [Hr Hf]].
    exists filt, rows, r. by rewrite !list_elem_of_In.
  - intros (filt & rows & r & Hin & Hr & Hf).
    exists (filt, rows). rewrite <- list_elem_of_In. split; [done|].
    simpl. apply existsb_exists. exists r. by rewrite <- list_elem_of_In.
Qed.

Lemma check_detections_raise d :
  check_detections d = Raise (ValueError no_detection_msg)
  ↔ ¬ some_finite mag_unc d ∨ ¬ some_finite mag d.
Proof.
  unfold check_detections. rewrite check_loop_spec. simpl.
  rewrite <- !any_finite_iff.
  destruct (any_finite mag_unc d), (any_finite mag d); simpl;
    split; intros H; try done; try (by left); try (by right);
    destruct H as [H|H]; by destruct H.
Qed.

Lemma check_detections_ok d :
  check_detections d = Ok tt ↔ some_finite mag_unc d ∧ some_finite mag d.
Proof.
  unfold check_detections. rewrite check_loop_spec. simpl.
  rewrite <- !any_finite_iff.
  destruct (any_finite mag_unc d), (any_finite mag d); simpl;
    split; intros H; try done; by destruct H.
Qed.

Lemma rows_within_set P d k v :
  rows_within P d → (∀ r, r ∈ v → P r) → rows_within P (Py.set d k v).
Proof.
  induction d as [|[k' v'] rest IH]; intros Hd Hv filt rows r; simpl.
  - intros Hin%list_elem_of_singleton Hr. inversion Hin; subst. by apply Hv.
  - destruct (String.eqb k k').
    + intros [Heq|Hin]%elem_of_cons Hr.
      * inversion Heq; subst. by apply Hv.
      * eapply Hd; [|done]. by right.
    + intros [Heq|Hin]%elem_of_cons Hr.
      * eapply Hd; [|done]. rewrite Heq. by left.
      * eapply IH; [| done | done | done].
        intros f' rs' r' Hin' Hr'. eapply Hd; [|done]. by right.
Qed.

Lemma rows_within_del P d k :
  rows_within P d → rows_within P (Py.del d k).
Proof.
  induction d as [|[k' v'] rest IH]; intros Hd filt rows r; simpl; [by eauto|].
  destruct (String.eqb k k').
  - intros Hin Hr. eapply Hd; [|done]. by right.
  - intros [Heq|Hin]%elem_of_cons Hr.
    + eapply Hd; [|done]. rewrite Heq. by left.
    + eapply IH; [| done | done].
      intros f' rs' r' Hin' Hr'. eapply Hd; [|done]. by right.
Qed.

Lemma get_elem_of {V : Type} (d : Py.dict V) k v :
  Py.get d k = Some v → ∃ k', (k', v) ∈ d.
Proof.
  induction d as [|[k' v'] rest IH]; simpl; [done|].
  destruct (String.eqb k k').
  - intros [= ->]. exists k'. by left.
  - intros [k'' H]%IH. exists k''. by right.
Qed.

Lemma rows_within_remove_step P d filt :
  rows_within P d → rows_within P (remove_step d filt).
Proof.
  intros Hd. unfold remove_step.
  destruct (Py.get d filt) as [rows|] eqn:Hg; [|done].
  apply get_elem_of in Hg as [k' Hk'].
  assert (rows_within P (Py.set d filt (finite_unc_rows rows))) as Hset.
  { apply rows_within_set; [done|]. intros r Hr.
    apply list_elem_of_In, List.filter_In in Hr as [Hr _].
    eapply Hd; [done|]. by apply list_elem_of_In. }
  destruct (length (finite_unc_rows rows) =? 0)%nat; [|done].
  by apply rows_within_del.
Qed.

Lemma rows_within_remove P d :
  rows_within P d → rows_within P (remove_nondetections d).
Proof.
  unfold remove_nondetections. generalize (Py.keys d).
  intros ks. revert d. induction ks as [|k ks IH]; intros d Hd; simpl; [done|].
  apply IH. by apply rows_within_remove_step.
Qed.

Lemma rows_within_staged P remove d :
  rows_within P d → rows_within P (staged remove d).
Proof. destruct remove; simpl; [apply rows_within_remove | done]. Qed.

(** C4 (as amended).  After the optional removal of non-detections the
    pipeline raises its "no detection" error exactly when no filter holds
    a point with finite uncertainty or no filter holds a point with
    finite magnitude; it returns the dataset exactly when both exist
    (possibly in different filters); and a dataset made of non-detections
    only is always rejected. *)
Theorem load_validate_finite (remove : bool) (data : dataset) :
  let d := staged remove data in
  (load_validate remove data = Raise (ValueError no_detection_msg)
     ↔ ¬ some_finite mag_unc d ∨ ¬ some_finite mag d)
  ∧ (load_validate remove data = Ok d
     ↔ some_finite mag_unc d ∧ some_finite mag d)
  ∧ ((∀ filt rows r, (filt, rows) ∈ data → r ∈ rows →
                     isfinite (mag_unc r) = false)
     → load_validate remove data = Raise (ValueError no_detection_msg)).
Proof.
  intros d.
  assert (∀ x, load_validate remove data = x ↔
               (_ ← check_detections d; Ok d) = x) as Hunf by done.
  split; [|split].
  - rewrite Hunf, <- check_detections_raise.
    destruct (check_detections d) as [[]|e]; simpl; split; congruence.
  - rewrite Hunf, <- check_detections_ok.
    destruct (check_detections d) as [[]|e]; simpl; split; congruence.
  - intros Hall. rewrite Hunf.
    assert (check_detections d = Raise (ValueError no_detection_msg)) as ->; [|done].
    apply check_detections_raise. left.
    intros (filt & rows & r & Hin & Hr & Hf).
    pose proof (rows_within_staged (λ r, isfinite (mag_unc r) = false)
                  remove data Hall filt rows r Hin Hr) as Hn.
    simpl in Hn. congruence.
Qed.

(** C4 (as stated) fails: [inf_mag_data] holds a point of finite
    uncertainty and a magnitude that is not [nan], and is rejected all the
    same, because the magnitude test is [np.isfinite]. *)
Lemma load_validate_non_nan_counterexample :
  ¬ (load_validate false inf_mag_data = Raise (ValueError no_detection_msg)
     ↔ ¬ some_finite mag_unc inf_mag_data ∨ ¬ some_non_nan_mag inf_mag_data).
Proof.
  intros [H _].
  destruct (H eq_refl) as [Hn|Hn]; apply Hn;
    exists "g"%string, [Row (of_Z 1) PInf (of_Q (1 # 10))],
           (Row (of_Z 1) PInf (of_Q (1 # 10)));
    (split; [by left | split; [by left | reflexivity]]).
Qed.

End ValidationProps.

(** ** The injection table *)

Section InjectionProps.
Import Injection.

Lemma emit_row_finite dl filt r : isfinite (t_mag_unc (emit_row dl filt r)) = true.
Proof.
  unfold emit_row. destruct (isfinite (mag_unc r)) eqn:Hf; simpl; [|done].
  by destruct (Py.get dl filt).
Qed.

Lemma emit_row_nondetection dl filt r :
  isfinite (mag_unc r) = false →
  emit_row dl filt r = TableRow (jd r) (of_Z 99) (of_Z 99) filt (mag r) (of_Z 0).
Proof. intros Hf. unfold emit_row. by rewrite Hf. Qed.

Lemma data_out_elem data filters aug dl t :
  t ∈ data_out data filters aug dl
  ↔ ∃ filt rows r, (filt, rows) ∈ data ∧ skipped filters aug filt = false
                   ∧ r ∈ rows ∧ t = emit_row dl filt r.
Proof.
  unfold data_out. rewrite list_elem_of_In, in_flat_map. split.
  - intros [[filt rows] [Hin Ht]]. simpl in Ht.
    destruct (skipped filters aug filt) eqn:Hs; [by destruct Ht|].
    apply in_map_iff in Ht as [r [<- Hr]].
    exists filt, rows, r. by rewrite !list_elem_of_In.
  - intros (filt & rows & r & Hin & Hs & Hr & ->).
    exists (filt, rows). rewrite <- list_elem_of_In. split; [done|].
    simpl. rewrite Hs. apply in_map. by apply list_elem_of_In.
Qed.

(** C10.  Every row of the injection table has a finite [mag_unc], and
    so every row, loaded back, passes the detection test.  A synthesized
    point of non-finite uncertainty, which fails that test, is written as
    magnitude 99 and uncertainty 99, with the synthesized magnitude in
    [limmag] and program id 0: the mark of a non-detection is lost in the
    table. *)
Theorem injection_table_mag_unc_finite
        (data : dataset) (filters : option (list string))
        (aug : option string) (dl : Py.dict fnum) :
  (∀ t, t ∈ data_out data filters aug dl →
        isfinite (t_mag_unc t) = true ∧ is_detection (reload t) = true)
  ∧ (∀ filt rows r,
       (filt, rows) ∈ data → skipped filters aug filt = false → r ∈ rows →
       isfinite (mag_unc r) = false →
       emit_row dl filt r ∈ data_out data filters aug dl
       ∧ emit_row dl filt r
         = TableRow (jd r) (of_Z 99) (of_Z 99) filt (mag r) (of_Z 0)
       ∧ is_detection r = false
       ∧ is_detection (reload (emit_row dl filt r)) = true).
Proof.
  split.
  - intros t (filt & rows & r & _ & _ & _ & ->)%data_out_elem.
    split; apply emit_row_finite.
  - intros filt rows r Hin Hs Hr Hf. split; [|split; [|split]].
    + apply data_out_elem. by exists filt, rows, r.
    + by apply emit_row_nondetection.
    + exact Hf.
    + apply emit_row_finite.
Qed.

(** The table for the model filters [g,r] and the augmentation filter
    [i]: every loaded filter is listed, and the upper limit of [i] is
    written as 99, 99. *)
Example data_out_rows :
  data_out table_data (Some ["g"; "r"]%string) (Some "i"%string) []
  = [TableRow (of_Z 1) (of_Z 20) (of_Q (1 # 10)) "g" PInf zero;
     TableRow (of_Z 2) (of_Z 21) (of_Q (1 # 10)) "g" PInf zero;
     TableRow (of_Z 1) (of_Z 21) (of_Q (1 # 10)) "r" PInf zero;
     TableRow (of_Z 2) ninety_nine ninety_nine "i" (of_Z 23) zero]
  ∧ data_out table_data (Some ["r"]%string) None []
    = [TableRow (of_Z 1) (of_Z 21) (of_Q (1 # 10)) "r" PInf zero].
Proof. split; reflexivity. Qed.

End InjectionProps.

(** ** The sampler driver *)

Section SamplerProps.
Import Sampler.

Lemma replay_kwargs_ok a kwargs :
  ∃ tr kw, replay_kwargs a kwargs = IO tr (Ok kw)
           ∧ existsb ran_sampler tr = false.
Proof.
  unfold replay_kwargs. destruct (skip_sampling a); by eexists _, _.
Qed.

(** C2 (the code as it is).  With reactive sampling requested and a
    sampler other than ultranest, the driver prints its notice, leaves the
    local [nlive] unassigned, and the evaluation of the arguments of
    [bilby.run_sampler] raises [UnboundLocalError]: the sampler is never
    invoked. *)
Theorem reactive_without_ultranest_unbound
        (bilby_run_sampler : string → option Z → Py.dict Z → result unit)
        (a : sampler_args) (sampler_kwargs : Py.dict Z) :
  reactive_sampling a = true →
  sampler a ≠ "ultranest"%string →
  outcome (drive bilby_run_sampler a sampler_kwargs)
  = Raise (UnboundLocalError "nlive")
  ∧ Print reactive_unavailable
    ∈ trace (drive bilby_run_sampler a sampler_kwargs)
  ∧ existsb ran_sampler (trace (drive bilby_run_sampler a sampler_kwargs))
    = false
  ∧ exit_status (drive bilby_run_sampler a sampler_kwargs) = 1%Z.
Proof.
  intros Hr Hs. apply String.eqb_neq in Hs.
  destruct (replay_kwargs_ok a sampler_kwargs) as (tr & kw & Hk & Hno).
  unfold drive, exit_status, choose_nlive. rewrite Hr, Hs. simpl.
  unfold mbind, io_bind. simpl. rewrite Hk. simpl.
  repeat split.
  - do 2 right. by left.
  - rewrite app_nil_r. exact Hno.
Qed.

Lemma reactive_without_ultranest_unbound_witness :
  outcome (drive sampler_returns reactive_pymultinest [])
  = Raise (UnboundLocalError "nlive")
  ∧ Print reactive_unavailable
    ∈ trace (drive sampler_returns reactive_pymultinest [])
  ∧ existsb ran_sampler (trace (drive sampler_returns reactive_pymultinest []))
    = false
  ∧ exit_status (drive sampler_returns reactive_pymultinest []) = 1%Z.
Proof.
  apply (reactive_without_ultranest_unbound sampler_returns
           reactive_pymultinest []).
  - reflexivity.
  - discriminate.
Defined.

(** C9 (the code as it is).  With pymultinest and an output directory
    name of more than 64 characters the run prints its warning and calls
    [exit()] without an argument: the process ends with status 0. *)
Theorem long_outdir_exits_with_status_zero (a : sampler_args) :
  sampler a = "pymultinest"%string →
  (64 < String.length (outdir a))%nat →
  check_outdir a = IO [Print outdir_warning] (Raise (SystemExit 0))
  ∧ exit_status (check_outdir a) = 0%Z.
Proof.
  intros Hs Hl. unfold exit_status, check_outdir. rewrite Hs. simpl.
  apply Nat.ltb_lt in Hl. rewrite Hl. done.
Qed.

Lemma long_outdir_exits_with_status_zero_witness :
  check_outdir long_outdir = IO [Print outdir_warning] (Raise (SystemExit 0))
  ∧ exit_status (check_outdir long_outdir) = 0%Z.
Proof.
  apply (long_outdir_exits_with_status_zero long_outdir).
  - reflexivity.
  - vm_compute. lia.
Defined.

End SamplerProps.

(** ** Python lists, sets and dictionaries *)

Section PyProps.

Lemma mem_elem_of x l : Py.mem x l = true ↔ x ∈ l.
Proof.
  unfold Py.mem. rewrite existsb_exists, list_elem_of_In. split.
  - intros [y [Hin Heq]]. apply String.eqb_eq in Heq. by subst.
  - intros Hin. exists x. split; [done | apply String.eqb_refl].
Qed.

Lemma mem_not_elem_of x l : Py.mem x l = false ↔ x ∉ l.
Proof.
  rewrite <- mem_elem_of. destruct (Py.mem x l); split; congruence.
Qed.

Lemma elem_of_List_filter {A : Type} (f : A → bool) (l : list A) x :
  x ∈ List.filter f l ↔ x ∈ l ∧ f x = true.
Proof. by rewrite !list_elem_of_In, List.filter_In. Qed.

Lemma NoDup_List_filter {A : Type} (f : A → bool) (l : list A) :
  NoDup l → NoDup (List.filter f l).
Proof.
  induction 1 as [|x l Hx Hl IH]; simpl; [constructor|].
  destruct (f x); [|done]. constructor; [|done].
  rewrite elem_of_List_filter. tauto.
Qed.

Lemma distinct_elem_of x l : x ∈ Py.distinct l ↔ x ∈ l.
Proof.
  induction l as [|y l IH]; simpl; [done|].
  rewrite !elem_of_cons, elem_of_List_filter, IH.
  destruct (String.eqb_spec y x) as [->|Hne]; simpl; [tauto|].
  split; [tauto|]. intros [->|H]; [by left | by right].
Qed.

Lemma distinct_NoDup l : NoDup (Py.distinct l).
Proof.
  induction l as [|y l IH]; simpl; constructor.
  - rewrite elem_of_List_filter. intros [_ H].
    by rewrite String.eqb_refl in H.
  - by apply NoDup_List_filter.
Qed.

Context {V : Type}.
Implicit Types d : Py.dict V.

Lemma get_set d k v k' :
  Py.get (Py.set d k v) k' = if String.eqb k' k then Some v else Py.get d k'.
Proof.
  induction d as [|[k0 v0] rest IH]; simpl.
  - done.
  - destruct (String.eqb_spec k k0) as [->|Hne]; simpl.
    + by destruct (String.eqb k' k0).
    + rewrite IH. destruct (String.eqb_spec k' k0) as [->|Hne'].
      * apply not_eq_sym, String.eqb_neq in Hne. by rewrite Hne.
      * done.
Qed.

Lemma get_app d1 d2 k :
  Py.get (d1 ++ d2) k
  = match Py.get d1 k with Some v => Some v | None => Py.get d2 k end.
Proof.
  induction d1 as [|[k0 v0] rest IH]; simpl; [done|].
  by destruct (String.eqb k k0).
Qed.

(** In [dict(pairs)] the last pair of a key wins. *)
Lemma get_fold_set (l : list (string * V)) d k :
  Py.get (fold_left (λ d kv, Py.set d kv.1 kv.2) l d) k
  = match Py.get (rev l) k with Some v => Some v | None => Py.get d k end.
Proof.
  revert d. induction l as [|[k0 v0] l IH]; intros d; simpl; [done|].
  rewrite IH, get_app, get_set. simpl.
  by destruct (Py.get (rev l) k), (String.eqb k k0).
Qed.

Lemma get_of_pairs (l : list (string * V)) k :
  Py.get (Py.of_pairs l) k = Py.get (rev l) k.
Proof.
  unfold Py.of_pairs. rewrite get_fold_set. simpl.
  by destruct (Py.get (rev l) k).
Qed.

Lemma get_Some_elem_of d k v : Py.get d k = Some v → (k, v) ∈ d.
Proof.
  induction d as [|[k0 v0] rest IH]; simpl; [done|].
  destruct (String.eqb_spec k k0) as [->|Hne].
  - intros [= ->]. by left.
  - intros H. right. by apply IH.
Qed.

Lemma get_None_iff d k : Py.get d k = None ↔ k ∉ Py.keys d.
Proof.
  unfold Py.keys. induction d as [|[k0 v0] rest IH]; simpl.
  - split; [intros _; apply not_elem_of_nil | done].
  - rewrite not_elem_of_cons. destruct (String.eqb_spec k k0) as [->|Hne].
    + split; [done | tauto].
    + rewrite IH. tauto.
Qed.

Lemma contains_iff d k : Py.contains d k = true ↔ k ∈ Py.keys d.
Proof.
  unfold Py.contains. pose proof (get_None_iff d k) as H.
  destruct (Py.get d k); split; try done.
  - intros _. destruct (decide (k ∈ Py.keys d)); [done|].
    apply H in n. done.
  - intros Hin. assert (k ∉ Py.keys d) by by apply H. done.
Qed.

Lemma keys_zip (ks : list string) (vs : list V) :
  length ks ≤ length vs → Py.keys (Py.zip ks vs) = ks.
Proof.
  unfold Py.keys. revert vs. induction ks as [|k ks IH]; intros [|v vs]; simpl;
    try done; try lia.
  intros H. f_equal. apply IH. lia.
Qed.

End PyProps.

(** ** Filters and error budget *)

Section SortProps.
Import Resolver.

Lemma insert_by_key_perm k v l : insert_by_key k v l ≡ₚ (k, v) :: l.
Proof.
  induction l as [|[k' v'] rest IH]; simpl; [done|].
  destruct (k <=? k')%nat; [done|].
  rewrite IH. apply Permutation_swap.
Qed.

Lemma sort_pairs_perm l : sort_pairs l ≡ₚ l.
Proof.
  induction l as [|[k v] rest IH]; simpl; [done|].
  by rewrite insert_by_key_perm, IH.
Qed.

Lemma insert_by_key_sorted k v l :
  StronglySorted key_le l → StronglySorted key_le (insert_by_key k v l).
Proof.
  induction 1 as [|[k' v'] rest Hs IH Hall]; simpl.
  - repeat constructor.
  - destruct (Nat.leb_spec k k') as [Hle|Hgt].
    + constructor; [by constructor|].
      constructor; [done|].
      eapply Forall_impl; [exact Hall|].
      intros [k2 v2]. unfold key_le. simpl. lia.
    + constructor; [done|].
      rewrite insert_by_key_perm. constructor; [|done].
      unfold key_le. simpl. lia.
Qed.

Lemma sort_pairs_sorted l : StronglySorted key_le (sort_pairs l).
Proof.
  induction l as [|[k v] rest IH]; simpl; [constructor|].
  by apply insert_by_key_sorted.
Qed.

(** Values read at increasing positions of a list form a subsequence. *)
Lemma sublist_of_positions (fs : list string) :
  ∀ (n : nat) (ps : list (nat * string)),
    StronglySorted key_lt ps →
    Forall (λ kv, (n ≤ kv.1)%nat ∧ fs !! (kv.1 - n)%nat = Some kv.2) ps →
    map snd ps `sublist_of` fs.
Proof.
  induction fs as [|x fs IH]; intros n ps Hs Hall.
  - destruct ps as [|[k v] ps]; [done|].
    apply Forall_cons in Hall as [[_ Hk] _]. done.
  - destruct ps as [|[k v] ps]; [apply sublist_nil_l|].
    apply StronglySorted_inv in Hs as [Hs Hlt].
    pose proof Hall as Hall0.
    apply Forall_cons in Hall as [[Hn Hk] Hall]. simpl in *.
    destruct (decide (k = n)) as [->|Hne].
    + rewrite Nat.sub_diag in Hk. simpl in Hk. injection Hk as ->.
      apply sublist_skip. apply (IH (S n)); [done|].
      apply Forall_forall. intros [k' v'] Hin.
      rewrite Forall_forall in Hlt, Hall.
      specialize (Hlt _ Hin). specialize (Hall _ Hin).
      unfold key_lt in Hlt. simpl in *. destruct Hall as [_ Hl].
      split; [lia|].
      replace (k' - n)%nat with (S (k' - S n)) in Hl by lia. done.
    + apply sublist_cons. apply (IH (S n) ((k, v) :: ps)).
      * by constructor.
      * apply Forall_forall. intros [k' v'] Hin.
        rewrite Forall_forall in Hall0. specialize (Hall0 _ Hin).
        simpl in *. destruct Hall0 as [Hge Hl].
        assert (k ≤ k')%nat as Hkk.
        { apply elem_of_cons in Hin as [[= -> ->]|Hin]; [lia|].
          rewrite Forall_forall in Hlt. specialize (Hlt _ Hin).
          unfold key_lt in Hlt. simpl in Hlt. lia. }
        split; [lia|].
        replace (k' - n)%nat with (S (k' - S n)) in Hl by lia. done.
Qed.

(** Sorted by position, with distinct values: strictly sorted. *)
Lemma sorted_strict (fs : list string) (ps : list (nat * string)) :
  StronglySorted key_le ps →
  NoDup (map snd ps) →
  Forall (λ kv, fs !! kv.1 = Some kv.2) ps →
  StronglySorted key_lt ps.
Proof.
  induction 1 as [|[k v] rest Hs IH Hall]; intros Hnd Hpos; [constructor|].
  simpl in Hnd. apply NoDup_cons in Hnd as [Hv Hnd].
  apply Forall_cons in Hpos as [Hk Hpos]. simpl in Hk.
  constructor; [by apply IH|].
  apply Forall_forall. intros [k' v'] Hin.
  rewrite Forall_forall in Hall, Hpos.
  specialize (Hall _ Hin). specialize (Hpos _ Hin).
  unfold key_le, key_lt in *. simpl in *.
  destruct (decide (k = k')) as [->|Hne]; [|lia].
  exfalso. apply Hv. rewrite Hk in Hpos. injection Hpos as ->.
  apply list_elem_of_fmap. by exists (k', v').
Qed.

Lemma elem_of_rev {A : Type} (x : A) (l : list A) : x ∈ rev l ↔ x ∈ l.
Proof. by rewrite !list_elem_of_In, <- in_rev. Qed.

Lemma enumerate_lookup (l : list string) :
  ∀ n v i, (v, i) ∈ Py.zip l (seq n (length l)) →
           (n ≤ i)%nat ∧ l !! (i - n)%nat = Some v.
Proof.
  induction l as [|x l IH]; intros n v i; simpl; [by intros ?%elem_of_nil|].
  intros [[= -> ->]|Hin]%elem_of_cons.
  - by rewrite Nat.sub_diag.
  - apply IH in Hin as [Hle Hl]. split; [lia|].
    by replace (i - n)%nat with (S (i - S n)) by lia.
Qed.

Lemma values_to_indices_lookup (fs : list string) v i :
  Py.get (Py.of_pairs (enumerate fs)) v = Some i → fs !! i = Some v.
Proof.
  rewrite get_of_pairs. intros Hin%get_Some_elem_of.
  apply elem_of_rev, enumerate_lookup in Hin as [_ Hl].
  by rewrite Nat.sub_0_r in Hl.
Qed.

Lemma values_to_indices_defined (fs : list string) v :
  v ∈ fs → ∃ i, Py.get (Py.of_pairs (enumerate fs)) v = Some i.
Proof.
  intros Hin. rewrite get_of_pairs.
  destruct (Py.get (rev (enumerate fs)) v) as [i|] eqn:Hg; [by exists i|].
  exfalso. apply get_None_iff in Hg. apply Hg.
  unfold Py.keys. rewrite map_rev. apply elem_of_rev.
  change (v ∈ Py.keys (enumerate fs)). unfold enumerate.
  rewrite keys_zip; [done|]. by rewrite length_seq.
Qed.

Lemma map_result_keyed (d : Py.dict nat) (l : list string) :
  (∀ v, v ∈ l → ∃ i, Py.get d v = Some i) →
  ∃ keyed, map_result (λ v, k ← Py.getitem d v; Ok (k, v)) l = Ok keyed
           ∧ map snd keyed = l
           ∧ Forall (λ kv, Py.get d kv.2 = Some kv.1) keyed.
Proof.
  induction l as [|x l IH]; intros Hdef.
  - exists []. by repeat split.
  - destruct (Hdef x) as [i Hi]; [by left|].
    destruct IH as (keyed & Hk & Hm & Hall).
    { intros v Hv. apply Hdef. by right. }
    exists ((i, x) :: keyed). cbn [map_result]. rewrite Hk.
    unfold Py.getitem. rewrite Hi. simpl.
    repeat split; [by rewrite Hm|].
    by constructor.
Qed.

(** [sorted] by position in [fs], on distinct members of [fs]: the
    members, as a subsequence of [fs]. *)
Lemma sorted_by_index_spec (fs l : list string) :
  NoDup l → (∀ v, v ∈ l → v ∈ fs) →
  ∃ out, sorted_by_index l (Py.of_pairs (enumerate fs)) = Ok out
         ∧ out ≡ₚ l ∧ out `sublist_of` fs.
Proof.
  intros Hnd Hsub.
  destruct (map_result_keyed (Py.of_pairs (enumerate fs)) l)
    as (keyed & Hk & Hm & Hall).
  { intros v Hv. by apply values_to_indices_defined, Hsub. }
  exists (map snd (sort_pairs keyed)). unfold sorted_by_index.
  rewrite Hk. simpl. split; [done|].
  assert (map snd (sort_pairs keyed) ≡ₚ l) as Hperm.
  { rewrite <- Hm. apply Permutation_map, sort_pairs_perm. }
  split; [done|].
  assert (Forall (λ kv, fs !! kv.1 = Some kv.2) (sort_pairs keyed)) as Hpos.
  { rewrite sort_pairs_perm. eapply Forall_impl; [exact Hall|].
    intros [k v]. simpl. apply values_to_indices_lookup. }
  apply (sublist_of_positions fs 0).
  - apply (sorted_strict fs); [apply sort_pairs_sorted | | done].
    by rewrite Hperm.
  - eapply Forall_impl; [exact Hpos|]. intros [k v] H. simpl in *.
    rewrite Nat.sub_0_r. split; [lia | done].
Qed.

End SortProps.

Section ResolverProps.
Import Resolver.

Variable to_float : string → option fnum.
Variable set_iter : list string → list string.

(** Iterating a set visits each of its elements once, in some order. *)
Hypothesis set_iter_perm : ∀ l, NoDup l → set_iter l ≡ₚ l.

Lemma set_of_perm l : set_of set_iter l ≡ₚ Py.distinct l.
Proof. apply set_iter_perm, distinct_NoDup. Qed.

Lemma set_of_elem_of x l : x ∈ set_of set_iter l ↔ x ∈ l.
Proof. by rewrite set_of_perm, distinct_elem_of. Qed.

Lemma set_of_NoDup l : NoDup (set_of set_iter l).
Proof. rewrite set_of_perm. apply distinct_NoDup. Qed.

Lemma intersection_perm s1 s2 :
  NoDup s1 →
  intersection set_iter s1 s2 ≡ₚ List.filter (λ v, Py.mem v s2) s1.
Proof. intros H. by apply set_iter_perm, NoDup_List_filter. Qed.

Lemma intersection_elem_of x s1 s2 :
  NoDup s1 → x ∈ intersection set_iter s1 s2 ↔ x ∈ s1 ∧ x ∈ s2.
Proof.
  intros H. by rewrite intersection_perm, elem_of_List_filter, mem_elem_of.
Qed.

Lemma intersection_NoDup s1 s2 :
  NoDup s1 → NoDup (intersection set_iter s1 s2).
Proof. intros H. rewrite intersection_perm; [|done]. by apply NoDup_List_filter. Qed.

Lemma requested_filters_elem_of filters aug v :
  v ∈ requested_filters set_iter filters aug ↔ v ∈ requested_plus filters aug.
Proof.
  unfold requested_filters, requested_plus.
  destruct (Py.truthy aug); [by rewrite set_of_elem_of | by rewrite app_nil_r].
Qed.

Lemma filters_to_analyze_spec (filters : string) (aug : option string)
      (data : dataset) :
  ∃ fta, filters_to_analyze set_iter filters aug data = Ok fta
         ∧ NoDup fta
         ∧ (∀ v, v ∈ fta ↔ v ∈ requested_plus filters aug ∧ v ∈ Py.keys data)
         ∧ fta `sublist_of` requested_filters set_iter filters aug.
Proof.
  unfold filters_to_analyze.
  set (fs := requested_filters set_iter filters aug).
  set (inter := intersection set_iter (set_of set_iter fs)
                             (set_of set_iter (Py.keys data))).
  assert (NoDup inter) as Hnd by apply intersection_NoDup, set_of_NoDup.
  assert (∀ v, v ∈ inter ↔ v ∈ fs ∧ v ∈ Py.keys data) as Hel.
  { intros v. unfold inter.
    rewrite intersection_elem_of by apply set_of_NoDup.
    by rewrite !set_of_elem_of. }
  destruct (sorted_by_index_spec fs inter Hnd) as (out & Hout & Hperm & Hsub).
  { intros v Hv. by apply Hel in Hv as [? _]. }
  exists out. split; [done|]. split; [by rewrite Hperm|]. split; [|done].
  intros v. rewrite Hperm, Hel. unfold fs.
  by rewrite requested_filters_elem_of.
Qed.

(** C7 (the code as it is).  The analyzed filters are, without
    repetition, exactly the requested and augmentation filters that the
    dataset holds.  They come in the order of the local list [filters]:
    when no augmentation filters are given this is the requested list, so
    the analyzed filters are a subsequence of it; with augmentation
    filters it is the iteration order of a set. *)
Theorem filters_to_analyze_intersection
        (filters : string) (aug : option string) (data : dataset) :
  ∃ fta, filters_to_analyze set_iter filters aug data = Ok fta
         ∧ NoDup fta
         ∧ (∀ v, v ∈ fta ↔ v ∈ requested_plus filters aug ∧ v ∈ Py.keys data)
         ∧ fta `sublist_of` requested_filters set_iter filters aug
         ∧ (Py.truthy aug = false →
            fta `sublist_of` Py.split Py.comma filters).
Proof.
  destruct (filters_to_analyze_spec filters aug data)
    as (fta & Hfta & Hnd & Hel & Hsub).
  exists fta. repeat split; try done; try by apply Hel.
  intros Ha. unfold requested_filters in Hsub. by rewrite Ha in Hsub.
Qed.

End ResolverProps.

Section ResolverExamples.
Import Resolver.

(** The requested list [g,r] with the augmentation filter [i], in a run
    whose sets iterate in reverse order of insertion. *)
Lemma filters_to_analyze_intersection_witness :
  ∃ fta, filters_to_analyze (@rev string) "g,r" (Some "i"%string) gri_data
         = Ok fta
         ∧ NoDup fta
         ∧ (∀ v, v ∈ fta ↔ v ∈ requested_plus "g,r" (Some "i"%string)
                            ∧ v ∈ Py.keys gri_data)
         ∧ fta `sublist_of` requested_filters (@rev string) "g,r"
                                              (Some "i"%string)
         ∧ (Py.truthy (Some "i"%string) = false →
            fta `sublist_of` Py.split Py.comma "g,r").
Proof.
  apply (filters_to_analyze_intersection (@rev string)).
  intros l _. symmetry. apply Permutation_rev.
Defined.

(** Without augmentation filters the requested order is kept. *)
Example filters_to_analyze_requested_order :
  filters_to_analyze insertion_order "r,z,g" None gri_data
  = Ok ["r"; "g"]%string.
Proof. reflexivity. Qed.

(** With augmentation filters the requested order is lost: the requested
    and augmentation filters go through a set, and for a set iterated as
    [i, r, g] the analyzed filters are [i, r, g], with [r] before [g]
    although [g,r] was requested. *)
Example filters_to_analyze_augmented :
  filters_to_analyze (@rev string) "g,r" (Some "i"%string) gri_data
  = Ok ["i"; "r"; "g"]%string.
Proof. reflexivity. Qed.

(** No order over the requested filters is kept for every admissible
    iteration order of the set. *)
Lemma filters_order_counterexample :
  ¬ (∀ set_iter : list string → list string,
       (∀ l, NoDup l → set_iter l ≡ₚ l) →
       ∃ fta, filters_to_analyze set_iter "g,r" (Some "i"%string) gri_data
              = Ok fta
              ∧ keeps_requested_order ["g"; "r"]%string fta).
Proof.
  intros H. destruct (H (@rev string)) as (fta & Hfta & Hord).
  { intros l _. symmetry. apply Permutation_rev. }
  vm_compute in Hfta. injection Hfta as <-.
  unfold keeps_requested_order in Hord. simpl in Hord.
  apply sublist_cons_r in Hord as [Hs|(l' & Heq & _)]; [|discriminate].
  apply sublist_length in Hs. simpl in Hs. lia.
Qed.

End ResolverExamples.

Section BudgetProps.
Import Resolver.

Variable to_float : string → option fnum.
Variable set_iter : list string → list string.
Hypothesis set_iter_perm : ∀ l, NoDup l → set_iter l ≡ₚ l.

Lemma mem_ext f l1 l2 :
  (∀ x, x ∈ l1 ↔ x ∈ l2) → Py.mem f l1 = Py.mem f l2.
Proof.
  intros H. destruct (Py.mem f l2) eqn:H2.
  - apply mem_elem_of, H. by apply mem_elem_of.
  - apply mem_not_elem_of. rewrite H. by apply mem_not_elem_of.
Qed.

Lemma get_const (x : fnum) (l : Py.dict fnum) f :
  Forall (λ kv, kv.2 = x) l →
  Py.get l f = if Py.mem f (Py.keys l) then Some x else None.
Proof.
  induction 1 as [|[k v] l Hv Hall IH]; simpl; [done|].
  simpl in Hv. subst v. by destruct (String.eqb f k).
Qed.

Lemma repeat_list_singleton (x : fnum) n :
  length (Py.repeat_list [x] n) = n ∧ Forall (λ y, y = x) (Py.repeat_list [x] n).
Proof.
  induction n as [|n [IHl IHf]]; simpl; [by split|].
  split; [by rewrite IHl | by constructor].
Qed.

Lemma zip_values {A B : Type} (P : B → Prop) (a : list A) (b : list B) :
  Forall P b → Forall (λ kv, P kv.2) (Py.zip a b).
Proof.
  intros Hb. revert a. induction Hb as [|y b Hy Hb IH]; intros [|x a]; simpl;
    try constructor; done.
Qed.

Lemma keys_rev {V : Type} (l : Py.dict V) x :
  x ∈ Py.keys (rev l) ↔ x ∈ Py.keys l.
Proof. unfold Py.keys. by rewrite map_rev, elem_of_rev. Qed.

(** A single value, broadcast: every filter of [fs] gets it, no other
    name gets anything. *)
Lemma broadcast_get (fs : list string) (x : fnum) f :
  Py.get (broadcast fs [x]) f = if Py.mem f fs then Some x else None.
Proof.
  unfold broadcast. rewrite get_of_pairs.
  destruct (repeat_list_singleton x (length fs)) as [Hlen Hall].
  rewrite (get_const x).
  - rewrite (mem_ext f _ fs); [done|]. intros v.
    rewrite keys_rev, keys_zip; [done | by rewrite Hlen].
  - apply Forall_forall. intros kv Hin.
    apply (proj1 (elem_of_rev _ _)) in Hin. revert kv Hin.
    apply Forall_forall. by apply (zip_values (λ y, y = x)).
Qed.

Lemma zip_budget_contains (requested : list string) (eb : list fnum) f :
  length eb = length requested →
  Py.contains (Py.of_pairs (Py.zip requested eb)) f = Py.mem f requested.
Proof.
  intros Hlen. destruct (Py.mem f requested) eqn:Hm.
  - apply contains_iff. apply mem_elem_of in Hm.
    destruct (Py.get (Py.of_pairs (Py.zip requested eb)) f) eqn:Hg.
    + destruct (decide (f ∈ Py.keys (Py.of_pairs (Py.zip requested eb))))
        as [|Hn]; [done|].
      apply get_None_iff in Hn. congruence.
    + rewrite get_of_pairs in Hg. apply get_None_iff in Hg.
      exfalso. apply Hg. rewrite keys_rev, keys_zip; [done | lia].
  - unfold Py.contains. rewrite get_of_pairs.
    apply mem_not_elem_of in Hm.
    assert (Py.get (rev (Py.zip requested eb)) f = None) as ->; [|done].
    apply get_None_iff. rewrite keys_rev, keys_zip; [done | lia].
Qed.

(** C3 (as amended).  With a requested-filter list given and an error
    budget whose entries all read as numbers: a single value is broadcast
    to exactly the analyzed filters; a list of another length is accepted
    exactly when it has as many entries as the requested-filter list (the
    comma-separated entries as typed, whatever the dataset holds and
    whatever augmentation filters are given), it is then paired with the
    requested filters in order and covers exactly the requested filters;
    any other length raises the length error.  Without a requested-filter
    list a single value is broadcast to exactly the loaded filters. *)
Theorem resolve_error_budget
        (filters : string) (aug : option string) (b : budget_arg)
        (eb : list fnum) (data : dataset) :
  Py.truthy (Some filters) = true →
  parse_budget to_float b = Ok eb →
  ∃ fta, filters_to_analyze set_iter filters aug data = Ok fta ∧
    let requested := Py.split Py.comma filters in
    let r := resolve to_float set_iter (Some filters) aug b data in
    (∀ x, eb = [x] →
          ∃ budget, r = Ok (fta, budget)
            ∧ ∀ f, Py.get budget f = if Py.mem f fta then Some x else None)
    ∧ (length eb ≠ 1 → length eb = length requested →
       r = Ok (fta, Py.of_pairs (Py.zip requested eb))
       ∧ ∀ f, Py.contains (Py.of_pairs (Py.zip requested eb)) f
              = Py.mem f requested)
    ∧ (length eb ≠ 1 → length eb ≠ length requested →
       r = Raise (ValueError length_mismatch_msg))
    ∧ (∀ x, eb = [x] →
          ∃ budget, resolve to_float set_iter None aug b data
                    = Ok (Py.keys data, budget)
            ∧ ∀ f, Py.get budget f
                   = if Py.mem f (Py.keys data) then Some x else None).
Proof.
  intros Ht Hb.
  destruct (filters_to_analyze_spec set_iter set_iter_perm filters aug data)
    as (fta & Hfta & _).
  exists fta. split; [done|]. intros requested r.
  assert (r = (if (length eb =? 1)%nat then Ok (fta, broadcast fta eb)
               else if (length requested =? length eb)%nat
                    then Ok (fta, Py.of_pairs (Py.zip requested eb))
                    else Raise (ValueError length_mismatch_msg))) as Hr.
  { unfold r, resolve. rewrite Hb. cbn [mbind result_bind].
    rewrite Ht. change (default EmptyString (Some filters)) with filters.
    rewrite Hfta. reflexivity. }
  split; [|split; [|split]].
  - intros x ->. exists (broadcast fta [x]). split; [by rewrite Hr|].
    apply broadcast_get.
  - intros H1 H2. split; [|intros f; by apply zip_budget_contains].
    rewrite Hr. apply Nat.eqb_neq in H1. rewrite H1.
    assert ((length requested =? length eb)%nat = true) as ->; [|done].
    apply Nat.eqb_eq. lia.
  - intros H1 H2. rewrite Hr. apply Nat.eqb_neq in H1. rewrite H1.
    assert ((length requested =? length eb)%nat = false) as ->; [|done].
    apply Nat.eqb_neq. lia.
  - intros x ->. exists (broadcast (Py.keys data) [x]).
    split; [|apply broadcast_get].
    unfold resolve. rewrite Hb. reflexivity.
Qed.

End BudgetProps.

Section BudgetExamples.
Import Resolver.

Lemma resolve_error_budget_witness :
  ∃ fta, filters_to_analyze insertion_order "g,r" None gr_data = Ok fta ∧
    let requested := Py.split Py.comma "g,r" in
    let r := resolve parse_decimal insertion_order (Some "g,r"%string) None
                     (BudgetString "0.1,0.2") gr_data in
    (∀ x, two_budgets = [x] →
          ∃ budget, r = Ok (fta, budget)
            ∧ ∀ f, Py.get budget f = if Py.mem f fta then Some x else None)
    ∧ (length two_budgets ≠ 1 → length two_budgets = length requested →
       r = Ok (fta, Py.of_pairs (Py.zip requested two_budgets))
       ∧ ∀ f, Py.contains (Py.of_pairs (Py.zip requested two_budgets)) f
              = Py.mem f requested)
    ∧ (length two_budgets ≠ 1 → length two_budgets ≠ length requested →
       r = Raise (ValueError length_mismatch_msg))
    ∧ (∀ x, two_budgets = [x] →
          ∃ budget, resolve parse_decimal insertion_order None None
                            (BudgetString "0.1,0.2") gr_data
                    = Ok (Py.keys gr_data, budget)
            ∧ ∀ f, Py.get budget f
                   = if Py.mem f (Py.keys gr_data) then Some x else None).
Proof.
  apply (resolve_error_budget parse_decimal insertion_order (λ l _, reflexivity l)
           "g,r" None (BudgetString "0.1,0.2") two_budgets gr_data).
  - reflexivity.
  - reflexivity.
Defined.

(** The two examples of the specification. *)
Example resolve_scalar :
  resolve parse_decimal insertion_order (Some "g,r"%string) None (BudgetString "0.2") gr_data
  = Ok (["g"; "r"]%string,
        [("g"%string, of_Q (2 # 10)); ("r"%string, of_Q (2 # 10))]).
Proof. reflexivity. Qed.

Example resolve_list :
  resolve parse_decimal insertion_order (Some "g,r"%string) None (BudgetString "0.1,0.2")
          gr_data
  = Ok (["g"; "r"]%string,
        [("g"%string, of_Q (1 # 10)); ("r"%string, of_Q (2 # 10))]).
Proof. reflexivity. Qed.

(** Without a requested-filter list no length is checked: the list is
    repeated and cut to the number of loaded filters. *)
Example resolve_list_without_filters :
  resolve parse_decimal insertion_order None None (BudgetString "0.1,0.2") gri_data
  = Ok (["g"; "r"; "i"]%string,
        [("g"%string, of_Q (1 # 10)); ("r"%string, of_Q (2 # 10));
         ("i"%string, of_Q (1 # 10))]).
Proof. reflexivity. Qed.

(** C3 (as stated) fails: [g,r,i] is requested, the dataset holds [g]
    and [r], so two filters are analyzed; the two-entry list is rejected,
    because its length is compared with the three requested names. *)
Lemma error_budget_length_counterexample :
  ¬ accepts_analyzed_length "g,r,i" None (BudgetString "0.1,0.2") gr_data.
Proof.
  intros H.
  specialize (H two_budgets ["g"; "r"]%string eq_refl).
  destruct H as [_ H]; [simpl; lia | reflexivity |].
  specialize (H eq_refl). discriminate H.
Qed.

End BudgetExamples.

(** ** Goodness of fit *)

Section BestFitProps.
Import BestFit.

Lemma getitem_Some {V : Type} (d : Py.dict V) k v :
  Py.get d k = Some v → Py.getitem d k = Ok v.
Proof. unfold Py.getitem. by intros ->. Qed.

Lemma contains_Some {V : Type} (d : Py.dict V) k v :
  Py.get d k = Some v → Py.contains d k = true.
Proof. unfold Py.contains. by intros ->. Qed.

Lemma zip_with_map {A : Type} (g : fnum → fnum → fnum)
      (a b : A → fnum) (l : list A) :
  zip_with g (map a l) (map b l) = map (λ x, g (a x) (b x)) l.
Proof. induction l as [|x l IH]; simpl; [done | by rewrite IH]. Qed.

(** Indexing a column with the positions of the finite uncertainties
    gives the column of the detections. *)
Lemma take_where_from (f : row → fnum) (rows : list row) :
  ∀ pre : list row,
    map (λ i, nth i (map f (pre ++ rows)) NaN)
        (where_finite_from (length pre) (map mag_unc rows))
    = map f (finite_unc_rows rows).
Proof.
  induction rows as [|r rows IH]; intros pre; simpl; [done|].
  assert (map (λ i, nth i (map f (pre ++ r :: rows)) NaN)
              (where_finite_from (S (length pre)) (map mag_unc rows))
          = map f (finite_unc_rows rows)) as Hrest.
  { specialize (IH (pre ++ [r])).
    rewrite length_app, <- app_assoc in IH. simpl in IH.
    by rewrite Nat.add_1_r in IH. }
  destruct (isfinite (mag_unc r)); simpl; [|done].
  rewrite Hrest. f_equal.
  rewrite List.map_app, app_nth2 by (rewrite length_map; lia).
  by rewrite length_map, Nat.sub_diag.
Qed.

Lemma take_where (f : row → fnum) (rows : list row) :
  take (map f rows) (where_finite (map mag_unc rows))
  = map f (finite_unc_rows rows).
Proof. apply (take_where_from f rows []). Qed.

Lemma where_finite_from_length (rows : list row) :
  ∀ n, length (where_finite_from n (map mag_unc rows))
       = length (finite_unc_rows rows).
Proof.
  induction rows as [|r rows IH]; intros n; simpl; [done|].
  destruct (isfinite (mag_unc r)); simpl; by rewrite IH.
Qed.

Lemma where_finite_length (rows : list row) :
  length (where_finite (map mag_unc rows)) = length (finite_unc_rows rows).
Proof. apply where_finite_from_length. Qed.

Lemma existsb_false_Forall {A : Type} (f : A → bool) (l : list A) :
  Forall (λ x, f x = false) l → existsb f l = false.
Proof. induction 1 as [|x l Hx Hl IH]; simpl; [done | by rewrite Hx]. Qed.

(** What [chi2_of_filter] computes for a filter with detections, given
    the stored time axis [times]. *)
Lemma chi2_of_filter_sum (mag_dict : Py.dict (list fnum))
      (params eb : Py.dict fnum) (processed : dataset) (filt : string)
      (times traj : list fnum) (rows : list row) (err : fnum)
      (epoch : row → fnum) :
  Py.get mag_dict bestfit_sample_times = Some times →
  Py.get mag_dict filt = Some traj →
  length times = length traj → times ≠ [] →
  Py.get processed filt = Some rows →
  finite_unc_rows rows ≠ [] →
  effective_error params eb filt = Ok err →
  (if Py.contains params "timeshift"
   then ∃ ts, Py.get params "timeshift" = Some ts
              ∧ epoch = (λ d, fadd (jd d) ts)
   else epoch = jd) →
  Forall (λ d, in_range times (epoch d)) (finite_unc_rows rows) →
  chi2_of_filter mag_dict params eb processed filt
  = Ok (Some (chi2_sum (eval (Interpolant times traj)) epoch err
                       (finite_unc_rows rows),
              length (finite_unc_rows rows))).
Proof.
  intros Ht Hm Hlen Hne Hp Hdet Herr Hep Hin.
  unfold chi2_of_filter.
  rewrite (getitem_Some _ _ _ Ht), (getitem_Some _ _ _ Hm),
          (getitem_Some _ _ _ Hp).
  cbn [mbind result_bind].
  unfold interp1d. rewrite Hlen, Nat.eqb_refl. cbn [negb].
  assert ((length traj =? 0)%nat = false) as ->.
  { apply Nat.eqb_neq. rewrite <- Hlen. by destruct times. }
  cbn [mbind result_bind].
  assert ((if Py.contains params "timeshift"
           then timeshift ← Py.getitem params "timeshift";
                Ok (map (λ x, fadd x timeshift) (map jd rows))
           else Ok (map jd rows)) = Ok (map epoch rows)) as ->.
  { destruct (Py.contains params "timeshift").
    - destruct Hep as (ts & Hts & ->).
      rewrite (getitem_Some _ _ _ Hts). cbn [mbind result_bind].
      by rewrite List.map_map.
    - by rewrite Hep. }
  cbn [mbind result_bind].
  rewrite where_finite_length.
  assert ((0 <? length (finite_unc_rows rows))%nat = true) as ->.
  { apply Nat.ltb_lt. destruct (finite_unc_rows rows); [done | simpl; lia]. }
  rewrite Herr. cbn [mbind result_bind].
  rewrite !take_where. unfold call. cbn [xp].
  rewrite (existsb_false_Forall (below times)), (existsb_false_Forall (above times)).
  - cbn [mbind result_bind]. unfold chi2_sum. do 3 f_equal.
    rewrite (List.map_map epoch).
    rewrite (zip_with_map fsub mag (λ d, eval (Interpolant times traj) (epoch d))).
    rewrite !List.map_map.
    by rewrite (zip_with_map fdiv
                  (λ d, fsq (fsub (mag d) (eval (Interpolant times traj) (epoch d))))
                  (λ d, fadd (fsq (mag_unc d)) (fsq err))).
  - apply Forall_forall. intros t Ht'.
    apply list_elem_of_In, in_map_iff in Ht' as [d [<- Hd]].
    rewrite Forall_forall in Hin. apply list_elem_of_In in Hd.
    by destruct (Hin d Hd).
  - apply Forall_forall. intros t Ht'.
    apply list_elem_of_In, in_map_iff in Ht' as [d [<- Hd]].
    rewrite Forall_forall in Hin. apply list_elem_of_In in Hd.
    by destruct (Hin d Hd).
Qed.

(** *** The time shift cancels

    The grid and the observed epochs are moved by the same amount, so for
    finite times the shifted trajectory read at a shifted epoch is the
    regenerated trajectory read at the epoch itself. *)

End BestFitProps.

Section TimeshiftProps.
Import BestFit.

(** C1 (the code as it is).  With a [timeshift] among the best-fit
    parameters, the chi-square of a filter that has detections in the window is the
    sum over those detections of (magnitude - L(t + timeshift))^2 over
    (uncertainty^2 + effective_error^2): L interpolates the regenerated
    trajectory on the time axis shifted by [timeshift], and it is read at
    the observed epochs shifted by the same [timeshift].  The effective
    error is [em_syserr] when the parameters hold it, else the error
    budget of the filter. *)
Theorem chi2_of_filter_with_timeshift
        (sample_times : list fnum) (model_mag : Py.dict (list fnum))
        (params eb : Py.dict fnum) (processed : dataset) (filt : string)
        (ts : fnum) (traj : list fnum) (rows : list row) (err : fnum) :
  Py.get params "timeshift" = Some ts →
  filt ≠ bestfit_sample_times →
  Py.get model_mag filt = Some traj →
  length sample_times = length traj → sample_times ≠ [] →
  Py.get processed filt = Some rows →
  finite_unc_rows rows ≠ [] →
  match Py.get params "em_syserr" with
  | Some e => err = e
  | None => Py.get eb filt = Some err
  end →
  Forall (λ d, in_range (shifted ts sample_times) (fadd (jd d) ts))
         (finite_unc_rows rows) →
  ∃ mag_dict,
    store_sample_times sample_times model_mag params = Ok mag_dict
    ∧ chi2_of_filter mag_dict params eb processed filt
      = Ok (Some (chi2_sum (eval (Interpolant (shifted ts sample_times) traj))
                           (λ d, fadd (jd d) ts) err (finite_unc_rows rows),
                  length (finite_unc_rows rows))).
Proof.
  intros Hts Hf Hm Hlen Hne Hp Hdet Herr Hin.
  exists (Py.set (Py.set model_mag bestfit_sample_times sample_times)
                 bestfit_sample_times (shifted ts sample_times)).
  split.
  - unfold store_sample_times.
    rewrite (contains_Some _ _ _ Hts), (getitem_Some _ _ _ Hts).
    unfold Py.getitem. rewrite get_set, String.eqb_refl. reflexivity.
  - apply chi2_of_filter_sum.
    + by rewrite get_set, String.eqb_refl.
    + rewrite !get_set. apply String.eqb_neq in Hf. by rewrite Hf.
    + unfold shifted. by rewrite length_map.
    + unfold shifted. by destruct sample_times.
    + done.
    + done.
    + unfold effective_error, Py.contains, Py.getitem.
      destruct (Py.get params "em_syserr"); [by subst | by rewrite Herr].
    + rewrite (contains_Some _ _ _ Hts). by exists ts.
    + done.
Qed.

Lemma chi2_of_filter_with_timeshift_witness :
  ∃ mag_dict,
    store_sample_times grid_123 model_g shift_by_one = Ok mag_dict
    ∧ chi2_of_filter mag_dict shift_by_one no_syserr processed_g "g"
      = Ok (Some (chi2_sum
                    (eval (Interpolant (shifted (of_Z 1) grid_123)
                                       [of_Z 10; of_Z 20; of_Z 30]))
                    (λ d, fadd (jd d) (of_Z 1)) (of_Z 0)
                    (finite_unc_rows one_detection),
                  length (finite_unc_rows one_detection))).
Proof.
  apply (chi2_of_filter_with_timeshift grid_123 model_g shift_by_one
           no_syserr processed_g "g" (of_Z 1)
           [of_Z 10; of_Z 20; of_Z 30] one_detection (of_Z 0)).
  - reflexivity.
  - discriminate.
  - reflexivity.
  - reflexivity.
  - discriminate.
  - reflexivity.
  - discriminate.
  - reflexivity.
  - repeat constructor.
Defined.

(** C1: the code against the claim.  Grid [1, 2, 3] with magnitudes
    [10, 20, 30], time shift 1, one detection of magnitude 25 at epoch
    2.5: the code reads the shifted trajectory at 3.5, finds 25 and a
    chi-square of 0; read at 2.5, as the claim has it and as the plot
    draws it, the shifted trajectory gives 15 and the sum is 100. *)
Lemma chi2_timeshift_counterexample :
  ∃ mag_dict c,
    store_sample_times grid_123 model_g shift_by_one = Ok mag_dict
    ∧ chi2_of_filter mag_dict shift_by_one no_syserr processed_g "g"
      = Ok (Some (c, 1))
    ∧ c ≠ chi2_at_unshifted_epochs grid_123 [of_Z 10; of_Z 20; of_Z 30]
                                   (of_Z 1) (of_Z 0) one_detection.
Proof.
  eexists _, _. split; [reflexivity|]. split; [reflexivity|].
  intros H. vm_compute in H. discriminate H.
Qed.

End TimeshiftProps.

Section TotalProps.
Import BestFit.
Import Resolver.

Variable mag_dict : Py.dict (list fnum).
Variables params eb : Py.dict fnum.
Variable processed : dataset.

Ltac step_in H :=
  match type of H with
  | mbind _ ?m = _ =>
      let E := fresh "E" in
      destruct m eqn:E; cbn [mbind result_bind] in H; [|discriminate H]
  end.

Lemma per_filter_count filt r :
  chi2_of_filter mag_dict params eb processed filt = Ok r →
  from_option snd 0 r = length (detections_of processed filt).
Proof.
  unfold chi2_of_filter, detections_of. intros H.
  do 4 step_in H.
  unfold Py.getitem in E2.
  destruct (Py.get processed filt) as [rows|]; [|discriminate E2].
  injection E2 as <-. simpl.
  step_in H. rewrite where_finite_length in H.
  destruct (0 <? length (finite_unc_rows rows))%nat eqn:Hpos.
  - do 2 step_in H. by injection H as <-.
  - injection H as <-. apply Nat.ltb_ge in Hpos. simpl. lia.
Qed.

Lemma contributions_dof (filters : list string) :
  ∀ rs,
    map_result (chi2_of_filter mag_dict params eb processed) filters = Ok rs →
    total_dof (contributions rs) = detections_in_window processed filters.
Proof.
  unfold total_dof, detections_in_window.
  induction filters as [|filt filters IH]; intros rs H; cbn [map_result] in H.
  - by injection H as <-.
  - do 2 step_in H. injection H as <-.
    pose proof (per_filter_count _ _ E) as Hc.
    specialize (IH _ eq_refl). simpl.
    destruct a as [[c n]|]; simpl in *; lia.
Qed.

Lemma chi2_loop_ok (filters : list string) :
  ∀ rs acc,
    map_result (chi2_of_filter mag_dict params eb processed) filters = Ok rs →
    ∃ acc', chi2_loop mag_dict params eb processed filters acc = Ok acc'
            ∧ chi2 acc' = fold_left fadd (map fst (contributions rs)) (chi2 acc)
            ∧ dof acc' = dof acc + total_dof (contributions rs).
Proof.
  unfold total_dof.
  induction filters as [|filt filters IH]; intros rs acc H;
    cbn [map_result] in H.
  - injection H as <-. exists acc. simpl. repeat split. lia.
  - do 2 step_in H. injection H as <-.
    cbn [chi2_loop]. rewrite E.
    cbn [mbind result_bind].
    destruct (IH _ (accumulate acc filt a) eq_refl) as (acc' & Hl & Hc & Hd).
    exists acc'. split; [done|].
    destruct a as [[c n]|]; simpl in *; rewrite Hc, Hd; split; try done; lia.
Qed.

Lemma chi2_loop_raise (filters : list string) :
  ∀ e acc,
    map_result (chi2_of_filter mag_dict params eb processed) filters
    = Raise e →
    ∃ e', chi2_loop mag_dict params eb processed filters acc = Raise e'.
Proof.
  induction filters as [|filt filters IH]; intros e acc H;
    cbn [map_result] in H; [discriminate H|].
  cbn [chi2_loop].
  destruct (chi2_of_filter mag_dict params eb processed filt) as [r|e1] eqn:E;
    cbn [mbind result_bind] in *.
  - destruct (map_result (chi2_of_filter mag_dict params eb processed)
                         filters) as [rs|e2] eqn:E2;
      cbn [mbind result_bind] in H; [discriminate H|].
    by apply (IH e2).
  - by exists e1.
Qed.

Lemma map_result_ok {A B : Type} (f : A → result B) (l : list A) :
  (∀ x, x ∈ l → is_ok (f x) = true) → ∃ ys, map_result f l = Ok ys.
Proof.
  induction l as [|x l IH]; intros H; [by exists []|].
  cbn [map_result].
  assert (is_ok (f x) = true) as Hx by (apply H; by left).
  destruct (f x) as [y|e]; [|discriminate Hx].
  destruct IH as [ys Hys]; [intros z Hz; apply H; by right|].
  exists (y :: ys). by rewrite Hys.
Qed.

(** A filter that is ready has its step carried out. *)
Lemma chi2_of_filter_ready (times : list fnum) (filt : string) :
  Py.get mag_dict bestfit_sample_times = Some times → times ≠ [] →
  filter_ready mag_dict params eb processed times filt →
  is_ok (chi2_of_filter mag_dict params eb processed filt) = true.
Proof.
  intros Ht Hne (traj & rows & Hm & Hlen & Hp & Hdet).
  destruct (finite_unc_rows rows) as [|d0 dets] eqn:Hd.
  - unfold chi2_of_filter.
    rewrite (getitem_Some _ _ _ Ht), (getitem_Some _ _ _ Hm),
            (getitem_Some _ _ _ Hp).
    cbn [mbind result_bind].
    unfold interp1d. rewrite Hlen, Nat.eqb_refl. cbn [negb].
    assert ((length traj =? 0)%nat = false) as ->.
    { apply Nat.eqb_neq. rewrite <- Hlen. by destruct times. }
    cbn [mbind result_bind].
    destruct (Py.contains params "timeshift") eqn:Hc.
    + unfold Py.contains in Hc. unfold Py.getitem.
      destruct (Py.get params "timeshift") as [ts|]; [|discriminate Hc].
      cbn [mbind result_bind]. by rewrite where_finite_length, Hd.
    + cbn [mbind result_bind]. by rewrite where_finite_length, Hd.
  - destruct Hdet as [Herr Hin]; [done|]. rewrite <- Hd in Hin.
    destruct (effective_error params eb filt) as [err|e] eqn:He;
      [|discriminate Herr].
    rewrite (chi2_of_filter_sum mag_dict params eb processed filt times traj
               rows err (epoch_read params)); try done.
    + by rewrite Hd.
    + unfold epoch_read, Py.contains.
      destruct (Py.get params "timeshift") as [ts|]; [by exists ts | done].
Qed.

(** No detection inside the window: no overall value, whatever else. *)
Lemma no_detection_no_value (filters : list string) :
  detections_in_window processed filters = 0 →
  is_ok (chi2_per_dof mag_dict params eb processed filters) = false.
Proof.
  intros Hzero. unfold chi2_per_dof.
  destruct (map_result (chi2_of_filter mag_dict params eb processed)
                       filters) as [rs|e] eqn:Hrs.
  - destruct (chi2_loop_ok filters rs (Totals zero 0 []) Hrs)
      as (acc' & -> & _ & Hd).
    cbn [mbind result_bind]. unfold divide.
    rewrite Hd, (contributions_dof filters rs Hrs), Hzero. reflexivity.
  - destruct (chi2_loop_raise filters e (Totals zero 0 []) Hrs) as [e' ->].
    reflexivity.
Qed.

(** C8 (as amended).  With no detection inside the window over the
    analyzed filters the goodness of fit gives no overall value.  When
    the step of every analyzed filter can be carried out (a trajectory of
    the length of the time axis, windowed data, and for a filter with
    detections an effective error and detections inside the axis), the
    steps are carried out: with no detection the division [0.0 / 0.0]
    raises, else the overall value is the sum of the per-filter
    chi-squares over the sum of the per-filter counts. *)
Theorem chi2_per_dof_total (filters : list string) (times : list fnum) :
  (detections_in_window processed filters = 0 →
   is_ok (chi2_per_dof mag_dict params eb processed filters) = false)
  ∧ (Py.get mag_dict bestfit_sample_times = Some times → times ≠ [] →
     (∀ f, f ∈ filters →
           filter_ready mag_dict params eb processed times f) →
     ∃ rs,
       map_result (chi2_of_filter mag_dict params eb processed) filters
       = Ok rs
       ∧ total_dof (contributions rs)
         = detections_in_window processed filters
       ∧ (detections_in_window processed filters = 0 →
          chi2_per_dof mag_dict params eb processed filters
          = Raise ZeroDivisionError)
       ∧ (detections_in_window processed filters ≠ 0 →
          ∃ per_filt,
            chi2_per_dof mag_dict params eb processed filters
            = Ok (fdiv (np_sum (map fst (contributions rs)))
                       (of_nat (detections_in_window processed filters)),
                  per_filt))).
Proof.
  split; [apply no_detection_no_value|].
  intros Ht Hne Hready.
  destruct (map_result_ok (chi2_of_filter mag_dict params eb processed)
                          filters) as [rs Hrs].
  { intros f Hf. apply (chi2_of_filter_ready times); auto. }
  exists rs. split; [done|].
  pose proof (contributions_dof filters rs Hrs) as Hcount.
  split; [done|].
  destruct (chi2_loop_ok filters rs (Totals zero 0 []) Hrs)
    as (acc' & Hl & Hc & Hd).
  simpl in Hd. rewrite Hcount in Hd.
  unfold chi2_per_dof. rewrite Hl. cbn [mbind result_bind].
  unfold divide. rewrite Hd. split.
  - by intros ->.
  - intros Hnz. apply Nat.eqb_neq in Hnz. rewrite Hnz.
    exists (chi2_per_dof_dict acc'). by rewrite Hc.
Qed.

End TotalProps.

Section TotalExamples.
Import BestFit.
Import Resolver.

Lemma chi2_per_dof_total_witness :
  ∃ rs,
    map_result (chi2_of_filter stored_gr no_timeshift budget_gr processed_gr)
               ["g"; "r"]%string = Ok rs
    ∧ total_dof (contributions rs)
      = detections_in_window processed_gr ["g"; "r"]%string
    ∧ (detections_in_window processed_gr ["g"; "r"]%string = 0 →
       chi2_per_dof stored_gr no_timeshift budget_gr processed_gr
                    ["g"; "r"]%string = Raise ZeroDivisionError)
    ∧ (detections_in_window processed_gr ["g"; "r"]%string ≠ 0 →
       ∃ per_filt,
         chi2_per_dof stored_gr no_timeshift budget_gr processed_gr
                      ["g"; "r"]%string
         = Ok (fdiv (np_sum (map fst (contributions rs)))
                    (of_nat (detections_in_window processed_gr
                                                  ["g"; "r"]%string)),
               per_filt)).
Proof.
  apply (proj2 (chi2_per_dof_total stored_gr no_timeshift budget_gr
                  processed_gr ["g"; "r"]%string [of_Z 1; of_Z 2; of_Z 3])).
  - reflexivity.
  - discriminate.
  - intros f Hf.
    apply elem_of_cons in Hf as [->|Hf];
      [|apply list_elem_of_singleton in Hf as ->].
    + exists [of_Z 10; of_Z 20; of_Z 30],
             [Row (of_Q (3 # 2)) (of_Z 16) (of_Z 1)].
      repeat split; try reflexivity. repeat constructor.
    + exists [of_Z 11; of_Z 21; of_Z 31],
             [Row (of_Q (5 # 2)) (of_Z 28) (of_Z 2)].
      repeat split; try reflexivity. repeat constructor.
Defined.

(** The value of the example: chi-squares 1 and 1 over two detections. *)
Example chi2_per_dof_value_gr :
  ∃ total per_filt,
    chi2_per_dof stored_gr no_timeshift budget_gr processed_gr
                 ["g"; "r"]%string = Ok (total, per_filt)
    ∧ feqb total (of_Z 1) = true.
Proof. eexists _, _. split; reflexivity. Qed.

(** C8 (as stated) fails: [--filters g,r] with the augmentation filter
    [i] and [--error-budget 0.1,0.2] gives three analyzed filters and a
    budget for [g] and [r]; with one detection of each filter inside the
    window the count is 3, and the computation raises at [i]. *)
Lemma chi2_per_dof_total_counterexample :
  ¬ returns_whenever_counted stored_gri no_timeshift budget_g_r
                             processed_gri ["g"; "r"; "i"]%string.
Proof.
  intros H. assert (3 ≠ 0) as H3 by lia.
  specialize (H H3). discriminate H.
Qed.

Example counted_and_raised :
  resolve parse_decimal insertion_order (Some "g,r"%string)
          (Some "i"%string) (BudgetString "0.1,0.2") gri_data
  = Ok (["g"; "r"; "i"]%string, budget_g_r)
  ∧ detections_in_window processed_gri ["g"; "r"; "i"]%string = 3
  ∧ chi2_per_dof stored_gri no_timeshift budget_g_r processed_gri
                 ["g"; "r"; "i"]%string
    = Raise (KeyError "i").
Proof. repeat split; reflexivity. Qed.

End TotalExamples.

(** ** The time grid *)

Section TimeGridProps.
Import SpecFloat Double TimeGrid.

Variables np_log10 np_power10 : double → double.









End TimeGridProps.

Section TimeGridExamples.
Import SpecFloat Double TimeGrid.


(** The default window: 139 points when the step count is set to zero,
    50 when it is left at its default, and 141 points without
    log-spacing, the last one 14.050000000000004. *)
Example default_grid_lengths :
  n_step None d_0_05 d_14 d_0_1 = Ok 139%Z
  ∧ n_step default_n_tstep d_0_05 d_14 d_0_1 = Ok 50%Z
  ∧ ∃ g, sample_times unread unread false None d_0_05 d_14 d_0_1 = Ok g
         ∧ length g = 141
         ∧ last g = Some (S754_finite false 7909446845569436 (-49)).
Proof.
  split; [vm_compute; reflexivity|]. split; [reflexivity|].
  eexists. split; [vm_compute; reflexivity|]. split; vm_compute; reflexivity.
Qed.

(** [tmin = 0.9], [tmax = 1.0], [dt = 0.1]: the double quotient is
    0.9999999999999998, and the logarithmic grid is empty. *)
Example short_log_grid :
  ddiv (dsub d_1 d_0_9) d_0_1 = S754_finite false 9007199254740990 (-53)
  ∧ sample_times unread unread true None d_0_9 d_1 d_0_1 = Ok [].
Proof. split; vm_compute; reflexivity. Qed.

(** [tmin = 1], [tmax = 1.2], [dt = 0.1]: four points, the last one
    1.3000000000000003, above [tmax + dt = 1.3]. *)
Example uniform_grid_past_the_end :
  sample_times unread unread false None d_1 d_1_2 d_0_1
  = Ok [S754_finite false 4503599627370496 (-52);
        S754_finite false 4953959590107546 (-52);
        S754_finite false 5404319552844596 (-52);
        S754_finite false 5854679515581646 (-52)]
  ∧ dadd d_1_2 d_0_1 = S754_finite false 5854679515581645 (-52).
Proof. split; vm_compute; reflexivity. Qed.


End TimeGridExamples.

(** ** Plotting and the stored data *)

Section PlotProps.
Import Plot.

Lemma plot_loop_effect (trigger_time : fnum) (filters : list string) :
  ∀ data : dataset,
    NoDup filters →
    (∀ f, f ∈ filters → is_Some (Py.get data f)) →
    ∃ data', plot_loop data trigger_time filters = Ok data'
             ∧ ∀ f, Py.get data' f
                    = if Py.mem f filters
                      then shift_epochs trigger_time <$> Py.get data f
                      else Py.get data f.
Proof.
  induction filters as [|filt filters IH]; intros data Hnd Hkeys.
  - exists data. by split.
  - apply NoDup_cons in Hnd as [Hnotin Hnd].
    destruct (Hkeys filt) as [rows Hrows]; [by left|].
    cbn [plot_loop]. unfold isub_epochs.
    rewrite (getitem_Some _ _ _ Hrows). cbn [mbind result_bind].
    destruct (IH (Py.set data filt (shift_epochs trigger_time rows)) Hnd)
      as (data' & Hloop & Hget).
    { intros f Hf. rewrite get_set.
      destruct (String.eqb f filt); [by eexists|].
      apply Hkeys. by right. }
    exists data'. split; [done|]. intros f. rewrite Hget, get_set.
    unfold Py.mem. cbn [existsb]. fold (Py.mem f filters).
    destruct (String.eqb_spec f filt) as [->|Hne]; simpl.
    + apply mem_not_elem_of in Hnotin. by rewrite Hnotin, Hrows.
    + done.
Qed.

(** C6 (the code as it is).  Plotting writes the stored data: for every
    filter it draws, the epochs held by the dataset after the plot are the
    loaded epochs minus the trigger time; magnitudes and uncertainties are
    as loaded. *)
Theorem plot_shifts_stored_epochs
        (data : dataset) (trigger_time : fnum)
        (filters_to_analyze : list string) (filt : string) (rows : list row) :
  NoDup filters_to_analyze →
  filt ∈ filters_plot data filters_to_analyze →
  Py.get data filt = Some rows →
  ∃ data', plot data trigger_time filters_to_analyze = Ok data'
           ∧ Py.get data' filt = Some (shift_epochs trigger_time rows).
Proof.
  intros Hnd Hin Hrows. unfold plot.
  destruct (plot_loop_effect trigger_time
              (filters_plot data filters_to_analyze) data)
    as (data' & Hloop & Hget).
  - by apply NoDup_List_filter.
  - intros f Hf. unfold filters_plot in Hf.
    apply elem_of_List_filter in Hf as [_ Hf].
    destruct (Py.get data f); [by eexists | done].
  - exists data'. split; [done|]. rewrite Hget.
    apply mem_elem_of in Hin. by rewrite Hin, Hrows.
Qed.

Lemma plot_shifts_stored_epochs_witness :
  ∃ data', plot observed_g (of_Z 59000) ["g"%string] = Ok data'
           ∧ Py.get data' "g"
             = Some (shift_epochs (of_Z 59000)
                       [Row (of_Q (118001 # 2)) (of_Z 20) (of_Q (1 # 10))]).
Proof.
  apply (plot_shifts_stored_epochs observed_g (of_Z 59000) ["g"%string] "g").
  - apply NoDup_singleton.
  - by left.
  - reflexivity.
Defined.

(** The stored epoch is no longer the loaded one. *)
Example plot_changes_data :
  ∃ data' r r', plot observed_g (of_Z 59000) ["g"%string] = Ok data'
                ∧ Py.get observed_g "g" = Some [r]
                ∧ Py.get data' "g" = Some [r']
                ∧ jd r ≠ jd r' ∧ mag r = mag r' ∧ mag_unc r = mag_unc r'.
Proof.
  eexists _, _, _. repeat split; try reflexivity.
  intros H. vm_compute in H. discriminate H.
Qed.

End PlotProps.

(** ** Goodness of fit on small inputs *)

Section BestFitExamples.
Import BestFit.

(** No detection in the window: the division raises. *)
Example no_detection_raises :
  goodness_of_fit grid_123 model_g shift_by_one no_syserr only_limits
                  ["g"%string]
  = Raise ZeroDivisionError.
Proof. reflexivity. Qed.

(** One detection on the trajectory: chi-square per degree of freedom 0. *)
Example one_detection_fits :
  ∃ c per_filt,
    goodness_of_fit grid_123 model_g shift_by_one no_syserr processed_g
                    ["g"%string]
    = Ok (c, per_filt)
    ∧ feqb c zero = true.
Proof. eexists _, _. split; reflexivity. Qed.

End BestFitExamples.

(** ** More on the goodness of fit *)

Section GoodnessProps.
Import BestFit.
Import Resolver.

Lemma store_sample_times_plain (sample_times : list fnum)
      (model_mag : Py.dict (list fnum)) (params : Py.dict fnum) :
  Py.get params "timeshift" = None →
  store_sample_times sample_times model_mag params
  = Ok (Py.set model_mag bestfit_sample_times sample_times).
Proof. intros Hts. unfold store_sample_times, Py.contains. by rewrite Hts. Qed.

Lemma effective_error_cases (params eb : Py.dict fnum) (filt : string)
      (err : fnum) :
  match Py.get params "em_syserr" with
  | Some e => err = e
  | None => Py.get eb filt = Some err
  end →
  effective_error params eb filt = Ok err.
Proof.
  intros H. unfold effective_error, Py.contains, Py.getitem.
  destruct (Py.get params "em_syserr"); [by subst | by rewrite H].
Qed.

(** X2.  Without a [timeshift] among the best-fit parameters the grid is
    stored as generated, and the chi-square of a filter with detections in
    the window is the sum over those detections of
    (magnitude - L(t))^2 over (uncertainty^2 + effective_error^2), L being
    the linear interpolation of the regenerated trajectory and [t] the
    observed epoch. *)
Theorem chi2_of_filter_without_timeshift
        (sample_times : list fnum) (model_mag : Py.dict (list fnum))
        (params eb : Py.dict fnum) (processed : dataset) (filt : string)
        (traj : list fnum) (rows : list row) (err : fnum) :
  Py.get params "timeshift" = None →
  filt ≠ bestfit_sample_times →
  Py.get model_mag filt = Some traj →
  length sample_times = length traj → sample_times ≠ [] →
  Py.get processed filt = Some rows →
  finite_unc_rows rows ≠ [] →
  match Py.get params "em_syserr" with
  | Some e => err = e
  | None => Py.get eb filt = Some err
  end →
  Forall (λ d, in_range sample_times (jd d)) (finite_unc_rows rows) →
  store_sample_times sample_times model_mag params
  = Ok (Py.set model_mag bestfit_sample_times sample_times)
  ∧ chi2_of_filter (Py.set model_mag bestfit_sample_times sample_times)
                   params eb processed filt
    = Ok (Some (chi2_sum (eval (Interpolant sample_times traj)) jd err
                         (finite_unc_rows rows),
                length (finite_unc_rows rows))).
Proof.
  intros Hts Hf Hm Hlen Hne Hp Hdet Herr Hin.
  split; [by apply store_sample_times_plain|].
  apply chi2_of_filter_sum; try done.
  - by rewrite get_set, String.eqb_refl.
  - rewrite get_set. apply String.eqb_neq in Hf. by rewrite Hf.
  - by apply effective_error_cases.
  - unfold Py.contains. by rewrite Hts.
Qed.

Lemma chi2_of_filter_without_timeshift_witness :
  store_sample_times grid_123 model_g no_timeshift
  = Ok (Py.set model_g bestfit_sample_times grid_123)
  ∧ chi2_of_filter (Py.set model_g bestfit_sample_times grid_123)
                   no_timeshift no_syserr processed_mixed "g"
    = Ok (Some (chi2_sum
                  (eval (Interpolant grid_123 [of_Z 10; of_Z 20; of_Z 30]))
                  jd (of_Z 0) (finite_unc_rows mixed_rows),
                length (finite_unc_rows mixed_rows))).
Proof.
  apply (chi2_of_filter_without_timeshift grid_123 model_g no_timeshift
           no_syserr processed_mixed "g" [of_Z 10; of_Z 20; of_Z 30]
           mixed_rows (of_Z 0)).
  - reflexivity.
  - discriminate.
  - reflexivity.
  - reflexivity.
  - discriminate.
  - reflexivity.
  - discriminate.
  - reflexivity.
  - repeat constructor.
Defined.

End GoodnessProps.

Section DetectionsOnlyProps.
Import BestFit.
Import Resolver.

Lemma finite_unc_rows_idem (rows : list row) :
  finite_unc_rows (finite_unc_rows rows) = finite_unc_rows rows.
Proof.
  unfold finite_unc_rows. induction rows as [|r rows IH]; simpl; [done|].
  destruct (isfinite (mag_unc r)) eqn:Hf; simpl; [|done].
  by rewrite Hf, IH.
Qed.

Lemma take_detections (f : row → fnum) (rows : list row) :
  take (map f (finite_unc_rows rows))
       (where_finite (map mag_unc (finite_unc_rows rows)))
  = take (map f rows) (where_finite (map mag_unc rows)).
Proof. by rewrite !take_where, finite_unc_rows_idem. Qed.

(** X3.  Points without a finite uncertainty never enter the chi-square:
    for every filter, the outcome of the per-filter computation (value,
    count or error) is the one obtained on the detections alone. *)
Theorem upper_limits_do_not_contribute
        (mag_dict : Py.dict (list fnum)) (params eb : Py.dict fnum)
        (processed : dataset) (filt : string) (rows : list row) :
  Py.get processed filt = Some rows →
  chi2_of_filter mag_dict params eb processed filt
  = chi2_of_filter mag_dict params eb [(filt, finite_unc_rows rows)] filt.
Proof.
  intros Hp. unfold chi2_of_filter.
  destruct (Py.getitem mag_dict bestfit_sample_times) as [times|e]; [|done].
  destruct (Py.getitem mag_dict filt) as [traj|e]; [|done].
  cbn [mbind result_bind].
  destruct (interp1d times traj) as [interp|e]; [|done].
  cbn [mbind result_bind].
  rewrite (getitem_Some _ _ _ Hp).
  assert (Py.getitem [(filt, finite_unc_rows rows)] filt
          = Ok (finite_unc_rows rows)) as ->.
  { unfold Py.getitem. simpl. by rewrite String.eqb_refl. }
  cbn [mbind result_bind].
  destruct (Py.contains params "timeshift").
  - destruct (Py.getitem params "timeshift") as [ts|e]; [|done].
    cbn [mbind result_bind]. rewrite !List.map_map.
    rewrite !where_finite_length, finite_unc_rows_idem.
    destruct (0 <? length (finite_unc_rows rows))%nat; [|done].
    by rewrite !take_detections.
  - cbn [mbind result_bind].
    rewrite !where_finite_length, finite_unc_rows_idem.
    destruct (0 <? length (finite_unc_rows rows))%nat; [|done].
    by rewrite !take_detections.
Qed.

Lemma upper_limits_do_not_contribute_witness :
  chi2_of_filter (Py.set model_g bestfit_sample_times grid_123)
                 no_timeshift no_syserr processed_mixed "g"
  = chi2_of_filter (Py.set model_g bestfit_sample_times grid_123)
                   no_timeshift no_syserr
                   [("g"%string, finite_unc_rows mixed_rows)] "g".
Proof.
  apply (upper_limits_do_not_contribute
           (Py.set model_g bestfit_sample_times grid_123)
           no_timeshift no_syserr processed_mixed "g" mixed_rows).
  reflexivity.
Defined.

End DetectionsOnlyProps.

Section FailureProps.
Import BestFit.
Import Resolver.

Lemma map_result_fails {A B : Type} (f : A → result B) (l : list A) (x : A) :
  x ∈ l → is_ok (f x) = false → is_ok (map_result f l) = false.
Proof.
  induction l as [|y l IH]; intros Hin Hx; [by apply elem_of_nil in Hin|].
  cbn [map_result]. apply elem_of_cons in Hin as [->|Hin].
  - by destruct (f y).
  - destruct (f y); [|done]. cbn [mbind result_bind].
    specialize (IH Hin Hx). by destruct (map_result f l).
Qed.

Lemma chi2_per_dof_fails (mag_dict : Py.dict (list fnum))
      (params eb : Py.dict fnum) (processed : dataset)
      (filters : list string) (filt : string) :
  filt ∈ filters →
  is_ok (chi2_of_filter mag_dict params eb processed filt) = false →
  is_ok (chi2_per_dof mag_dict params eb processed filters) = false.
Proof.
  intros Hin Hbad.
  pose proof (map_result_fails _ filters filt Hin Hbad) as Hm.
  destruct (map_result (chi2_of_filter mag_dict params eb processed) filters)
    as [rs|e] eqn:Hrs; [discriminate Hm|].
  destruct (chi2_loop_raise mag_dict params eb processed filters e
              (Totals zero 0 []) Hrs) as [e' He'].
  unfold chi2_per_dof. by rewrite He'.
Qed.

Lemma existsb_elem {A : Type} (f : A → bool) (l : list A) (x : A) :
  x ∈ l → f x = true → existsb f l = true.
Proof.
  intros Hin Hx. apply existsb_exists. exists x.
  by rewrite <- list_elem_of_In.
Qed.

(** X5.  The interpolation does not extrapolate: when one detection of
    one analyzed filter is to be read outside the stored time axis, the
    goodness-of-fit computation produces no value at all, whatever the
    other detections and filters are. *)
Theorem detection_out_of_range_fails
        (mag_dict : Py.dict (list fnum)) (params eb : Py.dict fnum)
        (processed : dataset) (filters : list string) (filt : string)
        (times : list fnum) (rows : list row) (d : row) :
  filt ∈ filters →
  Py.get mag_dict bestfit_sample_times = Some times →
  Py.get processed filt = Some rows →
  d ∈ finite_unc_rows rows →
  out_of_range times (epoch_read params d) →
  is_ok (chi2_per_dof mag_dict params eb processed filters) = false.
Proof.
  intros Hin Ht Hp Hd Hout. apply (chi2_per_dof_fails _ _ _ _ _ filt Hin).
  unfold chi2_of_filter.
  rewrite (getitem_Some _ _ _ Ht), (getitem_Some _ _ _ Hp).
  cbn [mbind result_bind].
  destruct (Py.getitem mag_dict filt) as [traj|e]; [|done].
  cbn [mbind result_bind].
  destruct (interp1d times traj) as [interp|e] eqn:Hi; [|done].
  assert (interp = Interpolant times traj) as ->.
  { unfold interp1d in Hi.
    destruct (negb (length times =? length traj)%nat); [discriminate Hi|].
    destruct (length times =? 0)%nat; [discriminate Hi|]. by injection Hi. }
  cbn [mbind result_bind].
  assert ((if Py.contains params "timeshift"
           then timeshift ← Py.getitem params "timeshift";
                Ok (map (λ x, fadd x timeshift) (map jd rows))
           else Ok (map jd rows)) = Ok (map (epoch_read params) rows)) as ->.
  { unfold Py.contains, Py.getitem, epoch_read.
    destruct (Py.get params "timeshift") as [ts|]; cbn [mbind result_bind];
      [by rewrite List.map_map | done]. }
  cbn [mbind result_bind]. rewrite where_finite_length.
  assert ((0 <? length (finite_unc_rows rows))%nat = true) as ->.
  { apply Nat.ltb_lt. destruct (finite_unc_rows rows);
      [by apply elem_of_nil in Hd | simpl; lia]. }
  destruct (effective_error params eb filt) as [err|e]; [|done].
  cbn [mbind result_bind]. rewrite !take_where. unfold call. cbn [xp].
  assert (epoch_read params d ∈ map (epoch_read params) (finite_unc_rows rows))
    as Hmem by by apply list_elem_of_fmap_2.
  destruct Hout as [Hb|Ha].
  - by rewrite (existsb_elem _ _ _ Hmem Hb).
  - destruct (existsb (below times) _); [done|].
    by rewrite (existsb_elem _ _ _ Hmem Ha).
Qed.

Lemma detection_out_of_range_fails_witness :
  is_ok (chi2_per_dof (Py.set model_g bestfit_sample_times grid_123)
                      no_timeshift no_syserr processed_late ["g"%string])
  = false.
Proof.
  apply (detection_out_of_range_fails
           (Py.set model_g bestfit_sample_times grid_123) no_timeshift
           no_syserr processed_late ["g"%string] "g" grid_123
           [Row (of_Z 7) (of_Z 25) (of_Z 1)] (Row (of_Z 7) (of_Z 25) (of_Z 1))).
  - by left.
  - reflexivity.
  - reflexivity.
  - by left.
  - right. reflexivity.
Defined.

End FailureProps.

(** ** Best-fit selection *)

Section OrderOnFloats.

Lemma Qc_ltb_lt (a b : Qc) : Qc_ltb a b = true ↔ (this a < this b)%Q.
Proof.
  unfold Qc_ltb, Qccompare. rewrite Qlt_alt.
  destruct (this a ?= this b)%Q; split; congruence.
Qed.

Lemma Qc_ltb_ge (a b : Qc) : Qc_ltb a b = false ↔ (this b <= this a)%Q.
Proof.
  pose proof (Qc_ltb_lt a b) as H.
  destruct (Qc_ltb a b); split; try done.
  - intros Hle. assert (this a < this b)%Q as Hlt by by apply H.
    exfalso. by apply (Qlt_not_le _ _ Hlt).
  - intros _. apply Qnot_lt_le. intros Hlt. apply H in Hlt. discriminate.
Qed.

Lemma fltb_irrefl (x : fnum) : fltb x x = false.
Proof.
  destruct x; simpl; try reflexivity. apply Qc_ltb_ge. apply Qle_refl.
Qed.

Lemma fltb_trans (a b c : fnum) :
  fltb a b = true → fltb b c = true → fltb a c = true.
Proof.
  destruct a, b, c; simpl; try done.
  rewrite !Qc_ltb_lt. apply Qlt_trans.
Qed.

(** [b <= a < c] gives [b < c], away from [nan]. *)
Lemma fltb_le_lt (a b c : fnum) :
  isnan a = false → isnan b = false →
  fltb a b = false → fltb a c = true → fltb b c = true.
Proof.
  destruct a, b, c; simpl; try done.
  rewrite Qc_ltb_ge, !Qc_ltb_lt. intros _ _. apply Qle_lt_trans.
Qed.

(** [a < c] and not [a < b] gives not [c < b]. *)
Lemma fltb_lt_ge (a b c : fnum) :
  fltb a c = true → fltb a b = false → fltb c b = false.
Proof.
  intros Hac Hab. destruct (fltb c b) eqn:Hcb; [|done].
  by rewrite (fltb_trans _ _ _ Hac Hcb) in Hab.
Qed.

End OrderOnFloats.

Section ArgmaxProps.
Import Report.

Lemma argmax_from_spec (rest : list fnum) :
  ∀ (pre : list fnum) (best : fnum) (best_i : nat),
    nan_free (pre ++ rest) →
    pre !! best_i = Some best →
    (∀ x, x ∈ pre → fltb best x = false) →
    (∀ j x, j < best_i → pre !! j = Some x → fltb x best = true) →
    ∃ m, (pre ++ rest) !! argmax_from rest (length pre) best best_i = Some m
         ∧ (∀ x, x ∈ pre ++ rest → fltb m x = false)
         ∧ (∀ j x, j < argmax_from rest (length pre) best best_i →
                   (pre ++ rest) !! j = Some x → fltb x m = true).
Proof.
  induction rest as [|x rest IH]; intros pre best best_i Hnan Hbest Hmax Hfirst.
  - simpl. rewrite app_nil_r. exists best. by repeat split.
  - pose proof Hnan as Hn. unfold nan_free in Hn. rewrite Forall_forall in Hn.
    assert (isnan best = false) as Hb.
    { apply Hn. apply elem_of_app. left. by eapply list_elem_of_lookup_2. }
    assert (isnan x = false) as Hx.
    { apply Hn. apply elem_of_app. right. by left. }
    assert (∀ j y, pre !! j = Some y → isnan y = false) as Hpre.
    { intros j y Hj. apply Hn. apply elem_of_app. left.
      by eapply list_elem_of_lookup_2. }
    clear Hn.
    cbn [argmax_from]. rewrite Hb, Hx. cbn [orb].
    replace (pre ++ x :: rest) with ((pre ++ [x]) ++ rest) in *
      by by rewrite <- app_assoc.
    replace (S (length pre)) with (length (pre ++ [x]))
      by (rewrite length_app; simpl; lia).
    destruct (fltb best x) eqn:Hlt.
    + apply IH; [done | | |].
      * rewrite lookup_app_r by lia. by rewrite Nat.sub_diag.
      * intros y [Hy|Hy%list_elem_of_singleton]%elem_of_app.
        -- eapply fltb_lt_ge; [exact Hlt | by apply Hmax].
        -- subst y. apply fltb_irrefl.
      * intros j y Hj Hy. rewrite lookup_app_l in Hy by done.
        eapply (fltb_le_lt best); [done | by eapply Hpre | | done].
        apply Hmax. by eapply list_elem_of_lookup_2.
    + apply IH; [done | | |].
      * apply lookup_lt_Some in Hbest as Hl. by rewrite lookup_app_l.
      * intros y [Hy|Hy%list_elem_of_singleton]%elem_of_app;
          [by apply Hmax | by subst y].
      * intros j y Hj Hy. apply lookup_lt_Some in Hbest as Hl.
        rewrite lookup_app_l in Hy by lia. by eapply Hfirst.
Qed.

Lemma select_row_get (columns : Py.dict (list fnum)) (idx : nat) (key : string) :
  Py.get (select_row columns idx) key
  = (λ column, nth idx column NaN) <$> Py.get columns key.
Proof.
  unfold select_row.
  assert (∀ (ks : list string) (acc : Py.dict fnum),
            Py.get (fold_left
                      (λ params k,
                         match Py.get columns k with
                         | Some column => Py.set params k (nth idx column NaN)
                         | None => params
                         end) ks acc) key
            = match Py.get columns key with
              | Some column =>
                  if Py.mem key ks then Some (nth idx column NaN)
                  else Py.get acc key
              | None => Py.get acc key
              end) as Hfold.
  { induction ks as [|k ks IH]; intros acc.
    - simpl. by destruct (Py.get columns key).
    - cbn [fold_left]. rewrite IH. unfold Py.mem. cbn [existsb].
      fold (Py.mem key ks).
      destruct (Py.get columns key) as [column|] eqn:Hkey.
      + destruct (Py.mem key ks); [by rewrite orb_true_r|].
        rewrite orb_false_r. destruct (String.eqb_spec key k) as [<-|Hne].
        * by rewrite Hkey, get_set, String.eqb_refl.
        * destruct (Py.get columns k); [|done].
          rewrite get_set. apply String.eqb_neq in Hne. by rewrite Hne.
      + destruct (Py.get columns k) as [c|] eqn:Hk; [|done].
        rewrite get_set. destruct (String.eqb_spec key k) as [->|Hne]; [|done].
        congruence. }
  rewrite Hfold. destruct (Py.get columns key) as [column|] eqn:Hkey; [|done].
  assert (Py.mem key (Py.keys columns) = true) as ->; [|done].
  apply mem_elem_of. destruct (decide (key ∈ Py.keys columns)) as [|Hn]; [done|].
  apply get_None_iff in Hn. congruence.
Qed.

(** X6.  On a posterior table without [nan] in its log-likelihood column
    and with at least one row, the best fit is the first row of maximal
    log-likelihood: no row has a greater log-likelihood, every earlier row
    has a strictly smaller one, and each best-fit parameter is the entry of
    its column in that row. *)
Theorem bestfit_first_maximum
        (log_likelihood : list fnum) (columns : Py.dict (list fnum)) :
  log_likelihood ≠ [] → nan_free log_likelihood →
  ∃ idx params m,
    bestfit log_likelihood columns = Ok (idx, params)
    ∧ log_likelihood !! idx = Some m
    ∧ (∀ x, x ∈ log_likelihood → fltb m x = false)
    ∧ (∀ j x, j < idx → log_likelihood !! j = Some x → fltb x m = true)
    ∧ (∀ key, Py.get params key
              = (λ column, nth idx column NaN) <$> Py.get columns key).
Proof.
  intros Hne Hnan. destruct log_likelihood as [|x rest]; [done|].
  destruct (argmax_from_spec rest [x] x 0) as (m & Hm & Hmax & Hfirst).
  - done.
  - done.
  - intros y Hy%list_elem_of_singleton. subst y. apply fltb_irrefl.
  - intros j y Hj. lia.
  - exists (argmax_from rest 1 x 0), (select_row columns (argmax_from rest 1 x 0)), m.
    repeat split; try done. intros key. apply select_row_get.
Qed.

Lemma bestfit_first_maximum_witness :
  ∃ idx params m,
    bestfit loglik_3 columns_3 = Ok (idx, params)
    ∧ loglik_3 !! idx = Some m
    ∧ (∀ x, x ∈ loglik_3 → fltb m x = false)
    ∧ (∀ j x, j < idx → loglik_3 !! j = Some x → fltb x m = true)
    ∧ (∀ key, Py.get params key
              = (λ column, nth idx column NaN) <$> Py.get columns_3 key).
Proof.
  apply (bestfit_first_maximum loglik_3 columns_3).
  - discriminate.
  - repeat constructor.
Defined.

(** The second row wins the tie with the third. *)
Example bestfit_tie :
  ∃ params, bestfit loglik_3 columns_3 = Ok (1, params)
            ∧ Py.get params "luminosity_distance" = Some (of_Z 41).
Proof. eexists. split; reflexivity. Qed.

(** A [nan] log-likelihood is taken for the maximum. *)
Example argmax_nan : argmax [of_Z 3; NaN; of_Z 5] = Ok 1.
Proof. reflexivity. Qed.

End ArgmaxProps.

(** ** The distance modulus *)

Section ModulusProps.
Import Report.

Variable modulus : fnum → fnum.

Lemma modulus_loop_positive (params : Py.dict fnum) (d : fnum)
      (filters : list string) :
  Py.get params "luminosity_distance" = Some d →
  fltb zero d = true →
  ∀ mag_dict : Py.dict (list fnum),
    NoDup filters →
    (∀ f, f ∈ filters → is_Some (Py.get mag_dict f)) →
    ∃ out, modulus_loop modulus params mag_dict filters = Ok out
           ∧ ∀ f, Py.get out f
                  = if Py.mem f filters
                    then map (λ m, fadd m (modulus d)) <$> Py.get mag_dict f
                    else Py.get mag_dict f.
Proof.
  intros Hd Hpos.
  induction filters as [|filt filters IH]; intros mag_dict Hnd Hkeys.
  - exists mag_dict. by split.
  - apply NoDup_cons in Hnd as [Hnotin Hnd].
    destruct (Hkeys filt) as [traj Htraj]; [by left|].
    cbn [modulus_loop]. unfold add_modulus.
    rewrite (getitem_Some _ _ _ Hd). cbn [mbind result_bind].
    rewrite Hpos, (getitem_Some _ _ _ Htraj). cbn [mbind result_bind].
    destruct (IH (Py.set mag_dict filt (map (λ m, fadd m (modulus d)) traj)) Hnd)
      as (out & Hloop & Hget).
    { intros f Hf. rewrite get_set.
      destruct (String.eqb f filt); [by eexists|]. apply Hkeys. by right. }
    exists out. split; [done|]. intros f. rewrite Hget, get_set.
    unfold Py.mem. cbn [existsb]. fold (Py.mem f filters).
    destruct (String.eqb_spec f filt) as [->|Hne]; simpl; [|done].
    apply mem_not_elem_of in Hnotin. by rewrite Hnotin, Htraj.
Qed.

Lemma modulus_loop_not_positive (params : Py.dict fnum) (d : fnum)
      (filters : list string) (mag_dict : Py.dict (list fnum)) :
  Py.get params "luminosity_distance" = Some d →
  fltb zero d = false →
  modulus_loop modulus params mag_dict filters = Ok mag_dict.
Proof.
  intros Hd Hneg. induction filters as [|filt filters IH]; [done|].
  cbn [modulus_loop]. unfold add_modulus.
  rewrite (getitem_Some _ _ _ Hd). cbn [mbind result_bind].
  by rewrite Hneg.
Qed.

(** X7.  The distance modulus is added only for a positive distance: then
    every filter's trajectory is moved by the same amount, the modulus of
    that distance; a distance that is zero, negative or [nan] leaves the
    magnitudes as generated.  Without [luminosity_distance] among the
    parameters the step raises a [KeyError], unless the model returned no
    filter at all. *)
Theorem apply_distance_effect
        (params : Py.dict fnum) (mag_dict : Py.dict (list fnum)) :
  NoDup (Py.keys mag_dict) →
  (∀ d, Py.get params "luminosity_distance" = Some d →
        fltb zero d = true →
        ∃ out, apply_distance modulus params mag_dict = Ok out
               ∧ ∀ f, Py.get out f
                      = map (λ m, fadd m (modulus d)) <$> Py.get mag_dict f)
  ∧ (∀ d, Py.get params "luminosity_distance" = Some d →
          fltb zero d = false →
          apply_distance modulus params mag_dict = Ok mag_dict)
  ∧ (Py.get params "luminosity_distance" = None →
     apply_distance modulus params mag_dict
     = if (length mag_dict =? 0)%nat then Ok mag_dict
       else Raise (KeyError "luminosity_distance")).
Proof.
  intros Hnd. unfold apply_distance. split; [|split].
  - intros d Hd Hpos.
    destruct (modulus_loop_positive params d (Py.keys mag_dict) Hd Hpos
                mag_dict Hnd) as (out & Hloop & Hget).
    { intros f Hf. destruct (Py.get mag_dict f) eqn:Hg; [by eexists|].
      by apply get_None_iff in Hg. }
    exists out. split; [done|]. intros f. rewrite Hget.
    destruct (Py.mem f (Py.keys mag_dict)) eqn:Hm; [done|].
    apply mem_not_elem_of, get_None_iff in Hm. by rewrite Hm.
  - intros d Hd Hneg. by apply (modulus_loop_not_positive params d).
  - intros Hnone. destruct mag_dict as [|[filt traj] rest]; [done|].
    simpl. unfold add_modulus, Py.getitem. by rewrite Hnone.
Qed.

End ModulusProps.

Section ModulusExamples.
Import Report.

Lemma apply_distance_effect_witness :
  (∀ d, Py.get no_timeshift "luminosity_distance" = Some d →
        fltb zero d = true →
        ∃ out, apply_distance toy_modulus no_timeshift absolute_gr = Ok out
               ∧ ∀ f, Py.get out f
                      = map (λ m, fadd m (toy_modulus d))
                          <$> Py.get absolute_gr f)
  ∧ (∀ d, Py.get no_timeshift "luminosity_distance" = Some d →
          fltb zero d = false →
          apply_distance toy_modulus no_timeshift absolute_gr
          = Ok absolute_gr)
  ∧ (Py.get no_timeshift "luminosity_distance" = None →
     apply_distance toy_modulus no_timeshift absolute_gr
     = if (length absolute_gr =? 0)%nat then Ok absolute_gr
       else Raise (KeyError "luminosity_distance")).
Proof.
  apply (apply_distance_effect toy_modulus no_timeshift absolute_gr).
  apply (bool_decide_unpack _). reflexivity.
Defined.

End ModulusExamples.

(** ** The trigger time *)

Section TriggerProps.
Import Load.

(** [a < b <= c] gives [a < c], away from [nan]. *)
Lemma fltb_lt_le (a b c : fnum) :
  isnan b = false → isnan c = false →
  fltb a b = true → fltb c b = false → fltb a c = true.
Proof.
  destruct a, b, c; simpl; try done.
  rewrite Qc_ltb_ge, !Qc_ltb_lt. intros _ _. apply Qlt_le_trans.
Qed.

Lemma fminimum_spec (x y : fnum) :
  isnan x = false → isnan y = false →
  isnan (fminimum x y) = false
  ∧ (fminimum x y = x ∨ fminimum x y = y)
  ∧ fltb x (fminimum x y) = false
  ∧ fltb y (fminimum x y) = false.
Proof.
  intros Hx Hy. unfold fminimum. rewrite Hx, Hy.
  destruct (fltb y x) eqn:Hlt.
  - repeat split; [done | by right | | apply fltb_irrefl].
    destruct (fltb x y) eqn:Hxy; [|done].
    by rewrite <- (fltb_irrefl y), (fltb_trans _ _ _ Hlt Hxy).
  - repeat split; [done | by left | apply fltb_irrefl | done].
Qed.

(** [m <= b] and [b <= e] give [m <= e]. *)
Lemma not_fltb_trans (e b m : fnum) :
  isnan b = false → isnan m = false →
  fltb e b = false → fltb b m = false → fltb e m = false.
Proof.
  intros Hb Hm Heb Hbm. destruct (fltb e m) eqn:Hem; [|done].
  by rewrite (fltb_lt_le e m b Hm Hb Hem Hbm) in Heb.
Qed.

Lemma fold_fminimum_spec (rest : list fnum) :
  ∀ x, nan_free (x :: rest) →
       isnan (fold_left fminimum rest x) = false
       ∧ fold_left fminimum rest x ∈ x :: rest
       ∧ ∀ e, e ∈ x :: rest → fltb e (fold_left fminimum rest x) = false.
Proof.
  induction rest as [|y rest IH]; intros x Hnan.
  - apply Forall_cons in Hnan as [Hx _]. simpl. repeat split; [done | by left |].
    intros e He%list_elem_of_singleton. subst e. apply fltb_irrefl.
  - apply Forall_cons in Hnan as [Hx Hnan].
    pose proof Hnan as Hyr. apply Forall_cons in Hnan as [Hy Hrest].
    destruct (fminimum_spec x y Hx Hy) as (Hm & Hor & Hmx & Hmy).
    destruct (IH (fminimum x y)) as (Hn & Hin & Hlow); [by constructor|].
    cbn [fold_left]. set (m := fold_left fminimum rest (fminimum x y)) in *.
    repeat split; [done | |].
    + apply elem_of_cons in Hin as [Hin|Hin].
      * rewrite Hin. destruct Hor as [->| ->]; [by left | right; by left].
      * right. by right.
    + assert (fltb (fminimum x y) m = false) as Hfm by (apply Hlow; by left).
      intros e [->|[->|He]%elem_of_cons]%elem_of_cons.
      * by apply (not_fltb_trans _ (fminimum x y)).
      * by apply (not_fltb_trans _ (fminimum x y)).
      * apply Hlow. by right.
Qed.

Lemma np_min_spec (a : list fnum) :
  a ≠ [] → nan_free a →
  ∃ m, np_min a = Ok m ∧ isnan m = false ∧ m ∈ a
       ∧ ∀ e, e ∈ a → fltb e m = false.
Proof.
  intros Hne Hnan. destruct a as [|x rest]; [done|].
  exists (fold_left fminimum rest x). split; [done|].
  by apply fold_fminimum_spec.
Qed.

Lemma min_time_loop_spec (entries : list (string * list row)) :
  ∀ (seen : list fnum) (min_time : fnum),
    Forall (λ kv, kv.2 ≠ []) entries →
    nan_free (seen ++ all_epochs entries) →
    isnan min_time = false →
    (∀ e, e ∈ seen → fltb e min_time = false) →
    ∃ t, min_time_loop entries min_time = Ok t
         ∧ (t = min_time ∨ t ∈ all_epochs entries)
         ∧ (entries ≠ [] → min_time = PInf → t ∈ all_epochs entries)
         ∧ ∀ e, e ∈ seen ++ all_epochs entries → fltb e t = false.
Proof.
  induction entries as [|[filt rows] rest IH];
    intros seen min_time Hne Hnan Hm Hlow.
  - exists min_time. simpl. rewrite app_nil_r. by repeat split; [left| |].
  - apply Forall_cons in Hne as [Hrows Hne]. simpl in Hrows.
    cbn [all_epochs flat_map] in *. fold (all_epochs rest) in *.
    unfold nan_free in Hnan.
    apply Forall_app in Hnan as [Hseen Hnan].
    apply Forall_app in Hnan as [Hhere Hrest].
    destruct (np_min_spec (map jd rows)) as (m & Hmin & Hmn & Hmin_in & Hmlow).
    { by destruct rows. }
    { done. }
    cbn [min_time_loop]. rewrite Hmin. cbn [mbind result_bind].
    destruct (fminimum_spec min_time m Hm Hmn) as (Hn & Hor & Hl1 & Hl2).
    destruct (IH (seen ++ map jd rows) (fminimum min_time m))
      as (t & Hloop & Hwhere & _ & Hall).
    + done.
    + unfold nan_free. rewrite <- app_assoc. by repeat apply Forall_app_2.
    + done.
    + intros e [He|He]%elem_of_app.
      * by apply (not_fltb_trans _ min_time); [| |apply Hlow|].
      * by apply (not_fltb_trans _ m); [| |apply Hmlow|].
    + exists t. split; [done|]. rewrite <- app_assoc in Hall.
      repeat split; [| |done].
      * destruct Hwhere as [->|Hin].
        -- destruct Hor as [->| ->]; [by left|].
           right. apply elem_of_app. by left.
        -- right. apply elem_of_app. by right.
      * intros _ ->. destruct Hwhere as [->|Hin].
        -- apply elem_of_app. left.
           assert (fminimum PInf m = m) as ->; [|done].
           unfold fminimum. simpl. rewrite Hmn. by destruct m.
        -- apply elem_of_app. by right.
Qed.

(** X8.  Without a trigger time in the arguments, and with data whose
    filters each hold at least one point and whose epochs are never [nan],
    the trigger time is the earliest epoch of the data: no epoch is before
    it, and it is one of the epochs (it is [+inf] when no filter is
    loaded). *)
Theorem trigger_time_is_first_epoch (data : dataset) :
  Forall (λ kv, kv.2 ≠ []) data →
  nan_free (all_epochs data) →
  ∃ t, trigger_time None data = Ok t
       ∧ (∀ e, e ∈ all_epochs data → fltb e t = false)
       ∧ (data ≠ [] → t ∈ all_epochs data)
       ∧ (data = [] → t = PInf).
Proof.
  intros Hne Hnan.
  destruct (min_time_loop_spec data [] PInf Hne Hnan eq_refl)
    as (t & Hloop & Hwhere & Hin & Hlow).
  { intros e He. by apply elem_of_nil in He. }
  exists t. repeat split; try done.
  - intros Hd. by apply Hin.
  - intros ->. simpl in Hloop. by injection Hloop as <-.
Qed.

Lemma trigger_time_is_first_epoch_witness :
  ∃ t, trigger_time None processed_gr = Ok t
       ∧ (∀ e, e ∈ all_epochs processed_gr → fltb e t = false)
       ∧ (processed_gr ≠ [] → t ∈ all_epochs processed_gr)
       ∧ (processed_gr = [] → t = PInf).
Proof.
  apply (trigger_time_is_first_epoch processed_gr).
  - repeat constructor; discriminate.
  - repeat constructor.
Defined.

(** A filter without any point makes the derivation fail. *)
Example trigger_time_empty_filter :
  is_ok (trigger_time None [("g"%string, one_detection); ("r"%string, [])])
  = false.
Proof. reflexivity. Qed.

End TriggerProps.

(** ** The filter list of the light-curve model *)

Section ParseFiltersProps.
Import Load.

Lemma split_not_nil (sep : ascii) (s : string) : Py.split sep s ≠ [].
Proof.
  destruct s as [|c s]; simpl; [done|].
  destruct (Ascii.eqb c sep); [done|]. by destruct (Py.split sep s).
Qed.

(** No field of a split holds the separator, and a field holds only
    characters of the string. *)
Lemma split_fields (sep : ascii) (s : string) :
  ∀ w, w ∈ Py.split sep s →
       has_char sep w = false
       ∧ ∀ c, has_char c w = true → has_char c s = true.
Proof.
  induction s as [|a s IH]; intros w Hw; simpl in Hw.
  - apply list_elem_of_singleton in Hw. by subst w.
  - destruct (Ascii.eqb a sep) eqn:Ha.
    + apply elem_of_cons in Hw as [->|Hw]; [done|].
      destruct (IH w Hw) as [Hsep Hsub]. split; [done|].
      intros c Hc. simpl. rewrite (Hsub c Hc). apply orb_true_r.
    + pose proof (split_not_nil sep s) as Hne.
      destruct (Py.split sep s) as [|w0 ws]; [done|].
      apply elem_of_cons in Hw as [->|Hw].
      * destruct (IH w0) as [Hsep Hsub]; [by left|]. simpl. rewrite Ha, Hsep.
        split; [done|]. intros c [Hc|Hc]%orb_true_iff; simpl.
        -- by rewrite Hc.
        -- rewrite (Hsub c Hc). apply orb_true_r.
      * destruct (IH w) as [Hsep Hsub]; [by right|]. split; [done|].
        intros c Hc. simpl. rewrite (Hsub c Hc). apply orb_true_r.
Qed.

Lemma remove_spaces_no_space (s : string) :
  has_char " " (remove_spaces s) = false.
Proof.
  induction s as [|c s IH]; simpl; [done|].
  destruct (Ascii.eqb c " ") eqn:Hc; [done|]. simpl. by rewrite Hc.
Qed.

Lemma remove_spaces_id (s : string) :
  has_char " " s = false → remove_spaces s = s.
Proof.
  induction s as [|c s IH]; simpl; [done|].
  intros [Hc Hs]%orb_false_iff. rewrite Hc. f_equal. by apply IH.
Qed.

(** X10.  Reading [--filters] for the light-curve model never fails: the
    guard against an empty list cannot fire, because a split always has at
    least one field.  A given string yields at least one name, without
    blanks or commas (an all-blank string yields one empty name), and when
    the string holds no blank the names are those the filter resolver
    splits from it. *)
Theorem parse_filters_never_fails (filters : option string) :
  ∃ r, parse_filters filters = Ok r
       ∧ match r with
         | None => Py.truthy filters = false
         | Some names =>
             Py.truthy filters = true
             ∧ names ≠ []
             ∧ (∀ name, name ∈ names →
                        has_char " " name = false
                        ∧ has_char Py.comma name = false)
             ∧ (∀ s, filters = Some s → has_char " " s = false →
                     names = Py.split Py.comma s)
             ∧ (∀ s, filters = Some s → remove_spaces s = EmptyString →
                     names = [EmptyString])
         end.
Proof.
  unfold parse_filters. destruct (Py.truthy filters) eqn:Ht.
  - set (names := Py.split Py.comma
                    (remove_spaces (default EmptyString filters))).
    pose proof (split_not_nil Py.comma
                  (remove_spaces (default EmptyString filters))) as Hne.
    fold names in Hne.
    assert ((length names =? 0)%nat = false) as ->.
    { apply Nat.eqb_neq. by destruct names. }
    exists (Some names). repeat split; try done.
    + destruct (split_fields _ _ name H) as [_ Hsub].
      destruct (has_char " " name) eqn:Hsp; [|done].
      by rewrite <- (remove_spaces_no_space (default EmptyString filters)),
                 (Hsub _ Hsp).
    + by destruct (split_fields _ _ name H).
    + intros s -> Hs. unfold names. simpl. by rewrite remove_spaces_id.
    + intros s -> Hs. unfold names. simpl. by rewrite Hs.
  - by exists None.
Qed.

Example parse_filters_blank :
  parse_filters (Some " "%string) = Ok (Some [""%string]).
Proof. reflexivity. Qed.

(** With a blank after the comma the model gets [r], the resolver [" r"]. *)
Example parse_filters_strips_blanks :
  parse_filters (Some "g, r"%string) = Ok (Some ["g"; "r"]%string)
  ∧ Py.split Py.comma "g, r" = ["g"; " r"]%string.
Proof. split; reflexivity. Qed.

End ParseFiltersProps.

(** ** The injection parameters *)

Section PrepareInjectionProps.
Import Load.

Variable gps_to_mjd : fnum → fnum.

Lemma sanitize_get (key : string) (p : Py.dict fnum) (k : string) :
  Py.get (sanitize key p) k
  = if String.eqb k key
    then (λ v, if isfinite v then v else minus_three) <$> Py.get p key
    else Py.get p k.
Proof.
  unfold sanitize. destruct (String.eqb_spec k key) as [->|Hne].
  - destruct (Py.get p key) as [v|] eqn:Hv; [|by rewrite Hv].
    destruct (isfinite v) eqn:Hf; simpl; [by rewrite Hv, Hf|].
    by rewrite get_set, String.eqb_refl, Hf.
  - destruct (Py.get p key) as [v|]; [|done].
    destruct (isfinite v); simpl; [done|].
    rewrite get_set. apply String.eqb_neq in Hne. by rewrite Hne.
Qed.

(** X9.  An injection row without [geocent_time] and [geocent_time_x]
    ends the run with the notice and exit status 1.  Otherwise the trigger
    time is the MJD of [geocent_time], or of [geocent_time_x] when the
    first is absent, and it is stored under [kilonova_trigger_time]; the
    ejecta masses [log10_mej_dyn] and [log10_mej_wind] that the parameters
    hold afterwards are finite (-3.0 replaces a non-finite value), a prompt
    collapse sets [log10_mej_wind] to -3.0 whether or not the row had it,
    and no other parameter changes. *)
Theorem prepare_injection_effect
        (prompt_collapse : bool) (p : Py.dict fnum) :
  (Py.get p "geocent_time" = None → Py.get p "geocent_time_x" = None →
   prepare_injection gps_to_mjd prompt_collapse p
   = IO [Print need_geocent_time] (Raise (SystemExit 1))
   ∧ exit_status (prepare_injection gps_to_mjd prompt_collapse p) = 1%Z)
  ∧ (∀ gps,
       match Py.get p "geocent_time" with
       | Some t => Some t
       | None => Py.get p "geocent_time_x"
       end = Some gps →
       ∃ p', prepare_injection gps_to_mjd prompt_collapse p
             = IO [] (Ok (gps_to_mjd gps, p'))
         ∧ Py.get p' "kilonova_trigger_time" = Some (gps_to_mjd gps)
         ∧ (∀ v, Py.get p' "log10_mej_dyn" = Some v → isfinite v = true)
         ∧ (∀ v, Py.get p' "log10_mej_wind" = Some v → isfinite v = true)
         ∧ (prompt_collapse = true →
            Py.get p' "log10_mej_wind" = Some minus_three)
         ∧ (∀ key, key ≠ "kilonova_trigger_time"%string →
                   key ≠ "log10_mej_dyn"%string →
                   key ≠ "log10_mej_wind"%string →
                   Py.get p' key = Py.get p key)
         ∧ (∀ v, Py.get p "log10_mej_dyn" = Some v →
                 Py.get p' "log10_mej_dyn"
                 = Some (if isfinite v then v else minus_three))
         ∧ (prompt_collapse = false →
            ∀ v, Py.get p "log10_mej_wind" = Some v →
                 Py.get p' "log10_mej_wind"
                 = Some (if isfinite v then v else minus_three))).
Proof.
  split.
  - intros H1 H2. unfold prepare_injection, exit_status. by rewrite H1, H2.
  - intros gps Hgps.
    set (p1 := Py.set p "kilonova_trigger_time" (gps_to_mjd gps)).
    set (p2 := if prompt_collapse then Py.set p1 "log10_mej_wind" minus_three
               else p1).
    exists (sanitize "log10_mej_wind" (sanitize "log10_mej_dyn" p2)).
    split; [|split; [|split; [|split; [|split; [|split; [|split]]]]]].
    + unfold prepare_injection.
      destruct (Py.get p "geocent_time") as [t|].
      * by injection Hgps as ->.
      * by rewrite Hgps.
    + rewrite !sanitize_get. simpl. unfold p2, p1.
      destruct prompt_collapse; rewrite ?get_set; reflexivity.
    + intros v. rewrite !sanitize_get. simpl.
      destruct (Py.get p2 "log10_mej_dyn") as [w|]; [|done].
      simpl. intros [= <-]. by destruct (isfinite w) eqn:Hw.
    + intros v. rewrite !sanitize_get. simpl.
      destruct (Py.get p2 "log10_mej_wind") as [w|]; [|done].
      simpl. intros [= <-]. by destruct (isfinite w) eqn:Hw.
    + intros ->. rewrite !sanitize_get. simpl. unfold p2.
      by rewrite get_set.
    + intros key H1 H2 H3. rewrite !sanitize_get.
      apply String.eqb_neq in H1, H2, H3. rewrite H3, H2. unfold p2, p1.
      destruct prompt_collapse; rewrite ?get_set, ?H3, ?H1; reflexivity.
    + intros v Hv. rewrite !sanitize_get. simpl.
      assert (Py.get p2 "log10_mej_dyn" = Some v) as ->; [|done].
      unfold p2, p1. by destruct prompt_collapse; rewrite ?get_set.
    + intros -> v Hv. rewrite !sanitize_get. simpl.
      assert (Py.get p2 "log10_mej_wind" = Some v) as ->; [|done].
      unfold p2, p1. by rewrite get_set.
Qed.

End PrepareInjectionProps.

Section PrepareInjectionExamples.
Import Load.

(** A row with [geocent_time_x] only and a [nan] dynamical mass, for a
    prompt collapse. *)
Example prepare_injection_row :
  ∃ p', prepare_injection toy_gps_to_mjd true injection_row
        = IO [] (Ok (toy_gps_to_mjd (of_Z 100), p'))
    ∧ Py.get p' "log10_mej_dyn" = Some minus_three
    ∧ Py.get p' "log10_mej_wind" = Some minus_three
    ∧ Py.get p' "luminosity_distance" = Some (of_Z 40).
Proof. eexists. repeat split; reflexivity. Qed.

End PrepareInjectionExamples.

(** ** The analysis sets of a configuration file *)

Section MainProps.
Import Main.
Context {V : Type}.
Variable analysis : Py.dict V → result (Py.dict V).

Lemma get_update (args : Py.dict V) params k :
  Py.get (update args params) k
  = match Py.get (rev (renamed params)) k with
    | Some v => Some v
    | None => Py.get args k
    end.
Proof. unfold update. apply get_fold_set. Qed.

(** Assigning known arguments adds no name. *)
Lemma contains_update (args : Py.dict V) params k :
  known args params = true →
  Py.contains (update args params) k = Py.contains args k.
Proof.
  intros Hk. unfold Py.contains at 1. rewrite get_update.
  destruct (Py.get (rev (renamed params)) k) as [v|] eqn:Hv; [|done].
  apply get_Some_elem_of in Hv. rewrite elem_of_rev in Hv.
  unfold known in Hk. rewrite forallb_forall in Hk.
  symmetry. apply (Hk (k, v)). by apply (proj1 (list_elem_of_In _ _)).
Qed.

Lemma known_update (args : Py.dict V) params params' :
  known args params = true →
  known (update args params) params' = known args params'.
Proof.
  intros Hk. unfold known.
  induction (renamed params') as [|kv l IH]; simpl; [done|].
  by rewrite IH, contains_update.
Qed.

Lemma known_mono (args args' : Py.dict V) params :
  (∀ k, Py.contains args k = true → Py.contains args' k = true) →
  known args params = true → known args' params = true.
Proof.
  intros Hgrow. unfold known. rewrite !forallb_forall.
  intros H kv Hkv. apply Hgrow. by apply H.
Qed.

Lemma left_by_ok (args : Py.dict V) :
  completes analysis →
  analysis args = Ok (left_by analysis args)
  ∧ ∀ k, Py.contains args k = true →
         Py.contains (left_by analysis args) k = true.
Proof.
  intros Hc. destruct (Hc args) as (args' & Ha & Hgrow).
  unfold left_by. by rewrite Ha.
Qed.

Lemma set_params_known (params : list (string * V)) :
  ∀ args, known args params = true →
          set_params args params = ([], Ok (update args params)).
Proof.
  induction params as [|[key value] params IH]; intros args Hk; [done|].
  assert (Py.contains args (underscore key) = true
          ∧ known args params = true) as [Hkey Hk'].
  { unfold known in *. simpl in Hk. by apply andb_true_iff in Hk. }
  assert (known args [(key, value)] = true) as Hone.
  { unfold known. simpl. by rewrite Hkey. }
  simpl. rewrite Hkey. simpl.
  change (Py.set args (underscore key) value)
    with (update args [(key, value)]).
  rewrite IH; [done|]. by rewrite known_update.
Qed.

Lemma set_params_unknown (params : list (string * V)) :
  ∀ args, known args params = false →
          ∃ key, set_params args params
                 = ([Notice (unknown_argument key)], Raise (SystemExit 0))
                 ∧ Py.contains args key = false
                 ∧ key ∈ Py.keys (renamed params).
Proof.
  induction params as [|[key value] params IH]; intros args Hk; [done|].
  simpl. destruct (Py.contains args (underscore key)) eqn:Hkey; simpl.
  - assert (known args params = false) as Hk'.
    { unfold known in *. simpl in Hk. by rewrite Hkey in Hk. }
    assert (known args [(key, value)] = true) as Hone.
    { unfold known. simpl. by rewrite Hkey. }
    change (Py.set args (underscore key) value)
      with (update args [(key, value)]).
    destruct (IH (update args [(key, value)])) as (k & Hs & Hc & Hin).
    { by rewrite known_update. }
    exists k. split; [done|]. split; [|by right].
    by rewrite <- (contains_update args [(key, value)] k Hone).
  - exists (underscore key). split; [done|]. split; [done|]. by left.
Qed.

(** The sets known at the start stay known through an analysis set. *)
Lemma known_after_set (args : Py.dict V) params
      (sets : list (string * list (string * V))) :
  completes analysis →
  known args params = true →
  Forall (λ s, known args s.2 = true) sets →
  Forall (λ s, known (left_by analysis (update args params)) s.2 = true) sets.
Proof.
  intros Hc Hp Hsets. eapply Forall_impl; [exact Hsets|].
  intros s Hs. simpl in *.
  apply (known_mono (update args params)).
  - apply (left_by_ok _ Hc).
  - by rewrite known_update.
Qed.

Lemma run_sets_known (yaml_dict : list (string * list (string * V))) :
  completes analysis →
  ∀ args,
    Forall (λ s, known args s.2 = true) yaml_dict →
    run_sets analysis args yaml_dict
    = (map Analysis (called_with analysis args yaml_dict), Ok tt).
Proof.
  intros Hc.
  induction yaml_dict as [|[name params] rest IH]; intros args Hk; [done|].
  apply Forall_cons in Hk as [Hp Hrest]. simpl in Hp.
  simpl. rewrite (set_params_known params args Hp).
  destruct (left_by_ok (update args params) Hc) as [-> _].
  rewrite IH; [done|]. by apply known_after_set.
Qed.

Lemma called_with_length (yaml_dict : list (string * list (string * V))) :
  ∀ args, length (called_with analysis args yaml_dict) = length yaml_dict.
Proof.
  induction yaml_dict as [|[name params] rest IH]; intros args; simpl;
    [done | by rewrite IH].
Qed.

Lemma called_with_step (yaml_dict : list (string * list (string * V))) :
  ∀ args i a a' name params,
    (args :: map (left_by analysis) (called_with analysis args yaml_dict))
      !! i = Some a →
    called_with analysis args yaml_dict !! i = Some a' →
    yaml_dict !! i = Some (name, params) →
    a' = update a params.
Proof.
  induction yaml_dict as [|[name0 params0] rest IH];
    intros args i a a' name params Ha Ha' Hy; [done|].
  destruct i as [|i]; simpl in *.
  - by injection Ha as <-; injection Ha' as <-; injection Hy as <- <-.
  - by eapply IH.
Qed.

(** X11.  With a configuration file whose entries all name arguments of
    the parser, and analyses that return, [main] runs one analysis per
    analysis set, in the order of the file, and the sets are not
    independent: the arguments are one shared object, so each analysis is
    called with the arguments as the analysis before it left them (as
    parsed, for the first), changed only at the entries of its own set,
    the last entry of a name winning and a dash in a name standing for an
    underscore. *)
Theorem config_sets_accumulate
        (parsed : Py.dict V) (yaml_dict : list (string * list (string * V)))
        (Hdone : completes analysis)
        (Hknown : Forall (λ s, known parsed s.2 = true) yaml_dict) :
  main analysis None parsed (Some yaml_dict)
  = (map Analysis (called_with analysis parsed yaml_dict), Ok tt)
  ∧ length (called_with analysis parsed yaml_dict) = length yaml_dict
  ∧ ∀ i a a' name params,
      (parsed :: map (left_by analysis)
                     (called_with analysis parsed yaml_dict)) !! i = Some a →
      called_with analysis parsed yaml_dict !! i = Some a' →
      yaml_dict !! i = Some (name, params) →
      ∀ k, Py.get a' k
           = match Py.get (rev (renamed params)) k with
             | Some v => Some v
             | None => Py.get a k
             end.
Proof.
  split; [|split].
  - simpl. by apply run_sets_known.
  - apply called_with_length.
  - intros i a a' name params Ha Ha' Hy k.
    rewrite (called_with_step _ _ _ _ _ _ _ Ha Ha' Hy). apply get_update.
Qed.

(** X12.  An entry whose name is no attribute of the arguments when its
    set is reached ends the run with the notice for that name and exit
    status 0, as a successful run would; the analyses of the sets before
    it have run by then, and neither the set with the entry nor a later
    one is analysed. *)
Theorem config_unknown_argument
        (parsed : Py.dict V)
        (before after : list (string * list (string * V)))
        (name : string) (params : list (string * V))
        (Hdone : completes analysis)
        (Hknown : Forall (λ s, known parsed s.2 = true) before)
        (Hunknown : known (after_sets analysis parsed before) params = false) :
  ∃ key, main analysis None parsed
              (Some (before ++ (name, params) :: after))
         = (map Analysis (called_with analysis parsed before)
              ++ [Notice (unknown_argument key)],
            Raise (SystemExit 0))
         ∧ Py.contains (after_sets analysis parsed before) key = false
         ∧ key ∈ Py.keys (renamed params).
Proof.
  simpl. revert parsed Hknown Hunknown.
  induction before as [|[name0 params0] before IH];
    intros parsed Hknown Hunknown.
  - destruct (set_params_unknown params parsed Hunknown)
      as (key & Hs & Hc & Hin).
    exists key. simpl. by rewrite Hs.
  - apply Forall_cons in Hknown as [Hp Hrest]. simpl in Hp.
    destruct (IH (left_by analysis (update parsed params0)))
      as (key & Hr & Hc & Hin).
    + by apply known_after_set.
    + exact Hunknown.
    + exists key. simpl.
      rewrite (set_params_known params0 parsed Hp).
      destruct (left_by_ok (update parsed params0) Hdone) as [-> _].
      by rewrite Hr.
Qed.

End MainProps.

Section MainWitnesses.
Import Main.

Lemma analysis_done_completes : completes analysis_done.
Proof.
  intros args. eexists. split; [reflexivity|].
  intros k. unfold Py.contains. rewrite get_set.
  by destruct (String.eqb k "kilonova_tstep").
Qed.

Lemma config_sets_accumulate_witness :
  main analysis_done None parsed_args (Some two_sets)
  = ([Analysis [("n_tstep", 10); ("nlive", 2048); ("dt", 1)]%string%Z;
      Analysis [("n_tstep", 10); ("nlive", 64); ("dt", 1);
                ("kilonova_tstep", 1)]%string%Z],
     Ok tt).
Proof.
  apply (config_sets_accumulate analysis_done parsed_args two_sets).
  - exact analysis_done_completes.
  - repeat constructor.
Defined.

Lemma config_unknown_argument_witness :
  ∃ key, main analysis_done None parsed_args (Some misspelt_set)
         = ([Analysis [("n_tstep", 10); ("nlive", 2048); ("dt", 1)]%string%Z;
             Notice (unknown_argument key)],
            Raise (SystemExit 0))
         ∧ Py.contains
             (after_sets analysis_done parsed_args
                         [("first", [("n-tstep", 10)])]%string%Z) key = false
         ∧ key ∈ Py.keys (renamed [("nlive", 64); ("n-live", 32)]%string%Z).
Proof.
  apply (config_unknown_argument analysis_done parsed_args
           [("first", [("n-tstep", 10)])]%string%Z
           [("third", [("dt", 2)])]%string%Z
           "second"%string [("nlive", 64); ("n-live", 32)]%string%Z).
  - exact analysis_done_completes.
  - repeat constructor.
  - reflexivity.
Defined.

(** Arguments passed to [main] are analysed as they are, whatever the
    configuration, and an empty configuration file runs no analysis. *)
Example main_given_and_empty :
  main analysis_done (Some parsed_args) [] (Some two_sets)
  = ([Analysis parsed_args], Ok tt)
  ∧ main analysis_done None parsed_args (Some [])
    = ([], Ok tt).
Proof. split; reflexivity. Qed.

(** A name the analysis writes is no argument of the parser: the first
    set may not give it, a later set may. *)
Example written_name_becomes_known :
  main analysis_done None parsed_args
       (Some [("first", [("kilonova-tstep", 5)])]%string%Z)
  = ([Notice (unknown_argument "kilonova_tstep")], Raise (SystemExit 0))
  ∧ main analysis_done None parsed_args
         (Some [("first", []); ("second", [("kilonova-tstep", 5)])]%string%Z)
    = ([Analysis parsed_args;
        Analysis [("n_tstep", 50); ("nlive", 2048); ("dt", 1);
                  ("kilonova_tstep", 5)]%string%Z],
       Ok tt).
Proof. split; reflexivity. Qed.

End MainWitnesses.

(** ** The error budget and the goodness of fit together *)

Section BudgetGoodnessProps.
Import Resolver BestFit.

Variable to_float : string → option fnum.
Variable set_iter : list string → list string.
Hypothesis set_iter_perm : ∀ l, NoDup l → set_iter l ≡ₚ l.

Lemma chi2_of_filter_needs_budget (mag_dict : Py.dict (list fnum))
      (params eb : Py.dict fnum) (processed : dataset) (filt : string)
      (rows : list row) :
  Py.get processed filt = Some rows →
  finite_unc_rows rows ≠ [] →
  Py.contains params "em_syserr" = false →
  Py.get eb filt = None →
  is_ok (chi2_of_filter mag_dict params eb processed filt) = false.
Proof.
  intros Hp Hdet Hsys Heb. unfold chi2_of_filter.
  destruct (Py.getitem mag_dict bestfit_sample_times) as [times|e]; [|done].
  destruct (Py.getitem mag_dict filt) as [traj|e]; [|done].
  cbn [mbind result_bind].
  destruct (interp1d times traj) as [interp|e]; [|done].
  rewrite (getitem_Some _ _ _ Hp). cbn [mbind result_bind].
  assert ((0 <? length (where_finite (map mag_unc rows)))%nat = true) as Hn.
  { apply Nat.ltb_lt. rewrite where_finite_length.
    destruct (finite_unc_rows rows); [done | simpl; lia]. }
  assert (effective_error params eb filt = Raise (KeyError filt)) as Herr.
  { unfold effective_error, Py.getitem. by rewrite Hsys, Heb. }
  destruct (Py.contains params "timeshift").
  - destruct (Py.getitem params "timeshift") as [ts|e]; [|done].
    cbn [mbind result_bind]. by rewrite Hn, Herr.
  - cbn [mbind result_bind]. by rewrite Hn, Herr.
Qed.

(** X13.  A list of error budgets is paired with the requested filters
    only.  An augmentation filter that the dataset holds is analyzed, but
    has no entry in the resolved budget; when it has a detection and the
    best-fit parameters hold no [em_syserr], the goodness of fit of the
    run cannot be computed. *)
Theorem augmentation_filter_without_budget
        (filters : string) (aug : option string) (b : budget_arg)
        (eb : list fnum) (data processed : dataset)
        (mag_dict : Py.dict (list fnum)) (params : Py.dict fnum)
        (v : string) (rows : list row) :
  Py.truthy (Some filters) = true →
  parse_budget to_float b = Ok eb →
  length eb ≠ 1 →
  length eb = length (Py.split Py.comma filters) →
  v ∈ requested_plus filters aug →
  v ∉ Py.split Py.comma filters →
  v ∈ Py.keys data →
  Py.get processed v = Some rows →
  finite_unc_rows rows ≠ [] →
  Py.contains params "em_syserr" = false →
  ∃ fta budget,
    resolve to_float set_iter (Some filters) aug b data = Ok (fta, budget)
    ∧ v ∈ fta
    ∧ Py.getitem budget v = Raise (KeyError v)
    ∧ is_ok (chi2_per_dof mag_dict params budget processed fta) = false.
Proof.
  intros Ht Hb Hne Hlen Hreq Hnot Hdata Hp Hdet Hsys.
  destruct (filters_to_analyze_spec set_iter set_iter_perm filters aug data)
    as (fta & Hfta & _ & Hel & _).
  set (requested := Py.split Py.comma filters) in *.
  exists fta, (Py.of_pairs (Py.zip requested eb)).
  assert (v ∈ fta) as Hv by by apply Hel.
  assert (Py.get (Py.of_pairs (Py.zip requested eb)) v = None) as Hnone.
  { pose proof (zip_budget_contains requested eb v Hlen) as Hc.
    apply mem_not_elem_of in Hnot. rewrite Hnot in Hc.
    unfold Py.contains in Hc.
    by destruct (Py.get (Py.of_pairs (Py.zip requested eb)) v). }
  split; [|split; [done|split]].
  - unfold resolve. rewrite Hb. cbn [mbind result_bind].
    rewrite Ht. change (default EmptyString (Some filters)) with filters.
    rewrite Hfta. cbn [mbind result_bind].
    apply Nat.eqb_neq in Hne. rewrite Hne. fold requested.
    assert ((length requested =? length eb)%nat = true) as ->; [|done].
    apply Nat.eqb_eq. lia.
  - unfold Py.getitem. by rewrite Hnone.
  - apply (chi2_per_dof_fails _ _ _ _ _ v Hv).
    by apply (chi2_of_filter_needs_budget _ _ _ _ _ rows).
Qed.

(** X14.  A single error budget reaches every analyzed filter: whether
    or not filters are requested, the resolution succeeds, and for each
    analyzed filter the error used by the goodness of fit is defined; it
    is [em_syserr] when the best-fit parameters hold one, else the single
    value. *)
Theorem single_budget_covers_analyzed
        (filters aug : option string) (b : budget_arg) (x : fnum)
        (data : dataset) (params : Py.dict fnum) :
  parse_budget to_float b = Ok [x] →
  ∃ fta budget,
    resolve to_float set_iter filters aug b data = Ok (fta, budget)
    ∧ ∀ f, f ∈ fta →
           effective_error params budget f
           = Ok (default x (Py.get params "em_syserr")).
Proof.
  intros Hb.
  assert (∀ fta f, f ∈ fta →
                   effective_error params (broadcast fta [x]) f
                   = Ok (default x (Py.get params "em_syserr"))) as Heff.
  { intros fta f Hf. apply effective_error_cases.
    destruct (Py.get params "em_syserr"); [done|].
    rewrite broadcast_get. apply mem_elem_of in Hf. by rewrite Hf. }
  unfold resolve. rewrite Hb. cbn [mbind result_bind].
  destruct (Py.truthy filters) eqn:Ht.
  - destruct (filters_to_analyze_spec set_iter set_iter_perm
                (default EmptyString filters) aug data)
      as (fta & Hfta & _).
    rewrite Hfta. cbn [mbind result_bind]. simpl.
    exists fta, (broadcast fta [x]). split; [done|]. apply Heff.
  - exists (Py.keys data), (broadcast (Py.keys data) [x]).
    split; [done|]. apply Heff.
Qed.

End BudgetGoodnessProps.

Section BudgetGoodnessWitnesses.
Import Resolver BestFit.

Lemma augmentation_filter_without_budget_witness :
  ∃ fta budget,
    resolve parse_decimal insertion_order (Some "g,r"%string)
            (Some "i"%string) (BudgetString "0.1,0.2") gri_data
    = Ok (fta, budget)
    ∧ "i"%string ∈ fta
    ∧ Py.getitem budget "i" = Raise (KeyError "i")
    ∧ is_ok (chi2_per_dof stored_gr no_timeshift budget gri_data fta) = false.
Proof.
  apply (augmentation_filter_without_budget parse_decimal insertion_order
           (λ l _, reflexivity l)
           "g,r" (Some "i"%string) (BudgetString "0.1,0.2") two_budgets
           gri_data gri_data stored_gr no_timeshift "i" one_point).
  - reflexivity.
  - reflexivity.
  - simpl; lia.
  - reflexivity.
  - apply (bool_decide_unpack _). reflexivity.
  - apply (bool_decide_unpack _). reflexivity.
  - apply (bool_decide_unpack _). reflexivity.
  - reflexivity.
  - discriminate.
  - reflexivity.
Defined.

Lemma single_budget_covers_analyzed_witness :
  ∃ fta budget,
    resolve parse_decimal insertion_order (Some "g,r"%string)
            (Some "i"%string) (BudgetString "1.0") gri_data
    = Ok (fta, budget)
    ∧ ∀ f, f ∈ fta →
           effective_error no_timeshift budget f
           = Ok (default (of_Q (10 # 10)) (Py.get no_timeshift "em_syserr")).
Proof.
  apply (single_budget_covers_analyzed parse_decimal insertion_order
           (λ l _, reflexivity l)).
  reflexivity.
Defined.

End BudgetGoodnessWitnesses.

(** ** The sampler call *)

Section SamplerRunProps.
Import Sampler.

(** X15.  Unless reactive sampling is asked of a sampler other than
    ultranest, the driver reaches the call of the sampler.  The live
    points passed are [args.nlive], or none at all under reactive
    sampling, whatever [args.nlive] holds.  The keyword arguments are
    [sampler_kwargs] as given, except that a replay ([skip_sampling]) sets
    [max_iter], [niter] or [maxiter] to 1 for pymultinest, ultranest or
    dynesty, over a value the user gave; for any other sampler a replay
    changes nothing, so that the sampling runs in full.  When one of these
    keys is also passed by name in the call, the call raises a
    [TypeError] and the sampler is not entered; otherwise the sampler is
    called exactly once, and the driver ends as that call ends. *)
Theorem sampler_call_outcome
        (bilby_run_sampler : string → option Z → Py.dict Z → result unit)
        (a : sampler_args) (sampler_kwargs : Py.dict Z) :
  reactive_sampling a = false ∨ sampler a = "ultranest"%string →
  ∃ kwargs,
    (∀ k, k ∉ iteration_keywords →
          Py.get kwargs k = Py.get sampler_kwargs k)
    ∧ (skip_sampling a = false → kwargs = sampler_kwargs)
    ∧ (sampler a ∉ known_samplers → kwargs = sampler_kwargs)
    ∧ (skip_sampling a = true →
       (sampler a = "pymultinest"%string →
        kwargs = Py.set sampler_kwargs "max_iter" 1%Z)
       ∧ (sampler a = "ultranest"%string →
          kwargs = Py.set sampler_kwargs "niter" 1%Z)
       ∧ (sampler a = "dynesty"%string →
          kwargs = Py.set sampler_kwargs "maxiter" 1%Z))
    ∧ match colliding kwargs with
      | Some key =>
          existsb ran_sampler
                  (trace (drive bilby_run_sampler a sampler_kwargs)) = false
          ∧ outcome (drive bilby_run_sampler a sampler_kwargs)
            = Raise (TypeError (multiple_values key))
      | None =>
          let nlive := if reactive_sampling a then None
                       else Some (nlive a) in
          List.filter ran_sampler
                      (trace (drive bilby_run_sampler a sampler_kwargs))
          = [RunSampler (sampler a) nlive kwargs]
          ∧ outcome (drive bilby_run_sampler a sampler_kwargs)
            = bilby_run_sampler (sampler a) nlive kwargs
      end.
Proof.
  intros H.
  assert (∀ s key v k, k ∉ iteration_keywords → key ∈ iteration_keywords →
                       Py.get (Py.set s key v) k = Py.get (s : Py.dict Z) k)
    as Hframe.
  { intros s key v k Hk Hkey. rewrite get_set.
    destruct (String.eqb_spec k key) as [->|]; [done|done]. }
  assert (∃ n, choose_nlive a
               = IO n (Ok (Bound (if reactive_sampling a then None
                                  else Some (nlive a))))
               ∧ List.filter ran_sampler n = []
               ∧ existsb ran_sampler n = false) as (n & Hn & Hnf & Hne).
  { unfold choose_nlive. destruct (reactive_sampling a).
    - destruct H as [H|H]; [done|]. rewrite H. by eexists.
    - by eexists. }
  assert (∀ pre kwargs,
            List.filter ran_sampler pre = [] →
            existsb ran_sampler pre = false →
            let d := IO pre (Ok kwargs)
                       ≫= run_sampler bilby_run_sampler a
                            (Bound (if reactive_sampling a then None
                                    else Some (nlive a))) in
            match colliding kwargs with
            | Some key =>
                existsb ran_sampler (trace d) = false
                ∧ outcome d = Raise (TypeError (multiple_values key))
            | None =>
                List.filter ran_sampler (trace d)
                = [RunSampler (sampler a)
                     (if reactive_sampling a then None else Some (nlive a))
                     kwargs]
                ∧ outcome d
                  = bilby_run_sampler (sampler a)
                      (if reactive_sampling a then None else Some (nlive a))
                      kwargs
            end) as Hcall.
  { intros pre kwargs Hpf Hpe. unfold run_sampler, mbind, io_bind. simpl.
    destruct (colliding kwargs) as [key|]; simpl.
    - by rewrite app_nil_r.
    - rewrite List.filter_app, Hpf. simpl.
      by destruct (bilby_run_sampler (sampler a)
                     (if reactive_sampling a then None else Some (nlive a))
                     kwargs). }
  assert (∀ pre kwargs,
            replay_kwargs a sampler_kwargs = IO pre (Ok kwargs) →
            List.filter ran_sampler pre = [] →
            existsb ran_sampler pre = false →
            match colliding kwargs with
            | Some key =>
                existsb ran_sampler
                  (trace (drive bilby_run_sampler a sampler_kwargs)) = false
                ∧ outcome (drive bilby_run_sampler a sampler_kwargs)
                  = Raise (TypeError (multiple_values key))
            | None =>
                List.filter ran_sampler
                  (trace (drive bilby_run_sampler a sampler_kwargs))
                = [RunSampler (sampler a)
                     (if reactive_sampling a then None else Some (nlive a))
                     kwargs]
                ∧ outcome (drive bilby_run_sampler a sampler_kwargs)
                  = bilby_run_sampler (sampler a)
                      (if reactive_sampling a then None else Some (nlive a))
                      kwargs
            end) as Hdrive.
  { intros pre kwargs Hrep Hpf Hpe.
    specialize (Hcall (Print "Running with the following additional sampler_kwargs:"
                         :: PrintDict sampler_kwargs :: n ++ pre) kwargs).
    assert (drive bilby_run_sampler a sampler_kwargs
            = (IO (Print "Running with the following additional sampler_kwargs:"
                     :: PrintDict sampler_kwargs :: n ++ pre) (Ok kwargs)
                 ≫= run_sampler bilby_run_sampler a
                      (Bound (if reactive_sampling a then None
                              else Some (nlive a))))) as ->.
    { unfold drive. rewrite Hn, Hrep. unfold mbind, io_bind, print. simpl.
      destruct (run_sampler bilby_run_sampler a
                  (Bound (if reactive_sampling a then None
                          else Some (nlive a))) kwargs) as [tr [u|e]];
        simpl; by rewrite <- ?app_assoc. }
    apply Hcall.
    - simpl. by rewrite List.filter_app, Hnf, Hpf.
    - simpl. by rewrite existsb_app, Hne, Hpe. }
  unfold replay_kwargs in Hdrive.
  destruct (skip_sampling a) eqn:Hskip.
  - destruct (String.eqb_spec (sampler a) "pymultinest") as [Hs|Hs1];
      [|destruct (String.eqb_spec (sampler a) "ultranest") as [Hs|Hs2];
        [|destruct (String.eqb_spec (sampler a) "dynesty") as [Hs|Hs3]]].
    + exists (Py.set sampler_kwargs "max_iter" 1%Z).
      repeat split; try done; try (rewrite Hs; discriminate).
      * intros k Hk. apply Hframe; [done|]. by left.
      * intros Hno. exfalso. apply Hno. rewrite Hs. by left.
      * by eapply Hdrive.
    + exists (Py.set sampler_kwargs "niter" 1%Z).
      repeat split; try done; try (rewrite Hs; discriminate).
      * intros k Hk. apply Hframe; [done|]. right. by left.
      * intros Hno. exfalso. apply Hno. rewrite Hs. right. by left.
      * by eapply Hdrive.
    + exists (Py.set sampler_kwargs "maxiter" 1%Z).
      repeat split; try done; try (rewrite Hs; discriminate).
      * intros k Hk. apply Hframe; [done|]. do 2 right. by left.
      * intros Hno. exfalso. apply Hno. rewrite Hs. do 2 right. by left.
      * by eapply Hdrive.
    + exists sampler_kwargs.
      repeat split; try done. by eapply Hdrive.
  - exists sampler_kwargs.
    repeat split; try done. by eapply Hdrive.
Qed.

Lemma sampler_call_outcome_witness :
  ∃ kwargs,
    (∀ k, k ∉ iteration_keywords →
          Py.get kwargs k = Py.get user_kwargs k)
    ∧ (skip_sampling replay_dynesty = false → kwargs = user_kwargs)
    ∧ (sampler replay_dynesty ∉ known_samplers → kwargs = user_kwargs)
    ∧ (skip_sampling replay_dynesty = true →
       (sampler replay_dynesty = "pymultinest"%string →
        kwargs = Py.set user_kwargs "max_iter" 1%Z)
       ∧ (sampler replay_dynesty = "ultranest"%string →
          kwargs = Py.set user_kwargs "niter" 1%Z)
       ∧ (sampler replay_dynesty = "dynesty"%string →
          kwargs = Py.set user_kwargs "maxiter" 1%Z))
    ∧ match colliding kwargs with
      | Some key =>
          existsb ran_sampler
                  (trace (drive sampler_returns replay_dynesty user_kwargs))
          = false
          ∧ outcome (drive sampler_returns replay_dynesty user_kwargs)
            = Raise (TypeError (multiple_values key))
      | None =>
          let nlive := if reactive_sampling replay_dynesty then None
                       else Some (nlive replay_dynesty) in
          List.filter ran_sampler
                      (trace (drive sampler_returns replay_dynesty
                                    user_kwargs))
          = [RunSampler (sampler replay_dynesty) nlive kwargs]
          ∧ outcome (drive sampler_returns replay_dynesty user_kwargs)
            = sampler_returns (sampler replay_dynesty) nlive kwargs
      end.
Proof.
  apply (sampler_call_outcome sampler_returns replay_dynesty user_kwargs).
  left. reflexivity.
Defined.

(** The user's [maxiter] is replaced. *)
Example replay_overrides_user :
  List.filter ran_sampler
              (trace (drive sampler_returns replay_dynesty user_kwargs))
  = [RunSampler "dynesty" (Some 2048%Z)
                [("maxiter", 1); ("dlogz", 1)]%string%Z].
Proof. reflexivity. Qed.

(** [nlive] among the sampler keywords: the call raises, the sampler is
    not entered. *)
Example nlive_given_twice :
  drive sampler_returns replay_dynesty [("nlive", 5)]%string%Z
  = IO [Print "Running with the following additional sampler_kwargs:";
        PrintDict [("nlive", 5)]%string%Z;
        Print "Sampling for 1 iteration and plotting checkpointed results."]
       (Raise (TypeError "got multiple values for keyword argument 'nlive'")).
Proof. reflexivity. Qed.

End SamplerRunProps.

(** ** The removal of non-detections *)

Section RemovalProps.
Import Validate.

Lemma get_app_notin {V : Type} (pre d : Py.dict V) k :
  k ∉ Py.keys pre → Py.get (pre ++ d) k = Py.get d k.
Proof. intros H. apply get_None_iff in H. by rewrite get_app, H. Qed.

Lemma set_app_notin {V : Type} (pre d : Py.dict V) k v :
  k ∉ Py.keys pre → Py.set (pre ++ d) k v = pre ++ Py.set d k v.
Proof.
  induction pre as [|[k0 v0] pre IH]; simpl; [done|].
  intros [Hne Hnotin]%not_elem_of_cons.
  apply String.eqb_neq in Hne. rewrite Hne. f_equal. by apply IH.
Qed.

Lemma del_app_notin {V : Type} (pre d : Py.dict V) k :
  k ∉ Py.keys pre → Py.del (pre ++ d) k = pre ++ Py.del d k.
Proof.
  induction pre as [|[k0 v0] pre IH]; simpl; [done|].
  intros [Hne Hnotin]%not_elem_of_cons.
  apply String.eqb_neq in Hne. rewrite Hne. f_equal. by apply IH.
Qed.

(** The loop, with the entries before the current key already done. *)
Lemma remove_loop (post : dataset) :
  ∀ pre, NoDup (Py.keys (pre ++ post)) →
         fold_left remove_step (Py.keys post) (pre ++ post)
         = pre ++ detections_only post.
Proof.
  induction post as [|[k rows] post IH]; intros pre Hnd; [done|].
  unfold Py.keys in Hnd. rewrite map_app in Hnd. cbn [map fst] in Hnd.
  pose proof Hnd as Hnd0.
  apply NoDup_app in Hnd as (Hpre & Hdis & Hpost).
  apply NoDup_cons in Hpost as [Hkpost Hpost].
  assert (k ∉ Py.keys pre) as Hk.
  { intros Hin. apply (Hdis k Hin). by left. }
  cbn [Py.keys map fst fold_left]. fold (Py.keys post).
  assert (remove_step (pre ++ (k, rows) :: post) k
          = match finite_unc_rows rows with
            | [] => pre ++ post
            | kept => (pre ++ [(k, kept)]) ++ post
            end) as ->.
  { unfold remove_step. rewrite (get_app_notin _ _ _ Hk). simpl.
    rewrite String.eqb_refl, (set_app_notin _ _ _ _ Hk). simpl.
    rewrite String.eqb_refl.
    destruct (finite_unc_rows rows) as [|r kept] eqn:Hkept; simpl.
    - rewrite (del_app_notin _ _ _ Hk). simpl. by rewrite String.eqb_refl.
    - by rewrite <- app_assoc. }
  unfold detections_only. cbn [flat_map fst snd]. fold (detections_only post).
  destruct (finite_unc_rows rows) as [|r kept] eqn:Hkept.
  - apply IH. unfold Py.keys. rewrite map_app. apply NoDup_app.
    split; [done|]. split; [|done].
    intros x Hx Hx'. apply (Hdis x Hx). by right.
  - rewrite IH; [by rewrite <- app_assoc|].
    unfold Py.keys. rewrite !map_app, <- app_assoc. exact Hnd0.
Qed.

(** X16.  With [--remove-nondetections], every filter keeps exactly its
    points of finite uncertainty, in their order; a filter without such a
    point leaves the dataset, the other filters keep their order.  So no
    upper limit and no empty filter is left, and removing again changes
    nothing. *)
Theorem remove_nondetections_detections_only (data : dataset) :
  NoDup (Py.keys data) →
  remove_nondetections data = detections_only data
  ∧ (∀ filt, Py.get (remove_nondetections data) filt
             = match Py.get data filt with
               | Some rows =>
                   match finite_unc_rows rows with
                   | [] => None
                   | kept => Some kept
                   end
               | None => None
               end)
  ∧ Py.keys (remove_nondetections data) `sublist_of` Py.keys data
  ∧ (∀ filt rows, (filt, rows) ∈ remove_nondetections data →
                  rows ≠ [] ∧ ∀ r, r ∈ rows → isfinite (mag_unc r) = true)
  ∧ remove_nondetections (remove_nondetections data)
    = remove_nondetections data.
Proof.
  intros Hnd.
  assert (∀ d, NoDup (Py.keys d) → remove_nondetections d = detections_only d)
    as Hrem.
  { intros d Hd. apply (remove_loop d []). exact Hd. }
  assert (∀ d, Py.keys (detections_only d) `sublist_of` Py.keys d) as Hsub.
  { induction d as [|[k rows] d IH]; [done|].
    unfold detections_only. cbn [flat_map fst snd]. fold (detections_only d).
    destruct (finite_unc_rows rows); simpl.
    - by apply sublist_cons.
    - by apply sublist_skip. }
  assert (∀ d filt rows, (filt, rows) ∈ detections_only d →
            rows ≠ [] ∧ (∀ r, r ∈ rows → isfinite (mag_unc r) = true)
            ∧ finite_unc_rows rows = rows) as Hrows.
  { intros d filt rows Hin. unfold detections_only in Hin.
    apply list_elem_of_In, in_flat_map in Hin as [[k rs] [_ Hin]].
    simpl in Hin. destruct (finite_unc_rows rs) as [|r kept] eqn:Hkept;
      [by apply in_nil in Hin|].
    destruct Hin as [[= <- <-]|[]]. rewrite <- Hkept.
    split; [by rewrite Hkept|]. split; [|apply finite_unc_rows_idem].
    intros r' Hr'. unfold finite_unc_rows in Hr'.
    by apply elem_of_List_filter in Hr' as [_ ?]. }
  rewrite (Hrem data Hnd).
  split; [done|]. split; [|split; [apply Hsub|split]].
  - intros filt. clear Hrem. induction data as [|[k rows] data IH]; [done|].
    apply NoDup_cons in Hnd as [Hk Hnd].
    unfold detections_only. cbn [flat_map fst snd]. fold (detections_only data).
    rewrite get_app. simpl.
    destruct (String.eqb_spec filt k) as [->|Hne].
    + destruct (finite_unc_rows rows); simpl.
      * assert (Py.get (detections_only data) k = None) as ->; [|done].
        apply get_None_iff. intros Hin. apply Hk.
        by apply (elem_of_sublist _ _ _ Hin (Hsub data)).
      * by rewrite String.eqb_refl.
    + rewrite <- (IH Hnd).
      destruct (finite_unc_rows rows); simpl; [done|].
      apply String.eqb_neq in Hne. by rewrite Hne.
  - intros filt rows Hin. by destruct (Hrows _ _ _ Hin) as (? & ? & _).
  - rewrite Hrem; [|by apply (sublist_NoDup _ _ Hnd (Hsub data))].
    assert (∀ d, (∀ filt rows, (filt, rows) ∈ d →
                    rows ≠ [] ∧ finite_unc_rows rows = rows) →
                 detections_only d = d) as Hid.
    { induction d as [|[k rows] d IH]; intros Hd; [done|].
      unfold detections_only. cbn [flat_map fst snd]. fold (detections_only d).
      destruct (Hd k rows) as [Hne Heq]; [by left|]. rewrite Heq.
      destruct rows; [done|]. simpl. f_equal. apply IH.
      intros f rs Hf. apply (Hd f). by right. }
    apply Hid. intros filt rows Hin.
    by destruct (Hrows _ _ _ Hin) as (? & _ & ?).
Qed.

Lemma remove_nondetections_detections_only_witness :
  remove_nondetections mixed_data
  = [("g"%string, [Row (of_Z 1) (of_Z 20) (of_Q (1 # 10))]);
     ("i"%string, [Row (of_Z 2) (of_Z 19) (of_Q (2 # 10))])].
Proof.
  apply (remove_nondetections_detections_only mixed_data).
  apply (bool_decide_unpack _). reflexivity.
Defined.

End RemovalProps.

Section RemovalValidationProps.
Import Validate.

Lemma detections_only_elem_of (data : dataset) filt kept :
  (filt, kept) ∈ detections_only data
  ↔ ∃ rows, (filt, rows) ∈ data ∧ kept = finite_unc_rows rows ∧ kept ≠ [].
Proof.
  unfold detections_only. rewrite list_elem_of_In, in_flat_map. split.
  - intros [[k rows] [Hin Hk]]. simpl in Hk.
    destruct (finite_unc_rows rows) as [|r l] eqn:Hkept; [done|].
    destruct Hk as [[= <- <-]|[]]. exists rows.
    by rewrite list_elem_of_In.
  - intros (rows & Hin & -> & Hne). exists (filt, rows).
    rewrite <- list_elem_of_In. split; [done|]. simpl.
    destruct (finite_unc_rows rows); [done | by left].
Qed.

(** X17.  With [--remove-nondetections] the validation asks more than
    without it: the run goes on exactly when some single point has both a
    finite uncertainty and a finite magnitude, and the dataset then holds
    the detections only.  (Without the removal a finite uncertainty and a
    finite magnitude at two different points are enough.) *)
Theorem load_validate_after_removal (data : dataset) :
  NoDup (Py.keys data) →
  (load_validate true data = Ok (detections_only data)
   ↔ ∃ filt rows r, (filt, rows) ∈ data ∧ r ∈ rows
                    ∧ isfinite (mag_unc r) = true
                    ∧ isfinite (mag r) = true)
  ∧ (load_validate true data = Raise (ValueError no_detection_msg)
     ∨ load_validate true data = Ok (detections_only data)).
Proof.
  intros Hnd.
  assert (remove_nondetections data = detections_only data) as Hrem
    by apply (remove_loop data [] Hnd).
  assert (load_validate true data
          = (_ ← check_detections (detections_only data);
             Ok (detections_only data))) as ->.
  { unfold load_validate, staged. by rewrite Hrem. }
  split.
  - transitivity (check_detections (detections_only data) = Ok tt).
    { destruct (check_detections (detections_only data)) as [[]|e];
        simpl; split; congruence. }
    rewrite check_detections_ok. unfold some_finite. split.
    + intros [_ (filt & kept & r & Hin & Hr & Hf)].
      apply detections_only_elem_of in Hin as (rows & Hin & -> & _).
      unfold finite_unc_rows in Hr.
      apply elem_of_List_filter in Hr as [Hr Hu].
      by exists filt, rows, r.
    + intros (filt & rows & r & Hin & Hr & Hu & Hm).
      assert (r ∈ finite_unc_rows rows) as Hr'.
      { unfold finite_unc_rows. by apply elem_of_List_filter. }
      assert ((filt, finite_unc_rows rows) ∈ detections_only data) as Hin'.
      { apply detections_only_elem_of. exists rows.
        split; [done|]. split; [done|]. intros Hnil.
        rewrite Hnil in Hr'. by apply elem_of_nil in Hr'. }
      split; by exists filt, (finite_unc_rows rows), r.
  - unfold check_detections.
    destruct (check_loop (detections_only data) false false) as [d n].
    destruct (negb d || negb n); [by left | by right].
Qed.

Lemma load_validate_after_removal_witness :
  (load_validate true mixed_data = Ok (detections_only mixed_data)
   ↔ ∃ filt rows r, (filt, rows) ∈ mixed_data ∧ r ∈ rows
                    ∧ isfinite (mag_unc r) = true
                    ∧ isfinite (mag r) = true)
  ∧ (load_validate true mixed_data = Raise (ValueError no_detection_msg)
     ∨ load_validate true mixed_data = Ok (detections_only mixed_data)).
Proof.
  apply (load_validate_after_removal mixed_data).
  apply (bool_decide_unpack _). reflexivity.
Defined.

(** A detection whose magnitude is not finite beside an upper limit of
    finite magnitude: accepted as loaded, rejected once the upper limit is
    removed. *)
Example removal_is_stricter :
  let data := [("g"%string, [Row (of_Z 1) PInf (of_Q (1 # 10));
                             Row (of_Z 2) (of_Z 21) PInf])] in
  is_ok (load_validate false data) = true
  ∧ load_validate true data = Raise (ValueError no_detection_msg).
Proof. split; reflexivity. Qed.

End RemovalValidationProps.

(** ** What the plot leaves alone *)

Section PlotFrameProps.
Import Plot.

Lemma keys_set_present {V : Type} (d : Py.dict V) k v :
  Py.contains d k = true → Py.keys (Py.set d k v) = Py.keys d.
Proof.
  unfold Py.contains. induction d as [|[k0 v0] d IH]; simpl; [done|].
  destruct (String.eqb k k0); simpl; [done|].
  intros H. f_equal. by apply IH.
Qed.

Lemma plot_loop_keys (trigger_time : fnum) (filters : list string) :
  ∀ data data', plot_loop data trigger_time filters = Ok data' →
                Py.keys data' = Py.keys data.
Proof.
  induction filters as [|filt filters IH]; intros data data' H; simpl in H.
  - by injection H as <-.
  - unfold isub_epochs, Py.getitem in H.
    destruct (Py.get data filt) as [rows|] eqn:Hg; [|done].
    cbn [mbind result_bind] in H. rewrite (IH _ _ H).
    apply keys_set_present. unfold Py.contains. by rewrite Hg.
Qed.

Lemma shift_epochs_fields (trigger_time : fnum) (rows : list row) :
  map mag (shift_epochs trigger_time rows) = map mag rows
  ∧ map mag_unc (shift_epochs trigger_time rows) = map mag_unc rows.
Proof.
  unfold shift_epochs. rewrite !map_map. simpl. done.
Qed.

(** X18.  The subtraction of the trigger time in the plot reaches the
    epochs of the drawn filters and nothing else: the dataset keeps its
    filters and their order, every filter that is not drawn (not analyzed,
    or with [nan] magnitudes only) keeps its array, and every filter keeps
    its magnitudes and uncertainties. *)
Theorem plot_touches_epochs_only
        (data : dataset) (trigger_time : fnum)
        (filters_to_analyze : list string) :
  NoDup filters_to_analyze →
  ∃ data', plot data trigger_time filters_to_analyze = Ok data'
    ∧ Py.keys data' = Py.keys data
    ∧ (∀ f, f ∉ filters_plot data filters_to_analyze →
            Py.get data' f = Py.get data f)
    ∧ (∀ f rows', Py.get data' f = Some rows' →
         ∃ rows, Py.get data f = Some rows
                 ∧ map mag rows' = map mag rows
                 ∧ map mag_unc rows' = map mag_unc rows).
Proof.
  intros Hnd. unfold plot.
  destruct (plot_loop_effect trigger_time
              (filters_plot data filters_to_analyze) data)
    as (data' & Hloop & Hget).
  - by apply NoDup_List_filter.
  - intros f Hf. unfold filters_plot in Hf.
    apply elem_of_List_filter in Hf as [_ Hf].
    destruct (Py.get data f); [by eexists | done].
  - exists data'. split; [done|]. split; [by eapply plot_loop_keys|]. split.
    + intros f Hf. rewrite Hget. apply mem_not_elem_of in Hf. by rewrite Hf.
    + intros f rows'. rewrite Hget.
      destruct (Py.mem f (filters_plot data filters_to_analyze)).
      * destruct (Py.get data f) as [rows|]; [|done]. simpl.
        intros [= <-]. exists rows. split; [done|].
        apply shift_epochs_fields.
      * intros H. by exists rows'.
Qed.

Lemma plot_touches_epochs_only_witness :
  ∃ data', plot mixed_data (of_Z 1) ["g"; "r"]%string = Ok data'
    ∧ Py.keys data' = Py.keys mixed_data
    ∧ (∀ f, f ∉ filters_plot mixed_data ["g"; "r"]%string →
            Py.get data' f = Py.get mixed_data f)
    ∧ (∀ f rows', Py.get data' f = Some rows' →
         ∃ rows, Py.get mixed_data f = Some rows
                 ∧ map mag rows' = map mag rows
                 ∧ map mag_unc rows' = map mag_unc rows).
Proof.
  apply (plot_touches_epochs_only mixed_data (of_Z 1) ["g"; "r"]%string).
  apply (bool_decide_unpack _). reflexivity.
Defined.

End PlotFrameProps.

(** ** The detection limits of the injection table *)

Section LimitsProps.
Import Resolver Injection Limits.

Variable to_float : string → option fnum.

Lemma paired_limits (fs : list string) :
  ∀ entries,
    map_result (λ xy, v ← float_of to_float xy.2; Ok (xy.1, v))
               (Py.zip fs entries)
    = (vals ← map_result (float_of to_float) (firstn (length fs) entries);
       Ok (Py.zip fs vals)).
Proof.
  induction fs as [|f fs IH]; intros [|e entries]; try done.
  cbn [Py.zip map_result length firstn fst snd].
  destruct (float_of to_float e) as [v|err]; [|done].
  cbn [mbind result_bind]. rewrite IH.
  by destruct (map_result (float_of to_float) (firstn (length fs) entries)).
Qed.

Lemma keys_zip_sublist {V : Type} (ks : list string) (vs : list V) :
  Py.keys (Py.zip ks vs) `sublist_of` ks.
Proof.
  revert vs. induction ks as [|k ks IH]; intros [|v vs]; simpl;
    try done; [apply sublist_nil_l | by apply sublist_skip].
Qed.

Lemma get_zip_position {V : Type} (ks : list string) :
  NoDup ks →
  ∀ (vs : list V) i k, ks !! i = Some k → Py.get (Py.zip ks vs) k = vs !! i.
Proof.
  induction 1 as [|k0 ks Hk0 Hnd IH]; intros vs i k Hi; [done|].
  destruct vs as [|v vs]; [by destruct i|].
  destruct i as [|i]; simpl in *.
  - injection Hi as ->. by rewrite String.eqb_refl.
  - assert (k ≠ k0) as Hne.
    { intros ->. apply Hk0. by eapply list_elem_of_lookup_2. }
    apply String.eqb_neq in Hne. rewrite Hne. by apply IH.
Qed.

Lemma get_rev_NoDup {V : Type} (d : Py.dict V) k :
  NoDup (Py.keys d) → Py.get (rev d) k = Py.get d k.
Proof.
  intros Hnd.
  assert (∀ v, (k, v) ∈ d → Py.get d k = Some v) as Huniq.
  { clear -Hnd. induction d as [|[k0 v0] d IH]; intros v Hin;
      [by apply elem_of_nil in Hin|].
    apply NoDup_cons in Hnd as [Hk0 Hnd]. simpl.
    apply elem_of_cons in Hin as [[= -> ->]|Hin].
    - by rewrite String.eqb_refl.
    - destruct (String.eqb_spec k k0) as [->|Hne]; [|by apply IH].
      exfalso. apply Hk0. unfold Py.keys.
      apply list_elem_of_fmap. by exists (k0, v). }
  destruct (Py.get (rev d) k) as [v|] eqn:Hr.
  - apply get_Some_elem_of in Hr. apply (proj1 (elem_of_rev _ _)) in Hr.
    symmetry. by apply Huniq.
  - symmetry. apply get_None_iff. apply get_None_iff in Hr.
    by rewrite keys_rev in Hr.
Qed.

Lemma pairs_with_inf (fs : list string) :
  map (λ x, (x, PInf)) fs = Py.zip fs (map (λ _, PInf) fs).
Proof. induction fs as [|f fs IH]; simpl; [done | by rewrite IH]. Qed.

(** X21.  The detection limits go to the model filters by position: the
    filter at place [i] gets the [i]-th entry of
    [--injection-detection-limit].  Entries beyond the filters are never
    read, not even converted; a filter beyond the entries, and a filter
    outside the model list, has no limit.  In its table row a detection
    carries its synthesized epoch, magnitude and uncertainty, and in
    [limmag] the limit of its filter, or [inf] when it has none; the row
    of an upper limit carries the synthesized magnitude there, whatever
    the limit. *)
Theorem detection_limits_by_position
        (fs : list string) (limits : option string) (vals : list fnum) :
  NoDup fs →
  match limits with
  | Some s => map_result (float_of to_float)
                         (firstn (length fs) (Py.split Py.comma s)) = Ok vals
  | None => vals = map (λ _, PInf) fs
  end →
  ∃ dl, detection_limit to_float (Some fs) limits = Ok dl
    ∧ (∀ i f, fs !! i = Some f → Py.get dl f = vals !! i)
    ∧ (∀ f, f ∉ fs → Py.get dl f = None)
    ∧ (∀ filt r, isfinite (mag_unc r) = true →
         emit_row dl filt r
         = TableRow (jd r) (mag r) (mag_unc r) filt
                    (default PInf (Py.get dl filt)) zero)
    ∧ (∀ filt r, isfinite (mag_unc r) = false →
         t_limmag (emit_row dl filt r) = mag r).
Proof.
  intros Hnd Hvals. exists (Py.of_pairs (Py.zip fs vals)).
  assert (∀ f, Py.get (Py.of_pairs (Py.zip fs vals)) f
               = Py.get (Py.zip fs vals) f) as Hget.
  { intros f. rewrite get_of_pairs. apply get_rev_NoDup.
    apply (sublist_NoDup _ _ Hnd). apply keys_zip_sublist. }
  split; [|split; [|split; [|split]]].
  - unfold detection_limit. destruct limits as [s|].
    + by rewrite paired_limits, Hvals.
    + by rewrite Hvals, pairs_with_inf.
  - intros i f Hi. rewrite Hget. by apply get_zip_position.
  - intros f Hf. rewrite Hget. apply get_None_iff. intros Hin. apply Hf.
    by apply (elem_of_sublist _ _ _ Hin (keys_zip_sublist fs vals)).
  - intros filt r Hf. unfold emit_row. rewrite Hf. simpl.
    by destruct (Py.get (Py.of_pairs (Py.zip fs vals)) filt).
  - intros filt r Hf. unfold emit_row. by rewrite Hf.
Qed.

(** A paired entry that is no number stops the run. *)
Lemma detection_limit_not_a_number
      (fs : list string) (s : string) (e : exn) :
  map_result (float_of to_float) (firstn (length fs) (Py.split Py.comma s))
  = Raise e →
  detection_limit to_float (Some fs) (Some s) = Raise e.
Proof. intros H. unfold detection_limit. by rewrite paired_limits, H. Qed.

End LimitsProps.

Section LimitsExamples.
Import Resolver Injection Limits.

(** Two limits for the filters [g,r], and a third entry that is no
    number. *)
Lemma detection_limits_by_position_witness :
  ∃ dl, detection_limit parse_decimal (Some ["g"; "r"]%string)
                        (Some "22.5,21,none"%string) = Ok dl
    ∧ (∀ i f, ["g"; "r"]%string !! i = Some f →
              Py.get dl f = [of_Q (225 # 10); of_Z 21] !! i)
    ∧ (∀ f, f ∉ ["g"; "r"]%string → Py.get dl f = None)
    ∧ (∀ filt r, isfinite (mag_unc r) = true →
         emit_row dl filt r
         = TableRow (jd r) (mag r) (mag_unc r) filt
                    (default PInf (Py.get dl filt)) zero)
    ∧ (∀ filt r, isfinite (mag_unc r) = false →
         t_limmag (emit_row dl filt r) = mag r).
Proof.
  apply (detection_limits_by_position parse_decimal
           ["g"; "r"]%string (Some "22.5,21,none"%string)
           [of_Q (225 # 10); of_Z 21]).
  - apply (bool_decide_unpack _). reflexivity.
  - reflexivity.
Defined.

(** One limit for two filters: the second has none.  A second entry that
    is no number raises. *)
Example detection_limit_short_and_bad :
  detection_limit parse_decimal (Some ["g"; "r"]%string) (Some "21"%string)
  = Ok [("g"%string, of_Z 21)]
  ∧ is_ok (detection_limit parse_decimal (Some ["g"; "r"]%string)
                           (Some "21,none"%string)) = false.
Proof. split; reflexivity. Qed.

End LimitsExamples.

(** ** The per-filter goodness of fit *)

Section PerFilterProps.
Import BestFit.

Variables (mag_dict : Py.dict (list fnum)) (params eb : Py.dict fnum)
          (processed : dataset).

Lemma chi2_loop_dict (filters : list string) :
  ∀ acc acc',
    chi2_loop mag_dict params eb processed filters acc = Ok acc' →
    ∀ f, Py.get (chi2_per_dof_dict acc') f
         = if Py.mem f filters
           then match chi2_of_filter mag_dict params eb processed f with
                | Ok (Some (c, n)) => Some (fdiv c (of_nat n))
                | _ => Py.get (chi2_per_dof_dict acc) f
                end
           else Py.get (chi2_per_dof_dict acc) f.
Proof.
  induction filters as [|x filters IH]; intros acc acc' H f;
    cbn [chi2_loop] in H.
  - by injection H as <-.
  - destruct (chi2_of_filter mag_dict params eb processed x) as [r|e] eqn:Hx;
      [|discriminate H].
    cbn [mbind result_bind] in H. rewrite (IH _ _ H f).
    unfold Py.mem. cbn [existsb]. fold (Py.mem f filters).
    assert (Py.get (chi2_per_dof_dict (accumulate acc x r)) f
            = match r with
              | Some (c, n) =>
                  if String.eqb f x then Some (fdiv c (of_nat n))
                  else Py.get (chi2_per_dof_dict acc) f
              | None => Py.get (chi2_per_dof_dict acc) f
              end) as Hacc.
    { destruct r as [[c n]|]; simpl; [apply get_set | done]. }
    rewrite Hacc. destruct (String.eqb f x) eqn:Hfx; simpl.
    + apply String.eqb_eq in Hfx. subst f. rewrite Hx.
      destruct r as [[c n]|]; by destruct (Py.mem x filters).
    + destruct r as [[c n]|]; done.
Qed.

(** X22.  When the goodness of fit is computed, the dictionary of
    per-filter values has an entry for exactly the analyzed filters that
    hold a detection, and the entry of a filter is its own chi-square over
    its own number of detections. *)
Theorem per_filter_entries
        (filters : list string) (total : fnum) (per_filt : Py.dict fnum) :
  chi2_per_dof mag_dict params eb processed filters = Ok (total, per_filt) →
  ∀ f, Py.get per_filt f
       = if Py.mem f filters
         then match chi2_of_filter mag_dict params eb processed f with
              | Ok (Some (c, n)) => Some (fdiv c (of_nat n))
              | _ => None
              end
         else None.
Proof.
  unfold chi2_per_dof. intros H f.
  destruct (chi2_loop mag_dict params eb processed filters (Totals zero 0 []))
    as [acc|e] eqn:Hloop; [|discriminate H].
  cbn [mbind result_bind] in H.
  destruct (divide acc) as [v|e]; [|discriminate H].
  injection H as <- <-.
  by rewrite (chi2_loop_dict filters _ _ Hloop f).
Qed.

End PerFilterProps.

Section PerFilterExamples.
Import BestFit.

Lemma per_filter_entries_witness :
  ∃ total per_filt,
    chi2_per_dof stored_gr no_timeshift budget_gr processed_gr
                 ["g"; "r"]%string = Ok (total, per_filt)
    ∧ ∀ f, Py.get per_filt f
           = if Py.mem f ["g"; "r"]%string
             then match chi2_of_filter stored_gr no_timeshift budget_gr
                                       processed_gr f with
                  | Ok (Some (c, n)) => Some (fdiv c (of_nat n))
                  | _ => None
                  end
             else None.
Proof.
  eexists _, _. split; [reflexivity|].
  eapply (per_filter_entries stored_gr no_timeshift budget_gr processed_gr
            ["g"; "r"]%string).
  reflexivity.
Defined.

End PerFilterExamples.
